(** * PW Attendance Portal: the QR attendance session protocol

    A shallow embedding of the session, scanning and recording code of the
    portal, and the properties of it that the specification talks about.

    Sources embedded here:
    - [src/services/firebase.js]: [createAttendanceSession],
      [markAttendance], [saveQRCodeToStorage], [getActiveSessions],
      [deactivateSession];
    - [src/components/faculty/QRGenerator.jsx]: [generateQRCode]
      (the session data it hands to [createAttendanceSession]);
    - [src/components/faculty/OfflineQRGenerator.jsx]:
      [generateQRWithEntropy], the session timer effect, the rotation
      effect and [generateQRCode];
    - [src/components/student/QRScanner.jsx]: [onScanSuccess].

    Conventions.  Instants are milliseconds since the epoch, in [Z]
    ([Date.getTime()]).  Every [new Date()] / [Date.now()], every random
    value and every identifier the store generates is an explicit input of
    the function that reads it.  A field that a JavaScript object may lack
    is an [option].  A store call fails only where the store's contract
    says so ([updateDoc] of a document that does not exist, [doc] of an
    identifier that is no document path); network and permission failures
    are not modelled, except where a caller acts on them ([Accounts]).

    Three layers are kept apart.
    - [Service] has every service call as one step on a store whose
      documents are addressed by their names: it is the call when its
      identifier is the name of a document (as the store generates them: not
      empty, no ['/']) and no other call comes between its awaits.
    - [Paths] and [Awaits] have [doc] as the store's SDK resolves an
      identifier given from outside, and [markAttendance] await by await, so
      that calls can overlap.  Theorems that need the identifiers to be
      names or the calls not to overlap say so in their hypotheses.
    - The components are embedded as a production build runs them, where
      React applies every state updater once; [StrictMode] has the rotation
      of a development build, in which the [React.StrictMode] that
      [main.jsx] mounts makes React call every updater twice.
    A component's effects run before its next timer callback. *)

From Stdlib Require Import ZArith String Ascii List Bool Lia DecimalString.
From stdpp Require Import gmap strings list fin_maps sorting.

Local Open Scope Z_scope.
Local Open Scope string_scope.

(** ** JavaScript odds and ends *)

Module Js.

(** Truthiness of a string-valued field: [undefined], [null] and the empty
    string are falsy. *)
Definition truthy (s : string) : bool := negb (String.eqb s "").

Definition truthy_opt (o : option string) : bool :=
  match o with
  | Some s => truthy s
  | None => false
  end.

(** [a || b] on string-valued fields. *)
Definition or_else (o : option string) (d : string) : string :=
  match o with
  | Some s => if truthy s then s else d
  | None => d
  end.

(** Decimal rendering of an integer, as a template literal [`${n}`] does. *)
Definition dec (z : Z) : string := NilZero.string_of_int (Z.to_int z).

(** [s.substr(0, n)]. *)
Definition substr0 (n : nat) (s : string) : string := String.substring 0 n s.

(** *** [btoa]: base64 of a string of 8-bit characters *)

Definition b64_alphabet : string :=
  "ABCDEFGHIJKLMNOPQRSTUVWXYZabcdefghijklmnopqrstuvwxyz0123456789+/".

Definition b64_digit (n : N) : ascii :=
  match String.get (N.to_nat n) b64_alphabet with
  | Some c => c
  | None => "="%char
  end.

Fixpoint btoa_codes (l : list N) : list ascii :=
  match l with
  | [] => []
  | [a] =>
      [b64_digit (a / 4); b64_digit ((a mod 4) * 16); "="%char; "="%char]
  | [a; b] =>
      [b64_digit (a / 4); b64_digit ((a mod 4) * 16 + b / 16);
       b64_digit ((b mod 16) * 4); "="%char]
  | a :: b :: c :: rest =>
      b64_digit (a / 4) :: b64_digit ((a mod 4) * 16 + b / 16)
      :: b64_digit ((b mod 16) * 4 + c / 64) :: b64_digit (c mod 64)
      :: btoa_codes rest
  end%N.

Definition btoa (s : string) : string :=
  string_of_list_ascii
    (btoa_codes (List.map N_of_ascii (list_ascii_of_string s))).

End Js.

(** ** The document store, as [firebase.js] uses it *)

Module Service.

(** The object [generateQRCode] passes to [createAttendanceSession]
    ([QRGenerator.jsx], [sessionData]). *)
Record SessionData := {
  sd_facultyId : string;
  sd_facultyName : string;
  sd_facultyEmail : string;
  sd_schoolId : string;
  sd_schoolName : string;
  sd_batchId : string;
  sd_batchName : string;
  sd_subjectId : string;
  sd_subjectName : string;
  sd_periods : Z;
  sd_timestamp : Z;
  sd_expiresAt : option Z;
  sd_studentsCount : Z;
  sd_academicYear : Z;
  sd_semester : Z
}.

(** One element of a session's [studentsPresent] array. *)
Record StudentEntry := {
  se_studentId : string;
  se_studentName : string;
  se_markedAt : Z;
  se_photoUrl : string
}.

(** A document of the [attendance_sessions] collection: the spread
    [...sessionData] and the fields the service functions write. *)
Record Session := {
  s_data : SessionData;
  createdAt : Z;
  isActive : option bool;
  qrCodeGenerated : option bool;
  studentsPresent : option (list StudentEntry);
  totalStudents : option Z;
  totalPresent : option nat;
  lastUpdated : option Z;
  deactivatedAt : option Z;
  qrCodeUrl : option string;
  qrCodePath : option string
}.

(** The object [submitAttendance] passes to [markAttendance]
    ([QRScanner.jsx], [attendanceData]). *)
Record AttendanceData := {
  studentId : string;
  sessionId : string;
  a_facultyId : string;
  a_school : string;
  a_batch : string;
  a_subject : string;
  a_periods : Z;
  photoUrl : string;
  studentName : string;
  studentEmail : string;
  regNumber : string;
  a_timestamp : Z;
  a_status : string
}.

(** A document of the [attendance] collection: [...attendanceData] with
    [timestamp] overwritten, [markedAt] and [deviceInfo]. *)
Record AttendanceRecord := {
  r_data : AttendanceData;
  r_timestamp : Z;
  r_markedAt : Z;
  r_deviceInfo : string
}.

(** The two collections.  [addDoc] on [attendance] gives every record an
    identifier of its own that nothing reads again, so the collection is the
    list of its documents in insertion order; [attendance_sessions] is looked
    up by document identifier. *)
Record Firestore := {
  attendance : list AttendanceRecord;
  attendance_sessions : gmap string Session
}.

Definition empty_db : Firestore :=
  {| attendance := []; attendance_sessions := ∅ |}.

(** What a rejected store call throws, and what the [catch] blocks turn into
    [{ success: false, error }]. *)
Inductive Error :=
| NoDocumentToUpdate
| ErrorMessage (msg : string).

(** [error.message] *)
Definition message (e : Error) : string :=
  match e with
  | NoDocumentToUpdate => "No document to update"
  | ErrorMessage msg => msg
  end.

Inductive Result (A : Type) :=
| Success (a : A)
| Failure (error : Error).
Arguments Success {A} a.
Arguments Failure {A} error.

(** *** Asynchronous store computations

    State passing with exceptions; what was written before a throw stays
    written. *)

Inductive Outcome (A : Type) :=
| Returned (a : A)
| Thrown (e : Error).
Arguments Returned {A} a.
Arguments Thrown {A} e.

Definition Async (A : Type) : Type := Firestore -> Firestore * Outcome A.

Definition ret {A} (a : A) : Async A := fun db => (db, Returned a).

Definition throw {A} (e : Error) : Async A := fun db => (db, Thrown e).

Definition bind {A B} (c : Async A) (k : A -> Async B) : Async B :=
  fun db =>
    match c db with
    | (db', Returned a) => k a db'
    | (db', Thrown e) => (db', Thrown e)
    end.

Notation "'await' x ':=' c 'in' k" := (bind c (fun x => k))
  (at level 10, x name, c at level 100, k at level 200).

(** [try { ...; return v } catch (error) { return { success: false, ... } }] *)
Definition try_catch {A} (c : Async A) (db : Firestore)
  : Firestore * Result A :=
  match c db with
  | (db', Returned a) => (db', Success a)
  | (db', Thrown e) => (db', Failure e)
  end.

(** [addDoc(collection(db, "attendance"), r)] *)
Definition addDoc_attendance (r : AttendanceRecord) : Async unit :=
  fun db =>
    ({| attendance := (attendance db ++ [r])%list;
        attendance_sessions := attendance_sessions db |}, Returned tt).

(** [addDoc(collection(db, "attendance_sessions"), s)]; [autoId] is the
    identifier the store generates for the new document. *)
Definition addDoc_session (autoId : string) (s : Session) : Async string :=
  fun db =>
    ({| attendance := attendance db;
        attendance_sessions := <[autoId := s]> (attendance_sessions db) |},
     Returned autoId).

(** [getDoc(doc(db, "attendance_sessions", id))], for [id] the name of a
    document: [None] is a snapshot with [exists() = false].  What [doc]
    makes of other strings is in [Paths]. *)
Definition getDoc (id : string) : Async (option Session) :=
  fun db => (db, Returned (attendance_sessions db !! id)).

(** [updateDoc(doc(db, "attendance_sessions", id), fields)], for [id] the
    name of a document: rejects when the document does not exist. *)
Definition updateDoc (id : string) (fields : Session -> Session)
  : Async unit :=
  fun db =>
    match attendance_sessions db !! id with
    | Some s =>
        ({| attendance := attendance db;
            attendance_sessions := <[id := fields s]> (attendance_sessions db) |},
         Returned tt)
    | None => (db, Thrown NoDocumentToUpdate)
    end.

(** *** The partial updates the service functions write *)

(** [{ studentsPresent, totalPresent: studentsPresent.length, lastUpdated }] *)
Definition set_presence (l : list StudentEntry) (now : Z) (s : Session)
  : Session :=
  {| s_data := s_data s; createdAt := createdAt s; isActive := isActive s;
     qrCodeGenerated := qrCodeGenerated s;
     studentsPresent := Some l;
     totalStudents := totalStudents s;
     totalPresent := Some (length l);
     lastUpdated := Some now;
     deactivatedAt := deactivatedAt s;
     qrCodeUrl := qrCodeUrl s; qrCodePath := qrCodePath s |}.

(** [{ qrCodeUrl, qrCodePath, qrCodeGenerated: true }] *)
Definition set_qrCode (url path : string) (s : Session) : Session :=
  {| s_data := s_data s; createdAt := createdAt s; isActive := isActive s;
     qrCodeGenerated := Some true;
     studentsPresent := studentsPresent s;
     totalStudents := totalStudents s;
     totalPresent := totalPresent s;
     lastUpdated := lastUpdated s;
     deactivatedAt := deactivatedAt s;
     qrCodeUrl := Some url; qrCodePath := Some path |}.

(** [{ isActive: false }] *)
Definition set_inactive (s : Session) : Session :=
  {| s_data := s_data s; createdAt := createdAt s; isActive := Some false;
     qrCodeGenerated := qrCodeGenerated s;
     studentsPresent := studentsPresent s;
     totalStudents := totalStudents s;
     totalPresent := totalPresent s;
     lastUpdated := lastUpdated s;
     deactivatedAt := deactivatedAt s;
     qrCodeUrl := qrCodeUrl s; qrCodePath := qrCodePath s |}.

(** [{ isActive: false, deactivatedAt: new Date() }] *)
Definition set_deactivated (now : Z) (s : Session) : Session :=
  {| s_data := s_data s; createdAt := createdAt s; isActive := Some false;
     qrCodeGenerated := qrCodeGenerated s;
     studentsPresent := studentsPresent s;
     totalStudents := totalStudents s;
     totalPresent := totalPresent s;
     lastUpdated := lastUpdated s;
     deactivatedAt := Some now;
     qrCodeUrl := qrCodeUrl s; qrCodePath := qrCodePath s |}.

(** *** [createAttendanceSession] *)

Definition new_session (sessionData : SessionData) (now : Z) : Session :=
  {| s_data := sessionData;
     createdAt := now;
     isActive := Some true;
     qrCodeGenerated := Some true;
     studentsPresent := Some [];
     totalStudents := Some 0;
     totalPresent := None;
     lastUpdated := None;
     deactivatedAt := None;
     qrCodeUrl := None; qrCodePath := None |}.

Definition createAttendanceSession
    (autoId : string) (now : Z) (sessionData : SessionData)
  : Firestore -> Firestore * Result string :=
  try_catch (addDoc_session autoId (new_session sessionData now)).

(** *** [markAttendance] *)

(** The clock readings and the user agent a call reads, in source order. *)
Record MarkEnv := {
  env_timestamp : Z;
  env_markedAt : Z;
  env_userAgent : string;
  env_entryMarkedAt : Z;
  env_lastUpdated : Z
}.

Definition new_record (env : MarkEnv) (attendanceData : AttendanceData)
  : AttendanceRecord :=
  {| r_data := attendanceData;
     r_timestamp := env_timestamp env;
     r_markedAt := env_markedAt env;
     r_deviceInfo := env_userAgent env |}.

Definition new_entry (env : MarkEnv) (attendanceData : AttendanceData)
  : StudentEntry :=
  {| se_studentId := studentId attendanceData;
     se_studentName := studentName attendanceData;
     se_markedAt := env_entryMarkedAt env;
     se_photoUrl := photoUrl attendanceData |}.

(** [studentsPresent.some((s) => s.studentId === attendanceData.studentId)] *)
Definition some_student (id : string) (l : list StudentEntry) : bool :=
  existsb (fun s => String.eqb (se_studentId s) id) l.

(** The call whose [sessionId] is empty or the name of a document, run from
    start to end with nothing in between.  [Awaits.markAttendance] is the
    call for any [sessionId], and [Awaits.advance] one await of it. *)
Definition markAttendance (env : MarkEnv) (attendanceData : AttendanceData)
  : Firestore -> Firestore * Result unit :=
  try_catch
    (await _ := addDoc_attendance (new_record env attendanceData) in
     if Js.truthy (sessionId attendanceData) then
       await sessionDoc := getDoc (sessionId attendanceData) in
       match sessionDoc with
       | Some sessionData =>
           let present := default [] (studentsPresent sessionData) in
           if negb (some_student (studentId attendanceData) present) then
             let present' := (present ++ [new_entry env attendanceData])%list in
             updateDoc (sessionId attendanceData)
               (set_presence present' (env_lastUpdated env))
           else ret tt
       | None => ret tt
       end
     else ret tt).

(** *** [saveQRCodeToStorage]

    [upload] is what [uploadFile(blob, qrPath)] answered: the download URL,
    or [None] for [{ success: false }]. *)
Definition qr_path (sid : string) (dateNow : Z) : string :=
  "qr_codes/" ++ sid ++ "_" ++ Js.dec dateNow ++ ".png".

Definition saveQRCodeToStorage
    (upload : option string) (dateNow : Z) (sid : string)
  : Firestore -> Firestore * Result string :=
  try_catch
    (match upload with
     | Some url =>
         await _ := updateDoc sid (set_qrCode url (qr_path sid dateNow)) in
         ret url
     | None => throw (ErrorMessage "Failed to upload QR code")
     end).

(** *** [getActiveSessions] *)

(** [data.expiresAt?.toDate() || new Date(createdAt + 30000)] *)
Definition expiry (s : Session) : Z :=
  match sd_expiresAt (s_data s) with
  | Some e => e
  | None => createdAt s + 30000
  end.

(** [where("facultyId", "==", facultyId), where("isActive", "==", true)] *)
Definition query_matches (facultyId : string) (s : Session) : bool :=
  String.eqb (sd_facultyId (s_data s)) facultyId
  && match isActive s with Some true => true | _ => false end.

(** [orderBy("createdAt", "desc")] *)
Definition newer_first (x y : string * Session) : Prop :=
  createdAt (snd y) <= createdAt (snd x).

Global Instance newer_first_dec : RelDecision newer_first :=
  fun x y => decide (createdAt (snd y) <= createdAt (snd x)).

(** The [forEach] pushes the unexpired documents and fires
    [updateDoc(doc.ref, { isActive: false })] for the others; the updates are
    taken as done when the call returns. *)
Definition getActiveSessions (facultyId : string) (now : Z)
  : Firestore -> Firestore * Result (list (string * Session)) :=
  fun db =>
    let hits :=
      merge_sort newer_first
        (filter (fun x => query_matches facultyId (snd x) = true)
                (map_to_list (attendance_sessions db))) in
    let sessions :=
      filter (fun x => bool_decide (now < expiry (snd x))) hits in
    let expire (s : Session) :=
      if query_matches facultyId s && negb (bool_decide (now < expiry s))
      then set_inactive s else s in
    ({| attendance := attendance db;
        attendance_sessions := expire <$> attendance_sessions db |},
     Success sessions).

(** *** [deactivateSession] *)

Definition deactivateSession (now : Z) (sid : string)
  : Firestore -> Firestore * Result unit :=
  try_catch (updateDoc sid (set_deactivated now)).

End Service.

(** ** The scannable payload

    The object that is [JSON.stringify]-ed into the QR image and that
    [JSON.parse] gives back to the scanner.  The online generator fills the
    first group of fields only; the offline, rotating generator fills all of
    them.  Its remaining fields ([mode], [version], [rotationEnabled],
    [nanoTime], [millisecond], [second], [browserEntropy], [memoryUsage]) are
    written once and read by nothing, and are left out. *)

Module Qr.

(** What [new Date(v).getTime()] makes of a truthy [timestamp] value: an
    instant, or [NaN]. *)
Inductive JsTime :=
| Instant (ms : Z)
| InvalidDate.

Record QrData := {
  sessionId : option string;
  facultyId : option string;
  school : option string;
  batch : option string;
  subject : option string;
  periods : option Z;
  timestamp : option JsTime;
  expiresAt : option Z;
  (* offline generator: the rest of the base session data *)
  facultyName : option string;
  facultyEmail : option string;
  schoolName : option string;
  batchName : option string;
  subjectName : option string;
  generatedAt : option Z;
  rotationInterval : option Z;
  (* offline generator: per-rotation data *)
  rotationIndex : option nat;
  rotationId : option string;
  rotationSalt : option string;
  microseconds : option string;
  randomSalt : option string;
  entropyMix : option string;
  checksum : option string
}.

(** What the scanner's decoder hands over: text that [JSON.parse] rejects or
    that is not an object, or a parsed object. *)
Inductive Decoded :=
| NotAnObject
| Parsed (qrData : QrData).

End Qr.

(** ** [QRGenerator.jsx]: the store-backed generator *)

Module QRGenerator.

Import Service.

Record User := {
  uid : string;
  displayName : option string;
  email : string
}.

Record UserProfile := {
  fullName : option string
}.

(** The form; [periods] is the chosen option of the select, [None] while
    nothing is chosen ([parseInt] of a chosen option is its number). *)
Record FormData := {
  f_school : string;
  f_batch : string;
  f_subject : string;
  f_periods : option Z
}.

Definition HARDCODED_SCHOOLS : list (string * string) :=
  [("sot", "School of Technology"); ("som", "School of Management")].

Definition HARDCODED_BATCHES : list (string * list (string * string)) :=
  [("sot", [("sot24b1", "SOT24B1"); ("sot24b2", "SOT24B2");
            ("sot23b1", "SOT23B1")]);
   ("som", [("som24b1", "SOM24B1"); ("som23b1", "SOM23B1")])].

Definition HARDCODED_SUBJECTS : list (string * list (string * string)) :=
  [("sot", [("java", "Java"); ("python", "Python"); ("dbms", "DBMS");
            ("sql", "SQL")]);
   ("som", [("java", "Java"); ("python", "Python"); ("dbms", "DBMS");
            ("sql", "SQL")])].

(** [table.find(x => x.id === id)?.name] *)
Fixpoint find_name {A} (id : string) (table : list (string * A)) : option A :=
  match table with
  | [] => None
  | (k, v) :: rest => if String.eqb k id then Some v else find_name id rest
  end.

Definition schoolName_of (f : FormData) : string :=
  Js.or_else (find_name (f_school f) HARDCODED_SCHOOLS) (f_school f).

Definition batchName_of (f : FormData) : string :=
  Js.or_else
    (match find_name (f_school f) HARDCODED_BATCHES with
     | Some l => find_name (f_batch f) l
     | None => None
     end) (f_batch f).

Definition subjectName_of (f : FormData) : string :=
  Js.or_else
    (match find_name (f_school f) HARDCODED_SUBJECTS with
     | Some l => find_name (f_subject f) l
     | None => None
     end) (f_subject f).

(** Everything one run of [generateQRCode] reads from its surroundings, in
    source order. *)
Record GenEnv := {
  g_timestamp : Z;          (* timestamp: new Date()                  *)
  g_dateNow : Z;            (* expiresAt: new Date(Date.now() + 30000) *)
  g_studentsCount : Z;
  g_year : Z;               (* new Date().getFullYear()               *)
  g_month : Z;              (* new Date().getMonth()                  *)
  g_autoId : string;        (* the identifier [addDoc] generates      *)
  g_createdAt : Z;          (* createdAt: new Date(), in the service  *)
  g_qrTimestamp : Z;        (* timestamp: new Date().toISOString()    *)
  g_qrDateNow : Z;          (* expiresAt of the payload               *)
  g_upload : option string; (* what uploading the image answered      *)
  g_saveDateNow : Z;        (* Date.now(), in the image's path        *)
  g_loadNow : Z             (* new Date(), in [getActiveSessions]     *)
}.

(** [Math.ceil((month + 1) / 6)] for a month in 0..11. *)
Definition semester_of (month : Z) : Z := (month + 1 + 5) / 6.

Definition sessionData (env : GenEnv) (user : User) (profile : UserProfile)
    (f : FormData) (periods : Z) : SessionData :=
  {| sd_facultyId := uid user;
     sd_facultyName :=
       Js.or_else (fullName profile)
         (Js.or_else (displayName user) "Unknown Faculty");
     sd_facultyEmail := email user;
     sd_schoolId := f_school f;
     sd_schoolName := schoolName_of f;
     sd_batchId := f_batch f;
     sd_batchName := batchName_of f;
     sd_subjectId := f_subject f;
     sd_subjectName := subjectName_of f;
     sd_periods := periods;
     sd_timestamp := g_timestamp env;
     sd_expiresAt := Some (g_dateNow env + 30000);
     sd_studentsCount := g_studentsCount env;
     sd_academicYear := g_year env;
     sd_semester := semester_of (g_month env) |}.

Definition qrDataObj (env : GenEnv) (sid : string) (user : User)
    (f : FormData) (periods : Z) : Qr.QrData :=
  {| Qr.sessionId := Some sid;
     Qr.facultyId := Some (uid user);
     Qr.school := Some (f_school f);
     Qr.batch := Some (f_batch f);
     Qr.subject := Some (f_subject f);
     Qr.periods := Some periods;
     Qr.timestamp := Some (Qr.Instant (g_qrTimestamp env));
     Qr.expiresAt := Some (g_qrDateNow env + 30000);
     Qr.facultyName := None; Qr.facultyEmail := None;
     Qr.schoolName := None; Qr.batchName := None; Qr.subjectName := None;
     Qr.generatedAt := None; Qr.rotationInterval := None;
     Qr.rotationIndex := None; Qr.rotationId := None;
     Qr.rotationSalt := None; Qr.microseconds := None;
     Qr.randomSalt := None; Qr.entropyMix := None; Qr.checksum := None |}.

(** The component state [generateQRCode] and the timer effect touch. *)
Record State := {
  qrData : option Qr.QrData;
  timeLeft : Z;
  isActive : bool;
  error : string;
  currentSessionId : option string
}.

Definition initial : State :=
  {| qrData := None; timeLeft := 30; isActive := false; error := "";
     currentSessionId := None |}.

Definition set_error (msg : string) (st : State) : State :=
  {| qrData := qrData st; timeLeft := timeLeft st; isActive := isActive st;
     error := msg; currentSessionId := currentSessionId st |}.

(** [missingFields.join(', ')] *)
Definition missingFields (f : FormData) : list string :=
  ((if Js.truthy (f_school f) then [] else ["school"])
   ++ (if Js.truthy (f_batch f) then [] else ["batch"])
   ++ (if Js.truthy (f_subject f) then [] else ["subject"])
   ++ (match f_periods f with Some _ => [] | None => ["periods"] end))%list.

Definition missing_message (f : FormData) : string :=
  "Please fill in all required fields: "
  ++ String.concat ", " (missingFields f).

(** [loadActiveSessions], as far as the store goes: the list it shows is
    not modelled. *)
Definition loadActiveSessions (facultyId : string) (now : Z) (db : Firestore)
  : Firestore :=
  fst (getActiveSessions facultyId now db).

(** [generateQRCode]: the form and the user are checked, the session is
    created in the store, the payload is built and shown (the image itself
    is not modelled), the image is saved, the countdown starts and the
    active sessions are reloaded.  [user] is [None] when nobody is signed
    in. *)
Definition generateQRCode (env : GenEnv) (user : option User)
    (profile : UserProfile) (f : FormData) (st : State) (db : Firestore)
  : State * Firestore :=
  match missingFields f, f_periods f with
  | [], Some periods =>
      match user with
      | Some u =>
          if negb (Js.truthy (uid u))
          then (set_error "User not authenticated. Please login again." st,
                db)
          else
            match createAttendanceSession (g_autoId env) (g_createdAt env)
                    (sessionData env u profile f periods) db with
            | (db1, Success sid) =>
                let q := qrDataObj env sid u f periods in
                let db2 :=
                  fst (saveQRCodeToStorage (g_upload env)
                         (g_saveDateNow env) sid db1) in
                let db3 := loadActiveSessions (uid u) (g_loadNow env) db2 in
                ({| qrData := Some q; timeLeft := 30; isActive := true;
                    error := ""; currentSessionId := Some sid |}, db3)
            | (db1, Failure e) =>
                (set_error
                   (Js.or_else (Some (message e))
                      "Failed to create attendance session") st, db1)
            end
      | None =>
          (set_error "User not authenticated. Please login again." st, db)
      end
  | _, _ => (set_error (missing_message f) st, db)
  end.

(** The timer effect's callback and its expiry branch: the countdown goes
    down by one per second while the code is active; at 0 the component
    drops the code.  The stored session is not touched. *)
Definition timer_tick (st : State) : State :=
  if isActive st && (0 <? timeLeft st)%Z then
    let st' :=
      {| qrData := qrData st; timeLeft := timeLeft st - 1;
         isActive := isActive st; error := error st;
         currentSessionId := currentSessionId st |} in
    if (timeLeft st' =? 0)%Z then
      {| qrData := None; timeLeft := 0; isActive := false;
         error := error st; currentSessionId := currentSessionId st |}
    else st'
  else st.

(** [closeModal]: the current session, if its code is still active, is
    deactivated in the store. *)
Definition closeModal (now loadNow : Z) (user : User) (st : State)
    (db : Firestore) : State * Firestore :=
  let db1 :=
    match currentSessionId st with
    | Some sid =>
        if isActive st then fst (deactivateSession now sid db) else db
    | None => db
    end in
  ({| qrData := None; timeLeft := 30; isActive := false; error := error st;
      currentSessionId := None |},
   loadActiveSessions (uid user) loadNow db1).

End QRGenerator.

(** ** [OfflineQRGenerator.jsx]: the rotating generator *)

Module OfflineQRGenerator.

(** [baseSessionData], constant over the rotations of one session. *)
Record BaseSessionData := {
  sessionId : string;
  facultyId : string;
  facultyName : string;
  facultyEmail : string;
  school : string;
  schoolName : string;
  batch : string;
  batchName : string;
  subject : string;
  subjectName : string;
  periods : Z;
  generatedAt : Z;
  expiresAt : Z;
  rotationInterval : Z
}.

(** What one call of [generateQRWithEntropy] reads from its surroundings.
    [performance.now()] and [Math.random()] are floating point numbers that
    the code only renders into strings; they are taken as rendered. *)
Record Entropy := {
  currentTime : Z;        (* new Date()                               *)
  e_microseconds : string; (* `${performance.now()}`                   *)
  e_randomSalt : string;  (* Math.random().toString(36).substr(2, 20) *)
  e_rotationSalt : string; (* Math.random().toString(36).substr(2, 16) *)
  e_idNow : Z;            (* Date.now(), in rotationId                *)
  e_idRandom : string;    (* Math.random().toString(36).substr(2, 12) *)
  e_mixRandom : string;   (* `${Math.random()}`, in entropyMix        *)
  e_mixNow : Z            (* Date.now(), in entropyMix                *)
}.

Definition checksum_of (sid : string) (rotationIndex : nat)
    (microseconds randomSalt : string) : string :=
  Js.substr0 12
    (Js.btoa (sid ++ "_" ++ Js.dec (Z.of_nat rotationIndex) ++ "_"
              ++ microseconds ++ "_" ++ randomSalt)).

(** [generateQRWithEntropy(baseData, rotationIndex)], the payload part
    ([qrDataObj]); the image is not modelled. *)
Definition generateQRWithEntropy (baseData : BaseSessionData)
    (rotationIndex : nat) (e : Entropy) : Qr.QrData :=
  {| Qr.sessionId := Some (sessionId baseData);
     Qr.facultyId := Some (facultyId baseData);
     Qr.school := Some (school baseData);
     Qr.batch := Some (batch baseData);
     Qr.subject := Some (subject baseData);
     Qr.periods := Some (periods baseData);
     Qr.timestamp := Some (Qr.Instant (currentTime e));
     Qr.expiresAt := Some (expiresAt baseData);
     Qr.facultyName := Some (facultyName baseData);
     Qr.facultyEmail := Some (facultyEmail baseData);
     Qr.schoolName := Some (schoolName baseData);
     Qr.batchName := Some (batchName baseData);
     Qr.subjectName := Some (subjectName baseData);
     Qr.generatedAt := Some (generatedAt baseData);
     Qr.rotationInterval := Some (rotationInterval baseData);
     Qr.rotationIndex := Some rotationIndex;
     Qr.rotationId :=
       Some ("rot_" ++ Js.dec (Z.of_nat rotationIndex) ++ "_"
             ++ Js.dec (e_idNow e) ++ "_" ++ e_idRandom e);
     Qr.rotationSalt := Some (e_rotationSalt e);
     Qr.microseconds := Some (e_microseconds e);
     Qr.randomSalt := Some (e_randomSalt e);
     Qr.entropyMix :=
       Some (Js.substr0 16
               (Js.btoa (e_microseconds e ++ "_" ++ e_mixRandom e ++ "_"
                         ++ Js.dec (e_mixNow e) ++ "_"
                         ++ Js.dec (Z.of_nat rotationIndex))));
     Qr.checksum :=
       Some (checksum_of (sessionId baseData) rotationIndex
               (e_microseconds e) (e_randomSalt e)) |}.

(** The component state of the session timer and rotation effects.
    [timerRef] tells whether a [setTimeout] callback is pending and
    [rotationTimerRef] whether the [setInterval] is live.  [issued] is a
    history variable: the payloads given to [setQrData] since the last
    [generateQRCode], oldest first. *)
Record State := {
  qrData : option Qr.QrData;
  timeLeft : Z;
  isActive : bool;
  error : string;
  success : string;
  qrRotationTimer : Z;
  totalRotations : nat;
  baseSessionData : option BaseSessionData;
  timerRef : bool;
  rotationTimerRef : bool;
  issued : list Qr.QrData
}.

Definition initial : State :=
  {| qrData := None; timeLeft := 30; isActive := false; error := "";
     success := ""; qrRotationTimer := 5; totalRotations := 0;
     baseSessionData := None; timerRef := false; rotationTimerRef := false;
     issued := [] |}.

(** *** The effects

    An effect runs after the render that follows a change of its
    dependencies, its cleanup first; both effects are taken as run before
    the next timer callback. *)

Definition expired_message : string :=
  "QR Code expired. Generate a new one for the next session.".

(** The main session timer effect, dependencies [isActive, timeLeft]. *)
Definition session_timer_effect (st : State) : State :=
  if isActive st && (0 <? timeLeft st)%Z then
    {| qrData := qrData st; timeLeft := timeLeft st; isActive := isActive st;
       error := error st; success := success st;
       qrRotationTimer := qrRotationTimer st;
       totalRotations := totalRotations st;
       baseSessionData := baseSessionData st;
       timerRef := true;
       rotationTimerRef := rotationTimerRef st; issued := issued st |}
  else if (timeLeft st =? 0)%Z then
    {| qrData := qrData st; timeLeft := timeLeft st;
       isActive := false;
       error := error st;
       success := expired_message;
       qrRotationTimer := qrRotationTimer st;
       totalRotations := totalRotations st;
       baseSessionData := baseSessionData st;
       timerRef := false;
       rotationTimerRef := false; issued := issued st |}
  else
    {| qrData := qrData st; timeLeft := timeLeft st; isActive := isActive st;
       error := error st; success := success st;
       qrRotationTimer := qrRotationTimer st;
       totalRotations := totalRotations st;
       baseSessionData := baseSessionData st;
       timerRef := false;
       rotationTimerRef := rotationTimerRef st; issued := issued st |}.

(** The rotation effect, dependencies [isActive, baseSessionData]: the
    cleanup clears the interval, the body sets a new one when the session is
    active and has its base data. *)
Definition rotation_effect (st : State) : State :=
  {| qrData := qrData st; timeLeft := timeLeft st; isActive := isActive st;
     error := error st; success := success st;
     qrRotationTimer := qrRotationTimer st;
     totalRotations := totalRotations st;
     baseSessionData := baseSessionData st;
     timerRef := timerRef st;
     rotationTimerRef :=
       isActive st && match baseSessionData st with
                      | Some _ => true
                      | None => false
                      end;
     issued := issued st |}.

Definition effects (st : State) : State :=
  rotation_effect (session_timer_effect st).

(** *** The timer callbacks *)

(** [setTimeLeft(timeLeft - 1)], in the [setTimeout] callback, which is then
    no longer pending. *)
Definition countdown (st : State) : State :=
  {| qrData := qrData st; timeLeft := timeLeft st - 1;
     isActive := isActive st; error := error st; success := success st;
     qrRotationTimer := qrRotationTimer st;
     totalRotations := totalRotations st;
     baseSessionData := baseSessionData st;
     timerRef := false;
     rotationTimerRef := rotationTimerRef st; issued := issued st |}.

Definition session_timeout (st : State) : State :=
  if timerRef st then effects (countdown st) else st.

(** The [setInterval] callback.  The interval is live only in renders where
    [isActive] and [baseSessionData] hold, and the callback closes over the
    values of that render.  The updater of [qrRotationTimer] runs once and
    enqueues the updater of [totalRotations] once, as in a production
    build; [StrictMode.rotation_interval] has the development build. *)
Definition rotation_interval (e : Entropy) (st : State) : State :=
  if rotationTimerRef st then
    match baseSessionData st with
    | Some baseData =>
        if (qrRotationTimer st <=? 1)%Z then
          let newRotationCount := S (totalRotations st) in
          let q := generateQRWithEntropy baseData newRotationCount e in
          {| qrData := Some q; timeLeft := timeLeft st;
             isActive := isActive st; error := error st;
             success := success st;
             qrRotationTimer := 5;
             totalRotations := newRotationCount;
             baseSessionData := baseSessionData st;
             timerRef := timerRef st;
             rotationTimerRef := rotationTimerRef st;
             issued := (issued st ++ [q])%list |}
        else
          {| qrData := qrData st; timeLeft := timeLeft st;
             isActive := isActive st; error := error st;
             success := success st;
             qrRotationTimer := qrRotationTimer st - 1;
             totalRotations := totalRotations st;
             baseSessionData := baseSessionData st;
             timerRef := timerRef st;
             rotationTimerRef := rotationTimerRef st;
             issued := issued st |}
    | None => st
    end
  else st.

(** *** [generateQRCode] *)

Record StartEnv := {
  s_timestamp : Z;        (* const timestamp = Date.now()             *)
  s_randomPart : string;  (* Math.random().toString(36).substr(2, 12) *)
  s_uniqueId : string;    (* Math.random().toString(36).substr(2, 8)  *)
  s_dateNow : Z;          (* expiresAt: new Date(Date.now() + 30000)  *)
  s_entropy : Entropy     (* for rotation 0                           *)
}.

Definition new_sessionId (env : StartEnv) : string :=
  "session_" ++ Js.dec (s_timestamp env) ++ "_" ++ s_randomPart env ++ "_"
  ++ s_uniqueId env.

Definition new_baseSessionData (env : StartEnv) (user : QRGenerator.User)
    (profile : QRGenerator.UserProfile) (f : QRGenerator.FormData)
    (periods : Z) : BaseSessionData :=
  {| sessionId := new_sessionId env;
     facultyId := QRGenerator.uid user;
     facultyName :=
       Js.or_else (QRGenerator.fullName profile)
         (Js.or_else (QRGenerator.displayName user) "Faculty");
     facultyEmail := QRGenerator.email user;
     school := QRGenerator.f_school f;
     schoolName := QRGenerator.schoolName_of f;
     batch := QRGenerator.f_batch f;
     batchName := QRGenerator.batchName_of f;
     subject := QRGenerator.f_subject f;
     subjectName := QRGenerator.subjectName_of f;
     periods := periods;
     generatedAt := s_timestamp env;
     expiresAt := s_dateNow env + 30000;
     rotationInterval := 5 |}.

Definition set_error (msg : string) (st : State) : State :=
  {| qrData := qrData st; timeLeft := timeLeft st; isActive := isActive st;
     error := msg; success := success st;
     qrRotationTimer := qrRotationTimer st;
     totalRotations := totalRotations st;
     baseSessionData := baseSessionData st;
     timerRef := timerRef st; rotationTimerRef := rotationTimerRef st;
     issued := issued st |}.

Definition started_message : string :=
  "🔄 Dynamic QR Code generated! Rotates every 5 seconds to prevent screenshot sharing.".

Definition generateQRCode (env : StartEnv) (user : option QRGenerator.User)
    (profile : QRGenerator.UserProfile) (f : QRGenerator.FormData)
    (st : State) : State :=
  match QRGenerator.missingFields f, QRGenerator.f_periods f with
  | [], Some periods =>
      match user with
      | Some u =>
          if negb (Js.truthy (QRGenerator.uid u))
          then set_error "User not authenticated. Please login again." st
          else
            let baseData := new_baseSessionData env u profile f periods in
            let q := generateQRWithEntropy baseData 0 (s_entropy env) in
            effects
              {| qrData := Some q; timeLeft := 30; isActive := true;
                 error := ""; success := started_message;
                 qrRotationTimer := 5; totalRotations := 0;
                 baseSessionData := Some baseData;
                 timerRef := timerRef st;
                 rotationTimerRef := rotationTimerRef st;
                 issued := [q] |}
      | None => set_error "User not authenticated. Please login again." st
      end
  | _, _ => set_error (QRGenerator.missing_message f) st
  end.

(** [closeModal] *)
Definition closeModal (st : State) : State :=
  effects
    {| qrData := None; timeLeft := 30; isActive := false; error := error st;
       success := ""; qrRotationTimer := 5; totalRotations := 0;
       baseSessionData := None; timerRef := false;
       rotationTimerRef := false; issued := issued st |}.

(** *** Runs of the timers of one session *)

Inductive Tick :=
| SessionTimeout
| RotationInterval (e : Entropy).

Definition tick (st : State) (t : Tick) : State :=
  match t with
  | SessionTimeout => session_timeout st
  | RotationInterval e => rotation_interval e st
  end.

Definition run (ticks : list Tick) (st : State) : State :=
  fold_left tick ticks st.

(** The rotation indices of a list of payloads. *)
Definition indices (l : list Qr.QrData) : list (option nat) :=
  List.map Qr.rotationIndex l.

(** What every state of a started session satisfies. *)
Record session_inv (baseData : BaseSessionData) (st : State) : Prop := {
  inv_base : baseSessionData st = Some baseData;
  inv_indices :
    indices (issued st) = List.map Some (seq 0 (S (totalRotations st)));
  inv_payloads :
    Forall (fun q => exists i e, q = generateQRWithEntropy baseData i e)
           (issued st);
  inv_expired :
    timeLeft st = 0 ->
    isActive st = false /\ timerRef st = false /\ rotationTimerRef st = false
}.

End OfflineQRGenerator.

(** ** [QRScanner.jsx]: the student's scanner *)

Module QRScanner.

Record State := {
  scanning : bool;
  scannedData : option Qr.QrData;
  showConfirmation : bool;
  error : string
}.

(** The state [startScanning] leaves: scanning, no error. *)
Definition scanning_state : State :=
  {| scanning := true; scannedData := None; showConfirmation := false;
     error := "" |}.

Definition expired_message : string :=
  "QR code has expired. Please ask your faculty to generate a new one.".

Definition invalid_message : string :=
  "Invalid QR code. Please scan the attendance QR code from your faculty.".

Definition setError (msg : string) (st : State) : State :=
  {| scanning := scanning st; scannedData := scannedData st;
     showConfirmation := showConfirmation st; error := msg |}.

(** [setScannedData(qrData); setShowConfirmation(true); setScanning(false)] *)
Definition confirm (qrData : Qr.QrData) (st : State) : State :=
  {| scanning := false; scannedData := Some qrData;
     showConfirmation := true; error := error st |}.

(** [!qrData.timestamp]: a missing timestamp is falsy. *)
Definition has_timestamp (qrData : Qr.QrData) : bool :=
  match Qr.timestamp qrData with
  | Some _ => true
  | None => false
  end.

(** [(now - qrTime) / 1000 > 30].  The division of a whole number of
    milliseconds by 1000 exceeds 30 exactly when the number exceeds 30000;
    with [qrTime = NaN] the comparison is false. *)
Definition too_old (now : Z) (qrData : Qr.QrData) : bool :=
  match Qr.timestamp qrData with
  | Some (Qr.Instant qrTime) => (30000 <? now - qrTime)%Z
  | _ => false
  end.

Definition onScanSuccess (now : Z) (decodedText : Qr.Decoded) (st : State)
  : State :=
  match decodedText with
  | Qr.NotAnObject => setError invalid_message st
  | Qr.Parsed qrData =>
      if negb (Js.truthy_opt (Qr.sessionId qrData))
         || negb (Js.truthy_opt (Qr.facultyId qrData))
         || negb (has_timestamp qrData)
      then setError invalid_message st
      else if too_old now qrData
      then setError expired_message st
      else confirm qrData st
  end.

(** What a scan came to, read off the state [onScanSuccess] leaves when
    started from [scanning_state]. *)
Inductive Verdict :=
| Accepted
| RejectedExpired
| RejectedInvalid.

Definition verdict (now : Z) (decodedText : Qr.Decoded) : Verdict :=
  let st := onScanSuccess now decodedText scanning_state in
  if showConfirmation st then Accepted
  else if String.eqb (error st) expired_message then RejectedExpired
  else RejectedInvalid.

(** A payload with its session identifier, rotation index, nonces and
    checksum replaced. *)
Definition tamper (sid : option string) (index : option nat)
    (salt rsalt sum : option string) (q : Qr.QrData) : Qr.QrData :=
  {| Qr.sessionId := sid;
     Qr.facultyId := Qr.facultyId q;
     Qr.school := Qr.school q; Qr.batch := Qr.batch q;
     Qr.subject := Qr.subject q; Qr.periods := Qr.periods q;
     Qr.timestamp := Qr.timestamp q; Qr.expiresAt := Qr.expiresAt q;
     Qr.facultyName := Qr.facultyName q;
     Qr.facultyEmail := Qr.facultyEmail q;
     Qr.schoolName := Qr.schoolName q; Qr.batchName := Qr.batchName q;
     Qr.subjectName := Qr.subjectName q;
     Qr.generatedAt := Qr.generatedAt q;
     Qr.rotationInterval := Qr.rotationInterval q;
     Qr.rotationIndex := index;
     Qr.rotationId := Qr.rotationId q;
     Qr.rotationSalt := rsalt;
     Qr.microseconds := Qr.microseconds q;
     Qr.randomSalt := salt;
     Qr.entropyMix := Qr.entropyMix q;
     Qr.checksum := sum |}.

(** The payload has what [onScanSuccess] requires. *)
Definition well_formed (q : Qr.QrData) : Prop :=
  Js.truthy_opt (Qr.sessionId q) = true
  /\ Js.truthy_opt (Qr.facultyId q) = true
  /\ has_timestamp q = true.

End QRScanner.

(** ** Sequences of service calls *)

Module Trace.

Import Service.

(** One completed call of a service function of [firebase.js] that writes to
    the store, with what it read from its surroundings.  Calls are taken one
    after the other. *)
Inductive Op :=
| CreateAttendanceSession (autoId : string) (now : Z) (sd : SessionData)
| MarkAttendance (env : MarkEnv) (a : AttendanceData)
| SaveQRCodeToStorage (upload : option string) (dateNow : Z) (sid : string)
| GetActiveSessions (facultyId : string) (now : Z)
| DeactivateSession (now : Z) (sid : string).

Definition step (db : Firestore) (op : Op) : Firestore :=
  match op with
  | CreateAttendanceSession autoId now sd =>
      fst (createAttendanceSession autoId now sd db)
  | MarkAttendance env a => fst (markAttendance env a db)
  | SaveQRCodeToStorage upload dateNow sid =>
      fst (saveQRCodeToStorage upload dateNow sid db)
  | GetActiveSessions facultyId now => fst (getActiveSessions facultyId now db)
  | DeactivateSession now sid => fst (deactivateSession now sid db)
  end.

Definition run (ops : list Op) (db : Firestore) : Firestore :=
  fold_left step ops db.

(** The store generates for every new document an identifier that no
    document of the collection has. *)
Definition fresh_id (db : Firestore) (op : Op) : Prop :=
  match op with
  | CreateAttendanceSession autoId _ _ =>
      attendance_sessions db !! autoId = None
  | _ => True
  end.

Fixpoint fresh_ids (db : Firestore) (ops : list Op) : Prop :=
  match ops with
  | [] => True
  | op :: rest => fresh_id db op /\ fresh_ids (step db op) rest
  end.

(** The students that the calls of [markAttendance] of a trace name for the
    session [sid], in call order. *)
Fixpoint marked (sid : string) (ops : list Op) : list string :=
  match ops with
  | [] => []
  | MarkAttendance _ a :: rest =>
      if String.eqb (sessionId a) sid
      then studentId a :: marked sid rest
      else marked sid rest
  | _ :: rest => marked sid rest
  end.

(** The records of the [attendance] collection for a (session, student)
    pair. *)
Definition records_of (sid stu : string) (db : Firestore)
  : list AttendanceRecord :=
  filter (fun r => sessionId (r_data r) = sid /\ studentId (r_data r) = stu)
         (attendance db).

(** Whether [getActiveSessions] would still list a session at [now]. *)
Definition active (now : Z) (s : Session) : bool :=
  match isActive s with
  | Some true => bool_decide (now < expiry s)
  | _ => false
  end.

(** The stored count agrees with the stored list. *)
Definition count_consistent (s : Session) : Prop :=
  exists l, studentsPresent s = Some l /\ totalPresent s = Some (length l).

(** What a call may do to an existing session document. *)
Definition evolves (s s' : Session) : Prop :=
  s_data s' = s_data s
  /\ createdAt s' = createdAt s
  /\ (isActive s <> Some true -> isActive s' <> Some true)
  /\ (isActive s = Some false -> isActive s' = Some false).

(** The list and the count a call leaves in the document of session [sid]. *)
Definition presence_after (op : Op) (sid : string) (s : Session)
  : option (list StudentEntry) * option nat :=
  match op with
  | MarkAttendance env a =>
      let present := default [] (studentsPresent s) in
      if String.eqb (sessionId a) sid
         && negb (some_student (studentId a) present)
      then (Some (present ++ [new_entry env a])%list,
            Some (length (present ++ [new_entry env a])%list))
      else (studentsPresent s, totalPresent s)
  | _ => (studentsPresent s, totalPresent s)
  end.

(** The state of session [sid] after the students [seen] were marked. *)
Definition tallied (sid : string) (seen : list string) (db : Firestore)
  : Prop :=
  exists s l,
    attendance_sessions db !! sid = Some s
    /\ studentsPresent s = Some l
    /\ NoDup (List.map se_studentId l)
    /\ (forall x, x ∈ List.map se_studentId l <-> x ∈ seen)
    /\ (seen <> [] -> totalPresent s = Some (length l))
    /\ (seen = [] -> totalPresent s = None).

End Trace.

(** ** Concrete data used in the examples *)

Module Sample.

Import Service.

Definition sd : SessionData :=
  {| sd_facultyId := "fac1"; sd_facultyName := "Asha Rao";
     sd_facultyEmail := "asha@gmail.com";
     sd_schoolId := "sot"; sd_schoolName := "School of Technology";
     sd_batchId := "sot24b1"; sd_batchName := "SOT24B1";
     sd_subjectId := "java"; sd_subjectName := "Java";
     sd_periods := 2; sd_timestamp := 1000000;
     sd_expiresAt := Some 1030000; sd_studentsCount := 40;
     sd_academicYear := 2025; sd_semester := 2 |}.

Definition attendanceData (stu sid : string) : AttendanceData :=
  {| studentId := stu; sessionId := sid; a_facultyId := "fac1";
     a_school := "sot"; a_batch := "sot24b1"; a_subject := "java";
     a_periods := 2; photoUrl := "https://photos/" ++ stu;
     studentName := stu; studentEmail := stu ++ "@pwioi.com";
     regNumber := "R-" ++ stu; a_timestamp := 1005000;
     a_status := "present" |}.

Definition env (t : Z) : MarkEnv :=
  {| env_timestamp := t; env_markedAt := t; env_userAgent := "Mozilla/5.0";
     env_entryMarkedAt := t; env_lastUpdated := t |}.

(** A store holding one session, ["S1"], created at 1000000. *)
Definition db1 : Firestore :=
  fst (createAttendanceSession "S1" 1000000 sd empty_db).

End Sample.

(** ** A concrete rotating session *)

Module SampleSession.

Import OfflineQRGenerator.

Definition t0 : Z := 1700000000000.

Definition user : QRGenerator.User :=
  {| QRGenerator.uid := "fac1";
     QRGenerator.displayName := Some "Asha";
     QRGenerator.email := "asha@gmail.com" |}.

Definition profile : QRGenerator.UserProfile :=
  {| QRGenerator.fullName := Some "Asha Rao" |}.

Definition form : QRGenerator.FormData :=
  {| QRGenerator.f_school := "sot"; QRGenerator.f_batch := "sot24b1";
     QRGenerator.f_subject := "java"; QRGenerator.f_periods := Some 2 |}.

(** The surroundings at instant [t]. *)
Definition entropy_at (t : Z) : Entropy :=
  {| currentTime := t;
     e_microseconds := Js.dec (t - t0) ++ ".5";
     e_randomSalt := "k3j9x0q2m1" ++ Js.dec (t - t0);
     e_rotationSalt := "z8y7w6" ++ Js.dec (t - t0);
     e_idNow := t;
     e_idRandom := "a1b2c3d4e5f6";
     e_mixRandom := "0.4211";
     e_mixNow := t |}.

Definition start_env : StartEnv :=
  {| s_timestamp := t0; s_randomPart := "q1w2e3r4t5y6";
     s_uniqueId := "u7i8o9p0"; s_dateNow := t0;
     s_entropy := entropy_at t0 |}.

Definition started : State :=
  generateQRCode start_env (Some user) profile form initial.

(** Second [k] of the session: the countdown callback, then the rotation
    callback. *)
Definition second (k : nat) : list Tick :=
  [SessionTimeout; RotationInterval (entropy_at (t0 + 1000 * Z.of_nat k))].

(** The same second with the two callbacks in the other order. *)
Definition second' (k : nat) : list Tick :=
  [RotationInterval (entropy_at (t0 + 1000 * Z.of_nat k)); SessionTimeout].

Definition seconds (n : nat) : list Tick := flat_map second (seq 1 n).

Definition after (n : nat) : State := run (seconds n) started.

End SampleSession.

(** ** A concrete stored session, made by the store-backed generator *)

Module SampleOnline.

Import Service.

Definition t0 : Z := 1700000000000.

Definition gen_env : QRGenerator.GenEnv :=
  {| QRGenerator.g_timestamp := t0;
     QRGenerator.g_dateNow := t0;
     QRGenerator.g_studentsCount := 42;
     QRGenerator.g_year := 2023;
     QRGenerator.g_month := 10;
     QRGenerator.g_autoId := "Xk29fJq0LmZ1";
     QRGenerator.g_createdAt := t0 + 1;
     QRGenerator.g_qrTimestamp := t0 + 350;
     QRGenerator.g_qrDateNow := t0 + 350;
     QRGenerator.g_upload := Some "https://storage/qr.png";
     QRGenerator.g_saveDateNow := t0 + 900;
     QRGenerator.g_loadNow := t0 + 950 |}.

(** The generator's state and the store after [generateQRCode]. *)
Definition generated : QRGenerator.State * Firestore :=
  QRGenerator.generateQRCode gen_env (Some SampleSession.user)
    SampleSession.profile SampleSession.form QRGenerator.initial empty_db.

(** The store after the faculty deactivated the session, 10 s in. *)
Definition deactivated : Firestore * Result unit :=
  deactivateSession (t0 + 10000) "Xk29fJq0LmZ1" (snd generated).

(** The same, done by closing the generator's dialog. *)
Definition closed : QRGenerator.State * Firestore :=
  QRGenerator.closeModal (t0 + 10000) (t0 + 10200) SampleSession.user
    (Nat.iter 10 QRGenerator.timer_tick (fst generated)) (snd generated).

End SampleOnline.

(** * Further code of the portal

    Embedded below, besides the above:
    - [src/services/firebase.js]: [markAttendance] await by await and for
      any identifier, [getSessionDetails], [validateEmailRole],
      [isMobileDevice], [generateDeviceId], [createUserDocument],
      [getUserDocument], [updateUserDocument], [createProfileDocument],
      [getProfileDocument];
    - [src/contexts/NotificationContext.jsx], the [AuthContext] part:
      [loadUserData];
    - [src/components/auth/LoginForm.jsx]: [processSignInResult];
    - [src/components/student/QRScanner.jsx]: the handlers around
      [onScanSuccess], up to [submitAttendance];
    - [src/components/faculty/OfflineQRGenerator.jsx]: the rotation effect
      as a development build runs it;
    - [QRRotationDebugger]: the rotation effect;
    - [ManualAttendance]: [fetchStudents], [handleAttendanceChange],
      [handleSubmit]. *)

From Stdlib Require DecimalPos.

(** ** Document references

    [doc(db, "attendance_sessions", id)]: the store's SDK reads [id] as a
    path below the collection.  It splits it at the ['/'] and drops the
    empty parts, refuses a path with two ['/'] in a row, and refuses a path
    that does not end at a document, that is, one whose number of parts is
    even (none, for the empty string). *)

Module Paths.

Import Service.

(** [path.split('/').filter(segment => segment.length > 0)]; [cur] is the
    part read so far. *)
Fixpoint segments_from (cur s : string) : list string :=
  match s with
  | EmptyString => if Js.truthy cur then [cur] else []
  | String c s' =>
      if Ascii.eqb c "/"
      then ((if Js.truthy cur then [cur] else []) ++ segments_from "" s')%list
      else segments_from (cur ++ String c "") s'
  end.

Definition segments (s : string) : list string := segments_from "" s.

(** [path.indexOf('//') >= 0] *)
Fixpoint doubled (s : string) : bool :=
  match s with
  | String a s' =>
      match s' with
      | String b _ => (Ascii.eqb a "/" && Ascii.eqb b "/") || doubled s'
      | EmptyString => false
      end
  | EmptyString => false
  end.

(** What an identifier refers to. *)
Inductive Ref :=
| Document (name : string)   (* the document of that name               *)
| Nested (path : list string) (* a document of a collection below a
                                 document; the store has none of these  *)
| Invalid (e : Error).       (* [doc] throws                            *)

Definition doc (id : string) : Ref :=
  if doubled id then
    Invalid (ErrorMessage ("Invalid segment (" ++ id
                           ++ "). Paths must not contain // in them."))
  else
    match segments id with
    | [name] => Document name
    | path =>
        if Nat.odd (length path) then Nested path
        else
          Invalid
            (ErrorMessage
               ("Invalid document reference. Document references must have an even number of segments, but "
                ++ String.concat "/" ("attendance_sessions" :: path)
                ++ " has " ++ Js.dec (Z.of_nat (S (length path))) ++ "."))
    end.

(** The identifier is the name of a document, as every identifier is that
    the store generates. *)
Definition plain (id : string) : Prop := doc id = Document id.

(** No ['/'] in the string. *)
Fixpoint slashless (s : string) : bool :=
  match s with
  | EmptyString => true
  | String c s' => negb (Ascii.eqb c "/") && slashless s'
  end.

End Paths.

(** ** [firebase.js]: [markAttendance], await by await *)

Module Awaits.

Import Service.

(** Where a call of [markAttendance] stands: the store call it waits for,
    with what it holds by then. *)
Inductive Call :=
| AddDoc (env : MarkEnv) (attendanceData : AttendanceData)
| GetDoc (env : MarkEnv) (attendanceData : AttendanceData)
    (sessionRef : Paths.Ref)
| UpdateDoc (env : MarkEnv) (attendanceData : AttendanceData)
    (sessionRef : string) (studentsPresent : list StudentEntry)
| Done (answer : Result unit).

(** The store call that [c] waits for takes effect, and the code runs on to
    the next [await] or to its [return]. *)
Definition advance (c : Call) (db : Firestore) : Call * Firestore :=
  match c with
  | AddDoc env a =>
      let db' := fst (addDoc_attendance (new_record env a) db) in
      if Js.truthy (sessionId a) then
        match Paths.doc (sessionId a) with
        | Paths.Invalid e => (Done (Failure e), db')
        | sessionRef => (GetDoc env a sessionRef, db')
        end
      else (Done (Success tt), db')
  | GetDoc env a sessionRef =>
      match sessionRef with
      | Paths.Document name =>
          match attendance_sessions db !! name with
          | Some sessionData =>
              let present := default [] (studentsPresent sessionData) in
              if negb (some_student (studentId a) present)
              then (UpdateDoc env a name (present ++ [new_entry env a])%list,
                    db)
              else (Done (Success tt), db)
          | None => (Done (Success tt), db)
          end
      | Paths.Nested _ => (Done (Success tt), db)
      | Paths.Invalid e => (Done (Failure e), db)
      end
  | UpdateDoc env a name present' =>
      match updateDoc name (set_presence present' (env_lastUpdated env)) db
      with
      | (db', Returned _) => (Done (Success tt), db')
      | (db', Thrown e) => (Done (Failure e), db')
      end
  | Done answer => (Done answer, db)
  end.

(** [markAttendance] from start to end with nothing in between: its three
    awaits in a row. *)
Definition markAttendance (env : MarkEnv) (attendanceData : AttendanceData)
    (db : Firestore) : Call * Firestore :=
  let (c1, db1) := advance (AddDoc env attendanceData) db in
  let (c2, db2) := advance c1 db1 in
  advance c2 db2.

(** *** Calls that overlap *)

(** The store and the calls of [markAttendance] begun so far, in the order
    they began. *)
Record System := {
  store : Firestore;
  calls : list Call
}.

Inductive Event :=
| Begin (env : MarkEnv) (attendanceData : AttendanceData)
    (* a call of [markAttendance] begins                              *)
| Resume (i : nat)
    (* the store call that the [i]-th call waits for takes effect     *)
| Whole (op : Trace.Op).
    (* a service call from start to end with nothing in between       *)

Definition whole (op : Trace.Op) (db : Firestore) : Firestore :=
  match op with
  | Trace.MarkAttendance env a => snd (markAttendance env a db)
  | _ => Trace.step db op
  end.

Definition step (sys : System) (ev : Event) : System :=
  match ev with
  | Begin env a =>
      {| store := store sys; calls := (calls sys ++ [AddDoc env a])%list |}
  | Resume i =>
      match calls sys !! i with
      | Some c =>
          let (c', db') := advance c (store sys) in
          {| store := db'; calls := <[i := c']> (calls sys) |}
      | None => sys
      end
  | Whole op => {| store := whole op (store sys); calls := calls sys |}
  end.

Definition exec (events : list Event) (sys : System) : System :=
  fold_left step events sys.

(** The events of calls made one after the other. *)
Definition serial (ops : list Trace.Op) : list Event := List.map Whole ops.

(** The store generates for every new document an identifier that no
    document of the collection has. *)
Fixpoint fresh (sys : System) (events : list Event) : Prop :=
  match events with
  | [] => True
  | ev :: rest =>
      match ev with
      | Whole op => Trace.fresh_id (store sys) op
      | _ => True
      end
      /\ fresh (step sys ev) rest
  end.

(** The session identifier of a call of [markAttendance] is empty or the
    name of a document. *)
Definition named (op : Trace.Op) : Prop :=
  match op with
  | Trace.MarkAttendance _ a => sessionId a = "" \/ Paths.plain (sessionId a)
  | _ => True
  end.

(** What the store holds for a session: a list and a count that agree, or
    the empty list and no count yet. *)
Definition counted (s : Session) : Prop :=
  exists l,
    studentsPresent s = Some l
    /\ (totalPresent s = Some (length l)
        \/ l = [] /\ totalPresent s = None).

End Awaits.

(** ** Calls that overlap, on the stored sample session *)

Module SampleOverlap.

Import Service Awaits.

(** Two students record for session ["S1"] at the same time: both records
    are added, both calls read the session, then both write it back. *)
Definition events : list Event :=
  [Begin (Sample.env 1005000) (Sample.attendanceData "stu1" "S1");
   Begin (Sample.env 1005001) (Sample.attendanceData "stu2" "S1");
   Resume 0; Resume 1;    (* the two records are added   *)
   Resume 0; Resume 1;    (* the two calls read ["S1"]   *)
   Resume 0; Resume 1].   (* the two calls write ["S1"]  *)

Definition after : System :=
  exec events {| store := Sample.db1; calls := [] |}.

End SampleOverlap.

(** ** [firebase.js]: the other functions of the service *)

Module Details.

Import Service.

(** [getSessionDetails]: [{ id: sessionDoc.id, ...sessionDoc.data() }], the
    failure ["Session not found"], or the failure [doc] throws. *)
Definition getSessionDetails (sessionId : string)
  : Firestore -> Firestore * Result (string * Session) :=
  try_catch
    (match Paths.doc sessionId with
     | Paths.Document name =>
         await sessionDoc := getDoc name in
         match sessionDoc with
         | Some s => ret (name, s)
         | None => throw (ErrorMessage "Session not found")
         end
     | Paths.Nested _ => throw (ErrorMessage "Session not found")
     | Paths.Invalid e => throw e
     end).

End Details.

(** ** [firebase.js]: role validation, mobile detection, device identifier *)

Module Device.

(** How a regular expression with the [i] flag compares a character with an
    ASCII letter of the pattern: up to the case of the letters A-Z. *)
Definition lower (c : ascii) : ascii :=
  let n := N_of_ascii c in
  if ((65 <=? n) && (n <=? 90))%N then ascii_of_N (n + 32) else c.

(** The pattern's literal matches at the start of [s], case ignored. *)
Fixpoint prefix_i (literal s : string) : bool :=
  match literal, s with
  | EmptyString, _ => true
  | String a literal', String b s' =>
      Ascii.eqb (lower a) (lower b) && prefix_i literal' s'
  | String _ _, EmptyString => false
  end.

(** [/literal$/i.test(s)]: without the [m] flag, [$] is the end of the
    input. *)
Definition test_suffix_i (literal s : string) : bool :=
  prefix_i (String.rev literal) (String.rev s).


(** [validateEmailRole] *)
Definition validateEmailRole (email role : string) : bool :=
  if String.eqb role "student" then test_suffix_i "@pwioi.com" email
  else if String.eqb role "faculty" then test_suffix_i "@gmail.com" email
  else false.

(** The role the profile page detects from the address ([LoginPage.jsx],
    [detectedRole]). *)
Definition detectedRole (email : string) : string :=
  if validateEmailRole email "student" then "student" else "faculty".



(** [ToInt32]: what the bit operators make of a whole number. *)
Definition to_int32 (z : Z) : Z := (z + 2 ^ 31) mod 2 ^ 32 - 2 ^ 31.

(** One round of the loop of [generateDeviceId]:
    [hash = (hash << 5) - hash + char; hash = hash & hash].  The subtraction
    and the addition are exact. *)
Definition hash_step (hash char : Z) : Z :=
  to_int32 (to_int32 (to_int32 hash * 2 ^ 5) - hash + char).

Definition hash_of (codes : list Z) : Z := fold_left hash_step codes 0.

(** [charCodeAt] of every character. *)
Definition charCodes (s : string) : list Z :=
  List.map (fun c => Z.of_N (N_of_ascii c)) (list_ascii_of_string s).

(** [canvas.toDataURL() + navigator.userAgent + screen.width + screen.height] *)
Definition fingerprint (dataURL userAgent : string) (width height : Z)
  : string :=
  dataURL ++ userAgent ++ Js.dec width ++ Js.dec height.

(** [generateDeviceId]: [Math.abs(hash).toString()]. *)
Definition generateDeviceId (dataURL userAgent : string) (width height : Z)
  : string :=
  Js.dec (Z.abs (hash_of (charCodes (fingerprint dataURL userAgent width
                                       height)))).

(** The polynomial the loop evaluates. *)
Definition poly31 (codes : list Z) : Z :=
  fold_left (fun acc c => 31 * acc + c) codes 0.

End Device.

(** ** [firebase.js]: user and profile documents *)

Module Accounts.

Import Service.

(** The values the user and profile documents hold. *)
Inductive JsVal :=
| VNull
| VBool (b : bool)
| VNum (z : Z)
| VStr (s : string)
| VDate (ms : Z).

(** The [users] and [profiles] collections: documents are objects, looked
    up by the user's identifier. *)
Record Store := {
  users : gmap string (gmap string JsVal);
  profiles : gmap string (gmap string JsVal)
}.

Definition empty : Store := {| users := ∅; profiles := ∅ |}.

(** [{ ...data, createdAt: new Date() }] *)
Definition stamped (data : gmap string JsVal) (now : Z) : gmap string JsVal :=
  <["createdAt" := VDate now]> data.

(** [createUserDocument]: [setDoc] replaces the whole document. *)
Definition createUserDocument (uid : string) (userData : gmap string JsVal)
    (now : Z) (st : Store) : Store * Result unit :=
  ({| users := <[uid := stamped userData now]> (users st);
      profiles := profiles st |}, Success tt).

(** [getUserDocument].  [failed] is the message of the error when the read
    does not go through: the [catch] answers it with [success: false], as
    it answers a document that is not there. *)
Definition getUserDocument (failed : option string) (uid : string)
    (st : Store) : Result (gmap string JsVal) :=
  match failed with
  | Some msg => Failure (ErrorMessage msg)
  | None =>
      match users st !! uid with
      | Some data => Success data
      | None => Failure (ErrorMessage "User document not found")
      end
  end.


(** [createProfileDocument] *)
Definition createProfileDocument (uid : string)
    (profileData : gmap string JsVal) (now : Z) (st : Store)
  : Store * Result unit :=
  ({| users := users st;
      profiles := <[uid := stamped profileData now]> (profiles st) |},
   Success tt).

(** [getProfileDocument]; [failed] as for [getUserDocument]. *)
Definition getProfileDocument (failed : option string) (uid : string)
    (st : Store) : Result (gmap string JsVal) :=
  match failed with
  | Some msg => Failure (ErrorMessage msg)
  | None =>
      match profiles st !! uid with
      | Some data => Success data
      | None => Failure (ErrorMessage "Profile not found")
      end
  end.

(** *** [AuthContext]: [loadUserData] *)

(** The signed-in user as the authentication provider gives it; a missing
    name or photo is [null]. *)
Record FirebaseUser := {
  uid : string;
  email : string;
  displayName : option string;
  photoURL : option string
}.

Definition nullable (o : option string) : JsVal :=
  match o with
  | Some s => VStr s
  | None => VNull
  end.

(** The basic document of a new user. *)
Definition basic_userData (u : FirebaseUser) : gmap string JsVal :=
  <["uid" := VStr (uid u)]>
    (<["email" := VStr (email u)]>
       (<["displayName" := nullable (displayName u)]>
          (<["photoURL" := nullable (photoURL u)]>
             (<["role" := VNull]>
                (<["profileComplete" := VBool false]> ∅))))).

(** Whether the two reads and the write of [loadUserData] fail, and with
    what message. *)
Record Outcomes := {
  userRead : option string;
  profileRead : option string;
  userWrite : option string
}.

(** [loadUserData]: the store afterwards, and the [userProfile] the context
    ends with.  [st] is the store when the user document is read and
    [later] the store when the call that follows takes effect: other calls
    -- [processSignInResult] is one -- may have written in between.  A
    write that fails leaves the store as it is; [loadUserData] does not
    look at what [createUserDocument] answers. *)
Definition loadUserData (u : FirebaseUser) (now : Z) (out : Outcomes)
    (st later : Store) : Store * gmap string JsVal :=
  match getUserDocument (userRead out) (uid u) st with
  | Failure _ =>
      (match userWrite out with
       | None => fst (createUserDocument (uid u) (basic_userData u) now later)
       | Some _ => later
       end,
       basic_userData u)
  | Success userData =>
      match getProfileDocument (profileRead out) (uid u) later with
      | Success profileData =>
          (later,
           <["profileComplete" := VBool true]> (profileData ∪ userData))
      | Failure _ =>
          (later, <["profileComplete" := VBool false]> userData)
      end
  end.

(** *** [LoginForm.jsx]: [processSignInResult] *)



(** The document a sign-in writes: [{ email, role, isNewSignup: true }]. *)
Definition signup_userData (email role : string) : gmap string JsVal :=
  <["email" := VStr email]>
    (<["role" := VStr role]> (<["isNewSignup" := VBool true]> ∅)).


End Accounts.

(** ** What a sequence of service calls has recorded *)

Module History.

Import Service Trace.

(** The records the calls of [markAttendance] of a trace write, in call
    order. *)
Fixpoint written (ops : list Op) : list AttendanceRecord :=
  match ops with
  | [] => []
  | MarkAttendance env a :: rest => new_record env a :: written rest
  | _ :: rest => written rest
  end.


End History.

(** ** [QRScanner.jsx]: the steps around the scan *)

Module ScannerFlow.

Import Service.

(** The component state: the part [onScanSuccess] touches, and the rest.
    [photoStream] tells whether the state holds a camera stream,
    [capturedPhoto] is the captured image ([photoPreview] is set and cleared
    with it and is left out).  [closeTimers] are the pending
    [setTimeout(() => closeScanner(), 2000)], oldest first, each with the
    [photoStream] its [closeScanner] closed over. *)
Record Flow := {
  core : QRScanner.State;
  isOpen : bool;
  showPhotoCapture : bool;
  success : string;
  loading : bool;
  photoStream : bool;
  capturedPhoto : option string;
  closeTimers : list bool
}.

Definition initial : Flow :=
  {| core := {| QRScanner.scanning := false; QRScanner.scannedData := None;
                QRScanner.showConfirmation := false; QRScanner.error := "" |};
     isOpen := false; showPhotoCapture := false; success := "";
     loading := false; photoStream := false; capturedPhoto := None;
     closeTimers := [] |}.

Definition with_core (c : QRScanner.State) (st : Flow) : Flow :=
  {| core := c; isOpen := isOpen st;
     showPhotoCapture := showPhotoCapture st; success := success st;
     loading := loading st; photoStream := photoStream st;
     capturedPhoto := capturedPhoto st; closeTimers := closeTimers st |}.

(** [openScanner] *)
Definition openScanner (st : Flow) : Flow :=
  {| core := QRScanner.setError "" (core st); isOpen := true;
     showPhotoCapture := showPhotoCapture st; success := "";
     loading := loading st; photoStream := photoStream st;
     capturedPhoto := capturedPhoto st; closeTimers := closeTimers st |}.

(** [closeScanner], of a render in which [photoStream] was [seen]: the
    stream is dropped from the state only if that render had one. *)
Definition closeScanner (seen : bool) (st : Flow) : Flow :=
  {| core := {| QRScanner.scanning := false; QRScanner.scannedData := None;
                QRScanner.showConfirmation := false; QRScanner.error := "" |};
     isOpen := false; showPhotoCapture := false; success := "";
     loading := loading st;
     photoStream := if seen then false else photoStream st;
     capturedPhoto := None; closeTimers := closeTimers st |}.

(** [startScanning]; [rendered] tells whether creating and rendering the
    scanner went through without an exception. *)
Definition startScanning (rendered : bool) (st : Flow) : Flow :=
  with_core
    {| QRScanner.scanning := rendered;
       QRScanner.scannedData := QRScanner.scannedData (core st);
       QRScanner.showConfirmation := QRScanner.showConfirmation (core st);
       QRScanner.error :=
         if rendered then ""
         else "Failed to start camera. Please check permissions." |}
    st.

(** The scanner's callback. *)
Definition onScanSuccess (now : Z) (decodedText : Qr.Decoded) (st : Flow)
  : Flow :=
  with_core (QRScanner.onScanSuccess now decodedText (core st)) st.

(** [startPhotoCapture]; [stream] tells whether [getUserMedia] gave a
    stream. *)
Definition startPhotoCapture (stream : bool) (st : Flow) : Flow :=
  if stream then
    {| core := core st; isOpen := isOpen st;
       showPhotoCapture := showPhotoCapture st; success := success st;
       loading := loading st; photoStream := true;
       capturedPhoto := capturedPhoto st; closeTimers := closeTimers st |}
  else
    with_core
      (QRScanner.setError "Failed to access camera for photo verification."
         (core st)) st.

(** [confirmAttendance] *)
Definition confirmAttendance (stream : bool) (st : Flow) : Flow :=
  startPhotoCapture stream
    {| core :=
         {| QRScanner.scanning := QRScanner.scanning (core st);
            QRScanner.scannedData := QRScanner.scannedData (core st);
            QRScanner.showConfirmation := false;
            QRScanner.error := QRScanner.error (core st) |};
       isOpen := isOpen st; showPhotoCapture := true; success := success st;
       loading := loading st; photoStream := photoStream st;
       capturedPhoto := capturedPhoto st; closeTimers := closeTimers st |}.

(** [capturePhoto]; [mounted] tells whether the video and the canvas are
    there ([videoRef.current], [canvasRef.current]), [blob] is what
    [canvas.toBlob] hands over ([null] when it cannot make the image). *)
Definition capturePhoto (mounted : bool) (blob : option string) (st : Flow)
  : Flow :=
  if mounted then
    {| core := core st; isOpen := isOpen st;
       showPhotoCapture := showPhotoCapture st; success := success st;
       loading := loading st; photoStream := false;
       capturedPhoto := blob; closeTimers := closeTimers st |}
  else st.

(** [retakePhoto] *)
Definition retakePhoto (stream : bool) (st : Flow) : Flow :=
  startPhotoCapture stream
    {| core := core st; isOpen := isOpen st;
       showPhotoCapture := showPhotoCapture st; success := success st;
       loading := loading st; photoStream := photoStream st;
       capturedPhoto := None; closeTimers := closeTimers st |}.

(** [userProfile], as far as the scanner reads it. *)
Record StudentProfile := {
  p_fullName : option string;
  p_regNumber : option string
}.

(** What one run of [submitAttendance] reads from its surroundings. *)
Record SubmitEnv := {
  sub_dateNow : Z;             (* Date.now(), in the photo's path *)
  sub_upload : option string;  (* the URL [uploadFile] answered   *)
  sub_timestamp : Z;           (* timestamp: new Date()           *)
  sub_mark : MarkEnv           (* inside [markAttendance]         *)
}.

(** [`attendance_photos/${scannedData.sessionId}/${user.uid}_${Date.now()}.jpg`] *)
Definition photoPath (q : Qr.QrData) (user : QRGenerator.User) (dateNow : Z)
  : string :=
  "attendance_photos/" ++ default "undefined" (Qr.sessionId q) ++ "/"
  ++ QRGenerator.uid user ++ "_" ++ Js.dec dateNow ++ ".jpg".

(** [attendanceData].  A field that the payload or the profile lacks is
    [undefined], which the store refuses in a document: there is then
    nothing that [addDoc] would write. *)
Definition attendanceData (user : QRGenerator.User)
    (userProfile : StudentProfile) (q : Qr.QrData) (url : string)
    (timestamp : Z) : option AttendanceData :=
  match Qr.sessionId q, Qr.facultyId q, Qr.school q, Qr.batch q,
        Qr.subject q, Qr.periods q,
        p_fullName userProfile, p_regNumber userProfile with
  | Some sid, Some fid, Some school, Some batch, Some subject, Some periods,
    Some name, Some reg =>
      Some {| studentId := QRGenerator.uid user; sessionId := sid;
              a_facultyId := fid; a_school := school; a_batch := batch;
              a_subject := subject; a_periods := periods; photoUrl := url;
              studentName := name;
              studentEmail := QRGenerator.email user;
              regNumber := reg; a_timestamp := timestamp;
              a_status := "present" |}
  | _, _, _, _, _, _, _, _ => None
  end.

(** The [catch] and [finally] of [submitAttendance]. *)
Definition failed (msg : string) (st : Flow) : Flow :=
  {| core := QRScanner.setError msg (core st); isOpen := isOpen st;
     showPhotoCapture := showPhotoCapture st; success := success st;
     loading := false; photoStream := photoStream st;
     capturedPhoto := capturedPhoto st; closeTimers := closeTimers st |}.

(** [submitAttendance] *)
Definition submitAttendance (env : SubmitEnv) (user : QRGenerator.User)
    (userProfile : StudentProfile) (st : Flow) (db : Firestore)
  : Flow * Firestore :=
  match capturedPhoto st, QRScanner.scannedData (core st) with
  | Some photo, Some q =>
      match sub_upload env with
      | None => (failed "Failed to upload photo" st, db)
      | Some url =>
          match attendanceData user userProfile q url (sub_timestamp env) with
          | None => (failed "Failed to mark attendance" st, db)
          | Some a =>
              match markAttendance (sub_mark env) a db with
              | (db', Success _) =>
                  ({| core := QRScanner.setError "" (core st);
                      isOpen := isOpen st;
                      showPhotoCapture := showPhotoCapture st;
                      success := "Attendance marked successfully!";
                      loading := false; photoStream := photoStream st;
                      capturedPhoto := capturedPhoto st;
                      closeTimers :=
                        (closeTimers st ++ [photoStream st])%list |}, db')
              | (db', Failure _) =>
                  (failed "Failed to mark attendance" st, db')
              end
          end
      end
  | _, _ => (st, db)
  end.

(** The oldest pending timer of a successful submission fires. *)
Definition closeTimer (st : Flow) : Flow :=
  match closeTimers st with
  | [] => st
  | seen :: rest =>
      let st' := closeScanner seen st in
      {| core := core st'; isOpen := isOpen st';
         showPhotoCapture := showPhotoCapture st'; success := success st';
         loading := loading st'; photoStream := photoStream st';
         capturedPhoto := capturedPhoto st'; closeTimers := rest |}
  end.

(** What can happen to the component, in any order. *)
Inductive Event :=
| OpenScanner
| CloseScanner
| StartScanning (rendered : bool)
| ScanSuccess (now : Z) (decodedText : Qr.Decoded)
| ConfirmAttendance (stream : bool)
| CapturePhoto (mounted : bool) (blob : option string)
| RetakePhoto (stream : bool)
| SubmitAttendance (env : SubmitEnv)
| CloseTimer.

Definition step (user : QRGenerator.User) (userProfile : StudentProfile)
    (x : Flow * Firestore) (ev : Event) : Flow * Firestore :=
  let (st, db) := x in
  match ev with
  | OpenScanner => (openScanner st, db)
  | CloseScanner => (closeScanner (photoStream st) st, db)
  | StartScanning rendered => (startScanning rendered st, db)
  | ScanSuccess now d => (onScanSuccess now d st, db)
  | ConfirmAttendance stream => (confirmAttendance stream st, db)
  | CapturePhoto mounted blob => (capturePhoto mounted blob st, db)
  | RetakePhoto stream => (retakePhoto stream st, db)
  | SubmitAttendance env => submitAttendance env user userProfile st db
  | CloseTimer => (closeTimer st, db)
  end.

Definition run (user : QRGenerator.User) (userProfile : StudentProfile)
    (events : list Event) (x : Flow * Firestore) : Flow * Firestore :=
  fold_left (step user userProfile) events x.

(** The payload held in the state passed the checks of [onScanSuccess]. *)
Definition scanned_checked (st : Flow) : Prop :=
  forall q, QRScanner.scannedData (core st) = Some q -> QRScanner.well_formed q.

(** A record as the scanner writes it for [user]. *)
Definition own_record (user : QRGenerator.User) (r : AttendanceRecord)
  : Prop :=
  studentId (r_data r) = QRGenerator.uid user
  /\ studentEmail (r_data r) = QRGenerator.email user
  /\ a_status (r_data r) = "present"
  /\ Js.truthy (sessionId (r_data r)) = true
  /\ Js.truthy (a_facultyId (r_data r)) = true.

End ScannerFlow.

(** ** [OfflineQRGenerator.jsx]: counting the timer callbacks *)

Module Cadence.

Import OfflineQRGenerator.

Definition is_timeout (t : Tick) : bool :=
  match t with
  | SessionTimeout => true
  | RotationInterval _ => false
  end.

(** The [setTimeout] callbacks among [ticks]. *)
Definition timeouts (ticks : list Tick) : nat :=
  length (filter (fun t => is_timeout t = true) ticks).

(** The [setInterval] callbacks among [ticks] that come before the
    [left]-th [setTimeout] callback. *)
Fixpoint intervals (left : nat) (ticks : list Tick) : nat :=
  match left, ticks with
  | O, _ => O
  | _, [] => O
  | S n, SessionTimeout :: rest => intervals n rest
  | S _, RotationInterval _ :: rest => S (intervals left rest)
  end.

(** A session with [left] seconds to go after [n] live interval
    callbacks. *)
Record live (left n : nat) (st : State) : Prop := {
  live_timeLeft : timeLeft st = Z.of_nat left;
  live_isActive : isActive st = (0 <? Z.of_nat left)%Z;
  live_timerRef : timerRef st = (0 <? Z.of_nat left)%Z;
  live_rotationTimerRef : rotationTimerRef st = (0 <? Z.of_nat left)%Z;
  live_base : is_Some (baseSessionData st);
  live_rotations : totalRotations st = (n / 5)%nat;
  live_timer : qrRotationTimer st = 5 - Z.of_nat (n mod 5)
}.

End Cadence.

(** ** [OfflineQRGenerator.jsx]: the rotation in a development build

    [main.jsx] renders the application inside [React.StrictMode].  In a
    development build React then calls every state updater twice.  The
    updater that the interval callback gives to [setQrRotationTimer]
    returns the same value both times, but each time it calls
    [setTotalRotations] with an updater of its own, and these two run one
    after the other: the count goes up by two, and
    [generateQRWithEntropy] is called for both counts.  Nothing else of the
    component is an updater with an effect; the countdown and the effects
    are as in [OfflineQRGenerator]. *)

Module StrictMode.

Import OfflineQRGenerator.

(** The [setInterval] callback; [e] and [e'] are what the two calls of
    [generateQRWithEntropy] read.  The code of the later call is taken as
    the one shown in the end. *)
Definition rotation_interval (e e' : Entropy) (st : State) : State :=
  if rotationTimerRef st then
    match baseSessionData st with
    | Some baseData =>
        if (qrRotationTimer st <=? 1)%Z then
          let q := generateQRWithEntropy baseData (S (totalRotations st)) e in
          let q' :=
            generateQRWithEntropy baseData (S (S (totalRotations st))) e' in
          {| qrData := Some q'; timeLeft := timeLeft st;
             isActive := isActive st; error := error st;
             success := success st;
             qrRotationTimer := 5;
             totalRotations := S (S (totalRotations st));
             baseSessionData := baseSessionData st;
             timerRef := timerRef st;
             rotationTimerRef := rotationTimerRef st;
             issued := (issued st ++ [q; q'])%list |}
        else
          {| qrData := qrData st; timeLeft := timeLeft st;
             isActive := isActive st; error := error st;
             success := success st;
             qrRotationTimer := qrRotationTimer st - 1;
             totalRotations := totalRotations st;
             baseSessionData := baseSessionData st;
             timerRef := timerRef st;
             rotationTimerRef := rotationTimerRef st;
             issued := issued st |}
    | None => st
    end
  else st.

Inductive Tick :=
| SessionTimeout
| RotationInterval (e e' : Entropy).

Definition tick (st : State) (t : Tick) : State :=
  match t with
  | SessionTimeout => session_timeout st
  | RotationInterval e e' => rotation_interval e e' st
  end.

Definition run (ticks : list Tick) (st : State) : State :=
  fold_left tick ticks st.


(** A session with [left] seconds to go after [n] live interval
    callbacks. *)
Record live (left n : nat) (st : State) : Prop := {
  live_timeLeft : timeLeft st = Z.of_nat left;
  live_isActive : isActive st = (0 <? Z.of_nat left)%Z;
  live_timerRef : timerRef st = (0 <? Z.of_nat left)%Z;
  live_rotationTimerRef : rotationTimerRef st = (0 <? Z.of_nat left)%Z;
  live_base : is_Some (baseSessionData st);
  live_rotations : totalRotations st = (2 * (n / 5))%nat;
  live_timer : qrRotationTimer st = 5 - Z.of_nat (n mod 5);
  live_indices :
    indices (issued st) = List.map Some (seq 0 (S (totalRotations st)))
}.

End StrictMode.

(** ** A concrete rotating session in a development build *)

Module SampleStrict.

Import OfflineQRGenerator.

(** Second [k] of the session: the countdown callback, then the rotation
    callback. *)
Definition second (k : nat) : list StrictMode.Tick :=
  [StrictMode.SessionTimeout;
   StrictMode.RotationInterval
     (SampleSession.entropy_at (SampleSession.t0 + 1000 * Z.of_nat k))
     (SampleSession.entropy_at (SampleSession.t0 + 1000 * Z.of_nat k + 1))].

Definition seconds (n : nat) : list StrictMode.Tick :=
  flat_map second (seq 1 n).

Definition after (n : nat) : State :=
  StrictMode.run (seconds n) SampleSession.started.

End SampleStrict.

(** ** [QRRotationDebugger]: the rotation counter on its own

    The log the component keeps is not modelled.  As for the generator,
    every updater runs once; in a development build its count goes up by
    two per rotation as well. *)

Module QRRotationDebugger.

Record State := {
  isActive : bool;
  rotationTimer : Z;
  totalRotations : nat
}.

Definition initial : State :=
  {| isActive := false; rotationTimer := 5; totalRotations := 0 |}.

(** [startRotation] *)
Definition startRotation (st : State) : State :=
  {| isActive := true; rotationTimer := 5; totalRotations := 0 |}.

(** [stopRotation] *)
Definition stopRotation (st : State) : State :=
  {| isActive := false; rotationTimer := rotationTimer st;
     totalRotations := totalRotations st |}.

(** The [setInterval] callback of a production build; the effect keeps the
    interval exactly while [isActive].  The count is raised by an updater
    inside the updater of the countdown, as in the generator: a development
    build applies it twice, as [StrictMode.rotation_interval] does. *)
Definition interval (st : State) : State :=
  if isActive st then
    if (rotationTimer st <=? 1)%Z then
      {| isActive := isActive st; rotationTimer := 5;
         totalRotations := S (totalRotations st) |}
    else
      {| isActive := isActive st; rotationTimer := rotationTimer st - 1;
         totalRotations := totalRotations st |}
  else st.

End QRRotationDebugger.

(** ** [ManualAttendance.jsx]: attendance marked by hand

    The component adds documents to the two collections on its own, without
    the service.  Its session documents have fields of their own, so the
    documents it adds are kept here as two logs.  An [addDoc] whose data has
    an [undefined] field throws before anything is sent. *)

Module ManualAttendance.

(** A student as [getStudentsByBatch] lists it: the identifier and, of the
    profile, what the component reads. *)
Record Student := {
  id : string;
  fullName : option string;
  regNumber : option string
}.

Record State := {
  school : string;
  batch : string;
  subject : string;
  periods : option Z;               (* parseInt(periods); NaN is [None] *)
  date : string;
  attendance : gmap string string;  (* student id to status *)
  students : list Student
}.

(** [fetchStudents], given the answer of [getStudentsByBatch]: [None] for
    [{ success: false }]. *)
Definition initialAttendance (data : list Student) : gmap string string :=
  fold_left (fun m student => <[id student := "present"]> m) data ∅.

Definition fetchStudents (result : option (list Student)) (st : State)
  : State :=
  match result with
  | Some data =>
      {| school := school st; batch := batch st; subject := subject st;
         periods := periods st; date := date st;
         attendance := initialAttendance data; students := data |}
  | None => st
  end.

(** [handleAttendanceChange] *)
Definition handleAttendanceChange (studentId status : string) (st : State)
  : State :=
  {| school := school st; batch := batch st; subject := subject st;
     periods := periods st; date := date st;
     attendance := <[studentId := status]> (attendance st);
     students := students st |}.

(** [Object.values(attendance).filter(s => s === status).length] *)
Definition count (status : string) (attendance : gmap string string) : nat :=
  length (filter (fun v => v = status) (snd <$> map_to_list attendance)).

(** The session document of a submission. *)
Record SessionDoc := {
  sd_facultyId : string;
  sd_facultyName : string;
  sd_school : string;
  sd_batch : string;
  sd_subject : string;
  sd_date : string;
  sd_periods : option Z;
  sd_createdAt : Z;
  totalStudents : nat;
  presentCount : nat;
  absentCount : nat;
  lateCount : nat
}.

(** An attendance document of a submission ([markedBy] is ['manual']). *)
Record RecordDoc := {
  sessionId : string;
  studentId : string;
  studentName : string;
  r_regNumber : string;
  facultyId : string;
  r_school : string;
  r_batch : string;
  r_subject : string;
  r_date : string;
  r_periods : option Z;
  status : string;
  timestamp : Z
}.

Record Store := {
  attendance_sessions : list (string * SessionDoc);
  attendance_docs : list RecordDoc
}.

(** What one run of [handleSubmit] reads from its surroundings. *)
Record SubmitEnv := {
  e_createdAt : Z;           (* createdAt: new Date()                *)
  e_autoId : string;         (* sessionRef.id                        *)
  e_timestamp : nat -> Z     (* timestamp: new Date(), per student   *)
}.

(** [attendance[student.id] || 'absent'] *)
Definition status_of (attendance : gmap string string) (student : Student)
  : string :=
  match attendance !! id student with
  | Some s => if Js.truthy s then s else "absent"
  | None => "absent"
  end.

(** The attendance document for the [i]-th student, if its data has no
    [undefined] field. *)
Definition record_of (env : SubmitEnv) (uid : string) (st : State)
    (i : nat) (student : Student) : option RecordDoc :=
  match fullName student, regNumber student with
  | Some name, Some reg =>
      Some {| sessionId := e_autoId env; studentId := id student;
              studentName := name; r_regNumber := reg; facultyId := uid;
              r_school := school st; r_batch := batch st;
              r_subject := subject st; r_date := date st;
              r_periods := periods st;
              status := status_of (attendance st) student;
              timestamp := e_timestamp env i |}
  | _, _ => None
  end.

(** [students.map(student => addDoc(...))]: the documents sent, and whether
    the [map] ran to its end; it stops at the first [addDoc] that throws. *)
Fixpoint send (env : SubmitEnv) (uid : string) (st : State) (i : nat)
    (l : list Student) : list RecordDoc * bool :=
  match l with
  | [] => ([], true)
  | student :: rest =>
      match record_of env uid st i student with
      | Some r =>
          let (sent, ok) := send env uid st (S i) rest in (r :: sent, ok)
      | None => ([], false)
      end
  end.

Definition sessionData (env : SubmitEnv) (uid name : string) (st : State)
  : SessionDoc :=
  {| sd_facultyId := uid; sd_facultyName := name;
     sd_school := school st; sd_batch := batch st;
     sd_subject := subject st; sd_date := date st;
     sd_periods := periods st; sd_createdAt := e_createdAt env;
     totalStudents := length (students st);
     presentCount := count "present" (attendance st);
     absentCount := count "absent" (attendance st);
     lateCount := count "late" (attendance st) |}.

(** [handleSubmit], for the signed-in faculty [uid] whose profile has the
    name [profileName]: the state, the store and the notice shown
    afterwards. *)
Definition handleSubmit (env : SubmitEnv) (uid : string)
    (profileName : option string) (st : State) (db : Store)
  : State * Store * string :=
  if negb (Js.truthy (school st)) || negb (Js.truthy (batch st))
     || negb (Js.truthy (subject st)) || negb (Js.truthy (date st))
  then (st, db, "Please fill all required fields")
  else
    match students st with
    | [] => (st, db, "No students found for the selected batch")
    | _ :: _ =>
        match profileName with
        | None => (st, db, "Failed to submit attendance. Please try again.")
        | Some name =>
            let db1 :=
              {| attendance_sessions :=
                   (attendance_sessions db
                    ++ [(e_autoId env, sessionData env uid name st)])%list;
                 attendance_docs := attendance_docs db |} in
            let (sent, ok) := send env uid st 0 (students st) in
            let db2 :=
              {| attendance_sessions := attendance_sessions db1;
                 attendance_docs := (attendance_docs db1 ++ sent)%list |} in
            if ok then
              ({| school := school st; batch := ""; subject := "";
                  periods := periods st; date := date st;
                  attendance := ∅; students := [] |},
               db2,
               "Attendance marked successfully for "
               ++ Js.dec (Z.of_nat (length (students st))) ++ " students")
            else
              (st, db2, "Failed to submit attendance. Please try again.")
        end
    end.

(** The statuses the table offers. *)
Definition offered (status : string) : Prop :=
  status = "present" \/ status = "absent" \/ status = "late".

(** Choices made in the table: each for a listed student, with a status the
    table offers. *)
Definition choose (st : State) (choices : list (string * string)) : State :=
  fold_left (fun s c => handleAttendanceChange (fst c) (snd c) s) choices st.

(** Every listed student, and nobody else, has a status, and it is one the
    table offers. *)
Definition table_filled (ids : list string) (m : gmap string string)
  : Prop :=
  forall k, (is_Some (m !! k) <-> k ∈ ids)
            /\ (forall v, m !! k = Some v -> offered v).

End ManualAttendance.
(** * Properties *)

Module ServiceFacts.

Import Service Trace.

(** ** What each call does to the store *)

Lemma markAttendance_eq env a db :
  markAttendance env a db =
  let written :=
    {| attendance := (attendance db ++ [new_record env a])%list;
       attendance_sessions := attendance_sessions db |} in
  if Js.truthy (sessionId a) then
    match attendance_sessions db !! sessionId a with
    | Some s =>
        let present := default [] (studentsPresent s) in
        if some_student (studentId a) present then (written, Success tt)
        else
          ({| attendance := (attendance db ++ [new_record env a])%list;
              attendance_sessions :=
                <[sessionId a :=
                    set_presence (present ++ [new_entry env a])%list
                      (env_lastUpdated env) s]> (attendance_sessions db) |},
           Success tt)
    | None => (written, Success tt)
    end
  else (written, Success tt).
Proof.
  unfold markAttendance, try_catch, bind, addDoc_attendance, getDoc,
    updateDoc, ret; cbn [attendance attendance_sessions].
  destruct (Js.truthy (sessionId a)); [|reflexivity].
  cbn [attendance attendance_sessions].
  destruct (attendance_sessions db !! sessionId a) as [s|] eqn:Hs;
    [|reflexivity].
  destruct (some_student (studentId a) (default [] (studentsPresent s)));
    cbn [negb attendance attendance_sessions]; [reflexivity|].
  rewrite Hs. reflexivity.
Qed.

Lemma markAttendance_success env a db :
  snd (markAttendance env a db) = Success tt.
Proof.
  rewrite markAttendance_eq; simpl.
  repeat case_match; reflexivity.
Qed.

Lemma markAttendance_attendance env a db :
  attendance (fst (markAttendance env a db))
  = (attendance db ++ [new_record env a])%list.
Proof.
  rewrite markAttendance_eq; simpl.
  repeat case_match; reflexivity.
Qed.

Lemma deactivateSession_eq now sid db :
  deactivateSession now sid db =
  match attendance_sessions db !! sid with
  | Some s =>
      ({| attendance := attendance db;
          attendance_sessions :=
            <[sid := set_deactivated now s]> (attendance_sessions db) |},
       Success tt)
  | None => (db, Failure NoDocumentToUpdate)
  end.
Proof.
  unfold deactivateSession, try_catch, updateDoc.
  destruct (attendance_sessions db !! sid); reflexivity.
Qed.

Lemma saveQRCodeToStorage_eq upload dateNow sid db :
  saveQRCodeToStorage upload dateNow sid db =
  match upload with
  | Some url =>
      match attendance_sessions db !! sid with
      | Some s =>
          ({| attendance := attendance db;
              attendance_sessions :=
                <[sid := set_qrCode url (qr_path sid dateNow) s]>
                  (attendance_sessions db) |},
           Success url)
      | None => (db, Failure NoDocumentToUpdate)
      end
  | None => (db, Failure (ErrorMessage "Failed to upload QR code"))
  end.
Proof.
  unfold saveQRCodeToStorage, try_catch, bind, updateDoc, throw, ret.
  destruct upload; [|reflexivity].
  destruct (attendance_sessions db !! sid); reflexivity.
Qed.

(** ** Every call keeps a session's document, its creation and expiry
    instants, and never sets [isActive] to [true] *)

Lemma evolves_refl s : evolves s s.
Proof. unfold evolves; tauto. Qed.

Lemma evolves_trans s1 s2 s3 : evolves s1 s2 -> evolves s2 s3 -> evolves s1 s3.
Proof.
  unfold evolves; intros (a1 & b1 & c1 & d1) (a2 & b2 & c2 & d2).
  repeat split; try congruence; auto.
Qed.

Lemma evolves_expiry s s' : evolves s s' -> expiry s' = expiry s.
Proof. intros (Hd & Hc & _). unfold expiry. rewrite Hd, Hc. reflexivity. Qed.

Lemma step_evolves db op sid s :
  fresh_id db op ->
  attendance_sessions db !! sid = Some s ->
  exists s', attendance_sessions (step db op) !! sid = Some s'
             /\ evolves s s'.
Proof.
  intros Hfresh Hs. destruct op as [autoId now sd|env a|upload dateNow k|fid now|now k];
    simpl in *.
  - (* createAttendanceSession *)
    exists s. split; [|apply evolves_refl].
    unfold createAttendanceSession, try_catch, addDoc_session; simpl.
    rewrite lookup_insert_ne; [exact Hs|]. intros ->. congruence.
  - (* markAttendance *)
    rewrite markAttendance_eq; simpl.
    destruct (Js.truthy (sessionId a)); simpl;
      [|exists s; split; [exact Hs|apply evolves_refl]].
    destruct (attendance_sessions db !! sessionId a) as [t|] eqn:Ht; simpl;
      [|exists s; split; [exact Hs|apply evolves_refl]].
    destruct (some_student (studentId a) (default [] (studentsPresent t)));
      simpl; [exists s; split; [exact Hs|apply evolves_refl]|].
    destruct (decide (sessionId a = sid)) as [E|Hne].
    + rewrite E in *. rewrite lookup_insert_eq.
      eexists; split; [reflexivity|].
      assert (t = s) as -> by congruence.
      unfold evolves; simpl; tauto.
    + rewrite lookup_insert_ne by exact Hne.
      exists s; split; [exact Hs|apply evolves_refl].
  - (* saveQRCodeToStorage *)
    rewrite saveQRCodeToStorage_eq.
    destruct upload as [url|]; simpl;
      [|exists s; split; [exact Hs|apply evolves_refl]].
    destruct (attendance_sessions db !! k) as [t|] eqn:Ht; simpl;
      [|exists s; split; [exact Hs|apply evolves_refl]].
    destruct (decide (k = sid)) as [->|Hne].
    + rewrite lookup_insert_eq. eexists; split; [reflexivity|].
      assert (t = s) as -> by congruence.
      unfold evolves; simpl; tauto.
    + rewrite lookup_insert_ne by exact Hne.
      exists s; split; [exact Hs|apply evolves_refl].
  - (* getActiveSessions *)
    unfold getActiveSessions; simpl.
    rewrite lookup_fmap, Hs; simpl.
    eexists; split; [reflexivity|].
    destruct (query_matches fid s && negb (bool_decide (now < expiry s)));
      [|apply evolves_refl].
    unfold evolves; simpl. repeat split; congruence.
  - (* deactivateSession *)
    rewrite deactivateSession_eq.
    destruct (attendance_sessions db !! k) as [t|] eqn:Ht; simpl;
      [|exists s; split; [exact Hs|apply evolves_refl]].
    destruct (decide (k = sid)) as [->|Hne].
    + rewrite lookup_insert_eq. eexists; split; [reflexivity|].
      assert (t = s) as -> by congruence.
      unfold evolves; simpl. repeat split; congruence.
    + rewrite lookup_insert_ne by exact Hne.
      exists s; split; [exact Hs|apply evolves_refl].
Qed.

Lemma run_evolves ops : forall db sid s,
  fresh_ids db ops ->
  attendance_sessions db !! sid = Some s ->
  exists s', attendance_sessions (run ops db) !! sid = Some s'
             /\ evolves s s'.
Proof.
  induction ops as [|op ops IH]; intros db sid s Hfresh Hs; simpl in *.
  - exists s; split; [exact Hs|apply evolves_refl].
  - destruct Hfresh as [Hop Hrest].
    destruct (step_evolves db op sid s Hop Hs) as (s1 & Hs1 & E1).
    destruct (IH _ _ _ Hrest Hs1) as (s2 & Hs2 & E2).
    exists s2; split; [exact Hs2|]. eapply evolves_trans; eassumption.
Qed.

End ServiceFacts.

(** ** Recording attendance *)

Module Recording.

Import Service Trace ServiceFacts.

Lemma some_student_spec id l :
  some_student id l = true <-> id ∈ List.map se_studentId l.
Proof.
  unfold some_student. rewrite existsb_exists, list_elem_of_In, in_map_iff.
  split.
  - intros (x & Hx & E). apply String.eqb_eq in E. eauto.
  - intros (x & E & Hx). exists x. split; [exact Hx|].
    apply String.eqb_eq. exact E.
Qed.

Lemma truthy_nonempty s : s <> "" -> Js.truthy s = true.
Proof.
  intros H. unfold Js.truthy. destruct (String.eqb s "") eqn:E; [|reflexivity].
  apply String.eqb_eq in E. contradiction.
Qed.

Lemma step_presence db op sid s :
  sid <> "" ->
  fresh_id db op ->
  attendance_sessions db !! sid = Some s ->
  exists s', attendance_sessions (step db op) !! sid = Some s'
             /\ (studentsPresent s', totalPresent s') = presence_after op sid s.
Proof.
  intros Hsid Hfresh Hs.
  destruct op as [autoId now sd|env a|upload dateNow k|fid now|now k];
    simpl in *.
  - exists s. split; [|reflexivity].
    unfold createAttendanceSession, try_catch, addDoc_session; simpl.
    rewrite lookup_insert_ne; [exact Hs|]. intros ->. congruence.
  - rewrite markAttendance_eq; cbn zeta.
    destruct (String.eqb (sessionId a) sid) eqn:E.
    + apply String.eqb_eq in E. rewrite E in *.
      rewrite (truthy_nonempty sid Hsid), Hs.
      destruct (some_student (studentId a) (default [] (studentsPresent s)));
        simpl.
      * exists s. split; [exact Hs|reflexivity].
      * rewrite lookup_insert_eq. eexists. split; reflexivity.
    + apply String.eqb_neq in E. simpl.
      exists s. split; [|reflexivity].
      repeat case_match; simpl; try exact Hs.
      rewrite lookup_insert_ne by exact E. exact Hs.
  - rewrite saveQRCodeToStorage_eq.
    destruct upload as [url|]; simpl; [|exists s; split; [exact Hs|reflexivity]].
    destruct (attendance_sessions db !! k) as [t|] eqn:Ht; simpl;
      [|exists s; split; [exact Hs|reflexivity]].
    destruct (decide (k = sid)) as [E|Hne].
    + rewrite E in *. rewrite lookup_insert_eq.
      assert (t = s) as -> by congruence.
      eexists; split; reflexivity.
    + rewrite lookup_insert_ne by exact Hne.
      exists s; split; [exact Hs|reflexivity].
  - unfold getActiveSessions; simpl.
    rewrite lookup_fmap, Hs; simpl.
    eexists; split; [reflexivity|].
    destruct (query_matches fid s && negb (bool_decide (now < expiry s)));
      reflexivity.
  - rewrite deactivateSession_eq.
    destruct (attendance_sessions db !! k) as [t|] eqn:Ht; simpl;
      [|exists s; split; [exact Hs|reflexivity]].
    destruct (decide (k = sid)) as [E|Hne].
    + rewrite E in *. rewrite lookup_insert_eq.
      assert (t = s) as -> by congruence.
      eexists; split; reflexivity.
    + rewrite lookup_insert_ne by exact Hne.
      exists s; split; [exact Hs|reflexivity].
Qed.

Lemma marked_cons_step sid op ops :
  marked sid (op :: ops)
  = (match op with
     | MarkAttendance _ a =>
         if String.eqb (sessionId a) sid then [studentId a] else []
     | _ => []
     end ++ marked sid ops)%list.
Proof. destruct op; simpl; try reflexivity. destruct (String.eqb _ _); reflexivity. Qed.

Lemma step_tallied sid seen db op :
  sid <> "" ->
  fresh_id db op ->
  tallied sid seen db ->
  tallied sid (seen ++ marked sid [op])%list (step db op).
Proof.
  intros Hsid Hfresh (s & l & Hs & Hl & Hnd & Hmem & Htot & Hnone).
  destruct (step_presence db op sid s Hsid Hfresh Hs) as (s' & Hs' & Hp).
  unfold tallied.
  destruct op as [autoId now sd|env a|upload dateNow k|fid now|now k];
    simpl in Hp; simpl marked; rewrite ?app_nil_r;
    try (injection Hp as Hp1 Hp2; exists s', l;
         rewrite Hp1, Hp2; repeat split; auto; apply Hmem).
  rewrite Hl in Hp; simpl in Hp.
  destruct (String.eqb (sessionId a) sid) eqn:E; simpl in Hp.
  - destruct (some_student (studentId a) l) eqn:Hin; simpl in Hp;
      injection Hp as Hp1 Hp2.
    + apply some_student_spec in Hin.
      exists s', l. rewrite Hp1, Hp2. repeat split; auto.
      * intros Hx. apply elem_of_app. left. apply Hmem, Hx.
      * intros Hx. apply elem_of_app in Hx as [Hx|Hx]; [apply Hmem, Hx|].
        apply list_elem_of_singleton in Hx. subst x. exact Hin.
      * intros _. apply Htot. intros ->. apply Hmem in Hin.
        inversion Hin.
      * intros Hx. apply app_eq_nil in Hx as [_ Hx]. discriminate.
    + assert (studentId a ∉ List.map se_studentId l) as Hnot.
      { intros Hx. apply some_student_spec in Hx. congruence. }
      exists s', (l ++ [new_entry env a])%list.
      rewrite Hp1, Hp2. repeat split; auto.
      * rewrite map_app; simpl. apply NoDup_app. repeat split.
        -- exact Hnd.
        -- intros x Hx Hx'. apply list_elem_of_singleton in Hx'. subst x.
           contradiction.
        -- apply NoDup_singleton.
      * rewrite map_app; simpl. intros Hx.
        apply elem_of_app in Hx as [Hx|Hx]; apply elem_of_app;
          [left; apply Hmem, Hx|right; exact Hx].
      * rewrite map_app; simpl. intros Hx.
        apply elem_of_app in Hx as [Hx|Hx]; apply elem_of_app;
          [left; apply Hmem, Hx|right; exact Hx].
      * intros Hx. apply app_eq_nil in Hx as [_ Hx]. discriminate.
  - injection Hp as Hp1 Hp2. rewrite app_nil_r.
    exists s', l. rewrite Hp1, Hp2. repeat split; auto; apply Hmem.
Qed.

Lemma run_tallied sid ops : forall seen db,
  sid <> "" ->
  fresh_ids db ops ->
  tallied sid seen db ->
  tallied sid (seen ++ marked sid ops)%list (run ops db).
Proof.
  induction ops as [|op ops IH]; intros seen db Hsid Hfresh Ht; simpl run.
  - simpl. rewrite app_nil_r. exact Ht.
  - destruct Hfresh as [Hop Hrest].
    replace (seen ++ marked sid (op :: ops))%list
      with ((seen ++ marked sid [op]) ++ marked sid ops)%list.
    2:{ rewrite <- app_assoc. f_equal.
        rewrite (marked_cons_step sid op ops), (marked_cons_step sid op []).
        simpl. rewrite app_nil_r. reflexivity. }
    apply IH; [exact Hsid|exact Hrest|].
    apply step_tallied; assumption.
Qed.

(** One recording keeps the stored count equal to the length of the stored
    list. *)
Lemma markAttendance_count_consistent env a db sid s :
  attendance_sessions db !! sid = Some s ->
  count_consistent s ->
  exists s', attendance_sessions (fst (markAttendance env a db)) !! sid
             = Some s'
             /\ count_consistent s'.
Proof.
  intros Hs Hc. rewrite markAttendance_eq; cbn zeta.
  destruct (Js.truthy (sessionId a)); simpl; [|eauto].
  destruct (attendance_sessions db !! sessionId a) as [t|] eqn:Ht; simpl;
    [|eauto].
  destruct (some_student (studentId a) (default [] (studentsPresent t)));
    simpl; [eauto|].
  destruct (decide (sessionId a = sid)) as [E|Hne].
  - rewrite E. rewrite lookup_insert_eq. eexists. split; [reflexivity|].
    unfold count_consistent; simpl. eexists; split; reflexivity.
  - rewrite lookup_insert_ne by exact Hne. eauto.
Qed.

End Recording.

(** ** Document references and overlapping calls *)

Module AwaitsFacts.

Import Service Trace ServiceFacts Recording Awaits.

Lemma append_cons c s t : String c s ++ t = String c (s ++ t).
Proof. reflexivity. Qed.

Lemma append_empty_r s : s ++ "" = s.
Proof.
  induction s as [|c s IH]; [reflexivity|].
  rewrite append_cons, IH. reflexivity.
Qed.

Lemma append_snoc cur c s : (cur ++ String c "") ++ s = cur ++ String c s.
Proof.
  induction cur as [|d cur IH]; [reflexivity|].
  rewrite !append_cons, IH. reflexivity.
Qed.

Lemma segments_from_slashless s : forall cur,
  Paths.slashless s = true ->
  Paths.segments_from cur s = if Js.truthy (cur ++ s) then [cur ++ s] else [].
Proof.
  induction s as [|c s IH]; intros cur H.
  - cbn [Paths.segments_from]. rewrite append_empty_r. reflexivity.
  - cbn [Paths.slashless] in H. apply andb_true_iff in H as [Hc Hs].
    cbn [Paths.segments_from].
    destruct (Ascii.eqb c "/"); [discriminate|].
    rewrite (IH _ Hs), append_snoc. reflexivity.
Qed.

Lemma doubled_slashless s : Paths.slashless s = true -> Paths.doubled s = false.
Proof.
  induction s as [|a s IH]; [reflexivity|].
  cbn [Paths.slashless]. intros H. apply andb_true_iff in H as [Ha Hs].
  cbn [Paths.doubled]. destruct s as [|b s']; [reflexivity|].
  destruct (Ascii.eqb a "/"); [discriminate|].
  cbn [andb orb]. exact (IH Hs).
Qed.

(** An identifier that is not empty and has no ['/'] is the name of a
    document. *)
Lemma plain_slashless id :
  id <> "" -> Paths.slashless id = true -> Paths.plain id.
Proof.
  intros Hne Hs. unfold Paths.plain, Paths.doc, Paths.segments.
  rewrite (doubled_slashless id Hs), (segments_from_slashless id "" Hs).
  change ("" ++ id) with id.
  rewrite (truthy_nonempty id Hne). reflexivity.
Qed.

Lemma plain_nonempty id : Paths.plain id -> id <> "".
Proof. intros H E. rewrite E in H. vm_compute in H. discriminate. Qed.

(** What the call does, run from start to end. *)
Lemma markAttendance_awaits_eq env a db :
  Awaits.markAttendance env a db =
  let written :=
    {| attendance := (attendance db ++ [new_record env a])%list;
       attendance_sessions := attendance_sessions db |} in
  if Js.truthy (sessionId a) then
    match Paths.doc (sessionId a) with
    | Paths.Document name =>
        match attendance_sessions db !! name with
        | Some s =>
            let present := default [] (studentsPresent s) in
            if some_student (studentId a) present
            then (Done (Success tt), written)
            else
              (Done (Success tt),
               {| attendance := (attendance db ++ [new_record env a])%list;
                  attendance_sessions :=
                    <[name :=
                        set_presence (present ++ [new_entry env a])%list
                          (env_lastUpdated env) s]> (attendance_sessions db) |})
        | None => (Done (Success tt), written)
        end
    | Paths.Nested _ => (Done (Success tt), written)
    | Paths.Invalid e => (Done (Failure e), written)
    end
  else (Done (Success tt), written).
Proof.
  unfold Awaits.markAttendance. cbn [advance].
  unfold addDoc_attendance; cbn [fst].
  destruct (Js.truthy (sessionId a)); [|reflexivity].
  destruct (Paths.doc (sessionId a)) as [name|path|e]; try reflexivity.
  cbn [advance attendance_sessions].
  destruct (attendance_sessions db !! name) as [s|] eqn:Hs; [|reflexivity].
  destruct (some_student (studentId a) (default [] (studentsPresent s)));
    cbn [negb]; [reflexivity|].
  cbn [advance]. unfold updateDoc. cbn [attendance_sessions attendance].
  rewrite Hs. reflexivity.
Qed.

(** For the name of a document, it is the call of [Service]. *)
Lemma markAttendance_named env a db :
  named (MarkAttendance env a) ->
  Awaits.markAttendance env a db
  = (Done (snd (Service.markAttendance env a db)),
     fst (Service.markAttendance env a db)).
Proof.
  intros Hn. rewrite markAttendance_awaits_eq, ServiceFacts.markAttendance_eq.
  cbn zeta. destruct Hn as [E|Hp].
  - rewrite E. reflexivity.
  - unfold Paths.plain in Hp. rewrite Hp.
    destruct (Js.truthy (sessionId a)); [|reflexivity].
    destruct (attendance_sessions db !! sessionId a) as [s|]; [|reflexivity].
    destruct (some_student (studentId a) (default [] (studentsPresent s)));
      reflexivity.
Qed.

Lemma whole_named op db : named op -> whole op db = Trace.step db op.
Proof.
  destruct op; try reflexivity. intros Hn. cbn [whole Trace.step].
  rewrite (markAttendance_named _ _ _ Hn). reflexivity.
Qed.

(** Calls made one after the other, with names for identifiers, are the
    calls of [Service]. *)
Lemma exec_serial ops : forall sys,
  Forall named ops ->
  exec (serial ops) sys
  = {| store := Trace.run ops (store sys); calls := calls sys |}.
Proof.
  induction ops as [|op ops IH]; intros sys Hn.
  - destruct sys. reflexivity.
  - apply Forall_cons in Hn as [Hop Hn].
    change (exec (serial (op :: ops)) sys)
      with (exec (serial ops) (Awaits.step sys (Whole op))).
    rewrite (IH _ Hn). cbn [Awaits.step store calls].
    rewrite (whole_named _ _ Hop). reflexivity.
Qed.

Lemma fresh_serial ops : forall sys,
  Forall named ops ->
  fresh sys (serial ops) ->
  fresh_ids (store sys) ops.
Proof.
  induction ops as [|op ops IH]; intros sys Hn Hf; [exact I|].
  apply Forall_cons in Hn as [Hop Hn].
  cbn [serial List.map fresh] in Hf. destruct Hf as [H1 H2].
  split; [exact H1|].
  apply IH in H2; [|exact Hn].
  cbn [Awaits.step store] in H2. rewrite (whole_named _ _ Hop) in H2.
  exact H2.
Qed.

(** The list and the count of a session agree after every event, however
    the calls overlap. *)
Lemma set_presence_counted l now s : counted (set_presence l now s).
Proof. exists l. split; [reflexivity|]. left. reflexivity. Qed.

Lemma insert_counted (m : gmap string Session) name sid l now s t :
  m !! sid = Some s ->
  counted s ->
  m !! name = Some t ->
  exists s', <[name := set_presence l now t]> m !! sid = Some s'
             /\ counted s'.
Proof.
  intros Hs Hc Ht. destruct (decide (name = sid)) as [E|Hne].
  - rewrite E. rewrite lookup_insert_eq. eexists. split; [reflexivity|].
    apply set_presence_counted.
  - rewrite lookup_insert_ne by exact Hne. eauto.
Qed.

Lemma advance_counted c db sid s :
  attendance_sessions db !! sid = Some s ->
  counted s ->
  exists s', attendance_sessions (snd (advance c db)) !! sid = Some s'
             /\ counted s'.
Proof.
  intros Hs Hc. destruct c as [env a|env a ref|env a name present'|r].
  - cbn [advance]. unfold addDoc_attendance; cbn [fst].
    destruct (Js.truthy (sessionId a)); [|eauto].
    destruct (Paths.doc (sessionId a)); eauto.
  - cbn [advance]. destruct ref as [name|path|e]; eauto.
    destruct (attendance_sessions db !! name) as [t|]; eauto.
    destruct (negb _); eauto.
  - cbn [advance]. unfold updateDoc.
    destruct (attendance_sessions db !! name) as [t|] eqn:Ht; eauto.
    cbn [snd attendance_sessions]. eapply insert_counted; eassumption.
  - eauto.
Qed.

Lemma step_counted sys ev sid s :
  sid <> "" ->
  match ev with
  | Whole op => fresh_id (store sys) op
  | _ => True
  end ->
  attendance_sessions (store sys) !! sid = Some s ->
  counted s ->
  exists s', attendance_sessions (store (Awaits.step sys ev)) !! sid = Some s'
             /\ counted s'.
Proof.
  intros Hsid Hfresh Hs Hc. destruct ev as [env a|i|op].
  - eauto.
  - cbn [Awaits.step]. destruct (calls sys !! i) as [c|]; [|eauto].
    pose proof (advance_counted c (store sys) sid s Hs Hc) as H.
    destruct (advance c (store sys)) as [c' db']. exact H.
  - cbn [Awaits.step store].
    destruct op as [autoId now sd|env a|upload dateNow k|fid now|now k];
      try (cbn [whole];
           match goal with
           | |- context [Trace.step _ ?o] =>
               destruct (step_presence (store sys) o sid s Hsid Hfresh Hs)
                 as (s' & Hs' & Hp)
           end;
           exists s'; split; [exact Hs'|];
           cbn [presence_after] in Hp; injection Hp as Hp1 Hp2;
           destruct Hc as (l & Hl & Ht); exists l;
           rewrite Hp1, Hp2; auto).
    cbn [whole]. rewrite markAttendance_awaits_eq. cbn zeta.
    destruct (Js.truthy (sessionId a)); [|eauto].
    destruct (Paths.doc (sessionId a)) as [name|path|e]; eauto.
    destruct (attendance_sessions (store sys) !! name) as [t|] eqn:Ht; eauto.
    destruct (some_student (studentId a) (default [] (studentsPresent t)));
      eauto.
    cbn [snd attendance_sessions]. eapply insert_counted; eassumption.
Qed.

Lemma exec_counted events : forall sys sid s,
  sid <> "" ->
  fresh sys events ->
  attendance_sessions (store sys) !! sid = Some s ->
  counted s ->
  exists s', attendance_sessions (store (exec events sys)) !! sid = Some s'
             /\ counted s'.
Proof.
  induction events as [|ev events IH]; intros sys sid s Hsid Hf Hs Hc.
  - eauto.
  - destruct Hf as [H1 H2].
    destruct (step_counted sys ev sid s Hsid H1 Hs Hc) as (s1 & Hs1 & Hc1).
    exact (IH _ sid s1 Hsid H2 Hs1 Hc1).
Qed.

End AwaitsFacts.

Module RecordingClaims.

Import Awaits AwaitsFacts Service Trace ServiceFacts Recording.







(** C6, as stated, fails twice over.  Two students whose calls overlap --
    both read the session before either writes it back -- both get success
    and both have their record, but the session lists one of them and
    counts 1; and a new session, with no student recorded, has no
    [totalPresent] at all rather than 0. *)
Lemma overlapping_calls_lose_a_student :
  let sys := SampleOverlap.after in
  calls sys = [Done (Success tt); Done (Success tt)]
  /\ List.map (fun r => studentId (r_data r))
       (filter (fun r => sessionId (r_data r) = "S1") (attendance (store sys)))
     = ["stu1"; "stu2"]
  /\ (exists s,
        attendance_sessions (store sys) !! "S1" = Some s
        /\ List.map se_studentId (default [] (studentsPresent s)) = ["stu2"]
        /\ totalPresent s = Some 1%nat)
  /\ (exists s0,
        attendance_sessions Sample.db1 !! "S1" = Some s0
        /\ studentsPresent s0 = Some []
        /\ totalPresent s0 = None).
Proof.
  cbn zeta. split; [vm_compute; reflexivity|].
  split; [vm_compute; reflexivity|].
  split; eexists; (split; [vm_compute; reflexivity|]);
    split; vm_compute; reflexivity.
Qed.

(** C6, amended: after a session is created, however the calls that follow
    overlap, the session's [totalPresent], once there is one, is the length
    of its [studentsPresent]; before the first recording the list is empty
    and there is no [totalPresent].  When the calls are made one after the
    other, with session identifiers that are names of documents, and [N]
    distinct students have recorded for the session, then [studentsPresent]
    has exactly [N] entries, one per distinct student, and [totalPresent]
    is [N] when [N >= 1] and absent when [N = 0]. *)
Theorem present_count_is_distinct_students db autoId now sd events :
  autoId <> "" ->
  let sys1 := {| store := fst (createAttendanceSession autoId now sd db);
                 calls := [] |} in
  fresh sys1 events ->
  (exists s,
     attendance_sessions (store (exec events sys1)) !! autoId = Some s
     /\ counted s)
  /\ forall ops,
       events = serial ops ->
       Forall named ops ->
       let N := size (list_to_set (marked autoId ops) : gset string) in
       exists s l,
         attendance_sessions (store (exec events sys1)) !! autoId = Some s
         /\ studentsPresent s = Some l
         /\ totalPresent s = match N with O => None | S _ => Some N end
         /\ length l = N
         /\ NoDup (List.map se_studentId l)
         /\ (forall x, x ∈ List.map se_studentId l <-> x ∈ marked autoId ops).
Proof.
  intros Hsid sys1 Hfresh.
  assert (attendance_sessions (store sys1) !! autoId
          = Some (new_session sd now)) as Hs1.
  { subst sys1. cbn [store].
    unfold createAttendanceSession, try_catch, addDoc_session; simpl.
    apply lookup_insert_eq. }
  split.
  - apply (exec_counted events sys1 autoId (new_session sd now) Hsid Hfresh
             Hs1).
    exists []. split; [reflexivity|]. right. split; reflexivity.
  - intros ops -> Hnamed N.
    rewrite (exec_serial ops sys1 Hnamed). cbn [store].
    pose proof (fresh_serial ops sys1 Hnamed Hfresh) as Hfr.
    assert (tallied autoId [] (store sys1)) as H0.
    { exists (new_session sd now), []. repeat split; auto.
      - apply NoDup_nil_2.
      - intros []. reflexivity. }
    destruct (run_tallied autoId ops [] (store sys1) Hsid Hfr H0)
      as (s & l & Hs & Hl & Hnd & Hmem & Htot & Hnone).
    simpl in Hmem, Htot, Hnone.
    assert (length l = N) as Hlen.
    { subst N. rewrite <- (length_map se_studentId l).
      rewrite <- (size_list_to_set (C:=gset string) _ Hnd).
      f_equal. apply set_eq. intros x.
      rewrite !elem_of_list_to_set. apply Hmem. }
    exists s, l. repeat split; auto; try apply Hmem.
    destruct (marked autoId ops) as [|x rest] eqn:Hm.
    + rewrite (Hnone eq_refl). subst N. reflexivity.
    + rewrite Htot by discriminate. rewrite Hlen.
      destruct N as [|n]; [|reflexivity].
      destruct l as [|y l']; [|discriminate].
      assert (x ∈ List.map se_studentId []) as Hx
        by (apply Hmem; left).
      inversion Hx.
Qed.

Lemma present_count_is_distinct_students_witness :
  let ops :=
    [MarkAttendance (Sample.env 1005000) (Sample.attendanceData "stu1" "S1");
     MarkAttendance (Sample.env 1006000) (Sample.attendanceData "stu2" "S1");
     GetActiveSessions "fac1" 1007000;
     MarkAttendance (Sample.env 1008000) (Sample.attendanceData "stu1" "S1");
     CreateAttendanceSession "S2" 1009000 Sample.sd;
     MarkAttendance (Sample.env 1010000) (Sample.attendanceData "stu3" "S2")]
  in
  exists s l,
    attendance_sessions
      (store (exec (serial ops) {| store := Sample.db1; calls := [] |}))
      !! "S1" = Some s
    /\ studentsPresent s = Some l
    /\ totalPresent s = Some 2%nat
    /\ length l = 2%nat.
Proof.
  intros ops.
  destruct (present_count_is_distinct_students empty_db "S1" 1000000
              Sample.sd (serial ops)) as [_ H].
  - discriminate.
  - vm_compute. repeat split; reflexivity.
  - destruct (H ops eq_refl) as (s & l & Hs & Hl & Htot & Hlen & _).
    + repeat (apply Forall_cons; split;
              [first [exact I|right; vm_compute; reflexivity]|]).
      apply Forall_nil_2.
    + exists s, l. repeat split; assumption.
Defined.

End RecordingClaims.

(** ** The rotation engine *)

Module Rotation.

Import OfflineQRGenerator.

Lemma effects_fields st :
  issued (effects st) = issued st
  /\ totalRotations (effects st) = totalRotations st
  /\ timeLeft (effects st) = timeLeft st
  /\ baseSessionData (effects st) = baseSessionData st
  /\ qrData (effects st) = qrData st.
Proof.
  unfold effects, rotation_effect, session_timer_effect.
  destruct (isActive st && (0 <? timeLeft st)%Z); simpl; [tauto|].
  destruct (timeLeft st =? 0)%Z; simpl; tauto.
Qed.

(** When the countdown is at 0 after the effects have run, the session is
    inactive and both timers are cleared. *)
Lemma effects_expired st :
  timeLeft st = 0 ->
  isActive (effects st) = false
  /\ timerRef (effects st) = false
  /\ rotationTimerRef (effects st) = false.
Proof.
  intros H. unfold effects, rotation_effect, session_timer_effect.
  rewrite H. rewrite andb_false_r. simpl. tauto.
Qed.

(** With both timers cleared no callback runs any more. *)
Lemma tick_idle st t :
  timerRef st = false -> rotationTimerRef st = false -> tick st t = st.
Proof.
  intros H1 H2. destruct t; simpl.
  - unfold session_timeout. rewrite H1. reflexivity.
  - unfold rotation_interval. rewrite H2. reflexivity.
Qed.

Lemma run_idle ticks st :
  timerRef st = false -> rotationTimerRef st = false -> run ticks st = st.
Proof.
  intros H1 H2. induction ticks as [|t ticks IH]; simpl; [reflexivity|].
  rewrite tick_idle by assumption. exact IH.
Qed.

(** What one timer callback does to the log of issued payloads. *)
Lemma tick_issues st t :
  issued (tick st t) = issued st /\ totalRotations (tick st t) = totalRotations st
  \/ exists baseData e,
       baseSessionData st = Some baseData
       /\ issued (tick st t)
          = (issued st
             ++ [generateQRWithEntropy baseData (S (totalRotations st)) e])%list
       /\ totalRotations (tick st t) = S (totalRotations st).
Proof.
  destruct t as [|e]; simpl.
  - left. unfold session_timeout. destruct (timerRef st); [|tauto].
    destruct (effects_fields (countdown st)) as (H1 & H2 & _).
    rewrite H1, H2. simpl. tauto.
  - unfold rotation_interval. destruct (rotationTimerRef st); [|tauto].
    destruct (baseSessionData st) as [baseData|] eqn:Hb; [|tauto].
    destruct (qrRotationTimer st <=? 1)%Z; simpl; [|tauto].
    right. exists baseData, e. tauto.
Qed.

Lemma tick_base st t : baseSessionData (tick st t) = baseSessionData st.
Proof.
  destruct t as [|e]; simpl.
  - unfold session_timeout. destruct (timerRef st); [|reflexivity].
    destruct (effects_fields (countdown st)) as (_ & _ & _ & H4 & _).
    exact H4.
  - unfold rotation_interval. destruct (rotationTimerRef st); [|reflexivity].
    destruct (baseSessionData st) eqn:E; [|exact E].
    destruct (qrRotationTimer st <=? 1)%Z; reflexivity.
Qed.

Lemma tick_inv baseData st t :
  session_inv baseData st -> session_inv baseData (tick st t).
Proof.
  intros [Hb Hi Hp Hx].
  pose proof (tick_base st t) as Hb'.
  constructor.
  - rewrite Hb'. exact Hb.
  - destruct (tick_issues st t) as [[H1 H2]|(b & e & Hbb & H1 & H2)].
    + rewrite H1, H2. exact Hi.
    + rewrite H1, H2. unfold indices in *. rewrite map_app, Hi.
      rewrite (seq_S (S (totalRotations st)) 0), map_app. reflexivity.
  - destruct (tick_issues st t) as [[H1 H2]|(b & e & Hbb & H1 & H2)].
    + rewrite H1. exact Hp.
    + rewrite H1. apply Forall_app. split; [exact Hp|].
      constructor; [|constructor].
      assert (b = baseData) as -> by congruence. eauto.
  - destruct t as [|e]; simpl.
    + unfold session_timeout. destruct (timerRef st) eqn:Ht.
      * intros H0. apply effects_expired.
        destruct (effects_fields (countdown st)) as (_ & _ & H3 & _).
        rewrite H3 in H0. exact H0.
      * intros H0. destruct (Hx H0) as (A & B & C).
        repeat split; congruence.
    + unfold rotation_interval.
      destruct (rotationTimerRef st) eqn:Hr;
        [destruct (baseSessionData st);
         [destruct (qrRotationTimer st <=? 1)%Z; simpl|]|];
        intros H0; destruct (Hx H0) as (A & B & C);
        repeat split; congruence.
Qed.

Lemma run_inv baseData ticks : forall st,
  session_inv baseData st -> session_inv baseData (run ticks st).
Proof.
  induction ticks as [|t ticks IH]; intros st H; simpl; [exact H|].
  apply IH, tick_inv, H.
Qed.

Lemma missingFields_nil f :
  QRGenerator.missingFields f = [] ->
  exists periods, QRGenerator.f_periods f = Some periods.
Proof.
  unfold QRGenerator.missingFields.
  destruct (QRGenerator.f_periods f) as [p|]; [eauto|].
  intros H. apply app_eq_nil in H as [_ H].
  apply app_eq_nil in H as [_ H]. apply app_eq_nil in H as [_ H].
  discriminate.
Qed.

(** A successful [generateQRCode] starts a session. *)
Lemma generateQRCode_inv env u profile f st0 :
  QRGenerator.missingFields f = [] ->
  Js.truthy (QRGenerator.uid u) = true ->
  exists periods,
    QRGenerator.f_periods f = Some periods
    /\ session_inv (new_baseSessionData env u profile f periods)
         (generateQRCode env (Some u) profile f st0).
Proof.
  intros Hf Hu. destruct (missingFields_nil f Hf) as (periods & Hp).
  exists periods. split; [exact Hp|].
  unfold generateQRCode. rewrite Hf, Hp, Hu. simpl negb. cbv iota.
  match goal with |- session_inv _ (effects ?s) =>
    destruct (effects_fields s) as (H1 & H2 & H3 & H4 & _) end.
  constructor.
  - rewrite H4. reflexivity.
  - rewrite H1, H2. reflexivity.
  - rewrite H1. simpl. constructor; [eauto|constructor].
  - rewrite H3. simpl. discriminate.
Qed.

(** Every payload of a session carries the creation and expiry instants
    that [generateQRCode] fixed. *)
Lemma issued_instants env u profile f st0 ticks q :
  QRGenerator.missingFields f = [] ->
  Js.truthy (QRGenerator.uid u) = true ->
  q ∈ issued (run ticks (generateQRCode env (Some u) profile f st0)) ->
  Qr.generatedAt q = Some (s_timestamp env)
  /\ Qr.expiresAt q = Some (s_dateNow env + 30000).
Proof.
  intros Hf Hu Hq.
  destruct (generateQRCode_inv env u profile f st0 Hf Hu)
    as (periods & _ & Hstart).
  pose proof (run_inv _ ticks _ Hstart) as [_ _ Hp _].
  rewrite Forall_forall in Hp. destruct (Hp q Hq) as (i & e & ->).
  split; reflexivity.
Qed.

End Rotation.

(** ** The pace of the rotating generator *)

Module CadenceFacts.

Import OfflineQRGenerator Rotation Cadence.

Lemma succ_div5 n :
  (if Nat.eqb (n mod 5) 4
   then S n / 5 = S (n / 5) /\ S n mod 5 = 0
   else S n / 5 = n / 5 /\ S n mod 5 = S (n mod 5))%nat.
Proof.
  pose proof (Nat.div_mod_eq n 5) as H.
  pose proof (Nat.mod_upper_bound n 5 ltac:(lia)) as Hb.
  assert (forall q r, r < 5 -> S n = 5 * q + r ->
                      S n / 5 = q /\ S n mod 5 = r)%nat as U.
  { intros q r Hr E. symmetry in E. rewrite Nat.mul_comm in E.
    split; symmetry;
      [apply (Nat.div_unique (S n) 5 q r)|apply (Nat.mod_unique (S n) 5 q r)];
      lia. }
  destruct (Nat.eqb_spec (n mod 5) 4); apply U; lia.
Qed.

Lemma live_timeout left n st :
  live (S left) n st -> live left n (tick st SessionTimeout).
Proof.
  intros [H1 H2 H3 H4 [b H5] H6 H7]. simpl. unfold session_timeout.
  rewrite H3. replace (0 <? Z.of_nat (S left))%Z with true in *
    by (symmetry; apply Z.ltb_lt; lia).
  unfold effects, rotation_effect, session_timer_effect, countdown; simpl.
  rewrite H1, H2. replace (Z.of_nat (S left) - 1) with (Z.of_nat left) by lia.
  destruct (0 <? Z.of_nat left)%Z eqn:E; simpl.
  - constructor; simpl; rewrite ?H5, ?E; eauto.
  - apply Z.ltb_ge in E. assert (left = 0%nat) as -> by lia. simpl.
    constructor; simpl; rewrite ?H5; eauto.
Qed.

Lemma live_interval left n st e :
  live (S left) n st -> live (S left) (S n) (tick st (RotationInterval e)).
Proof.
  intros [H1 H2 H3 H4 [b H5] H6 H7]. cbn [tick]. unfold rotation_interval.
  replace (0 <? Z.of_nat (S left))%Z with true in *
    by (symmetry; apply Z.ltb_lt; lia).
  rewrite H4, H5, H7.
  pose proof (succ_div5 n) as Hs.
  pose proof (Nat.mod_upper_bound n 5 ltac:(lia)) as Hb.
  destruct (Nat.eqb_spec (n mod 5) 4) as [E|E]; destruct Hs as [Hd Hm].
  - assert ((5 - Z.of_nat (n mod 5) <=? 1)%Z = true) as ->
      by (apply Z.leb_le; lia).
    constructor;
      cbn [timeLeft isActive timerRef rotationTimerRef baseSessionData
           totalRotations qrRotationTimer];
      rewrite ?Hd, ?Hm; eauto.
  - assert ((5 - Z.of_nat (n mod 5) <=? 1)%Z = false) as ->
      by (apply Z.leb_gt; lia).
    constructor;
      cbn [timeLeft isActive timerRef rotationTimerRef baseSessionData
           totalRotations qrRotationTimer];
      rewrite ?Hd, ?Hm; eauto; lia.
Qed.

Lemma intervals_nil left : intervals left [] = 0%nat.
Proof. destruct left; reflexivity. Qed.

Lemma live_run ticks : forall left n st,
  live left n st ->
  live (left - timeouts ticks) (n + intervals left ticks) (run ticks st).
Proof.
  induction ticks as [|t ticks IH]; intros left n st H.
  - rewrite intervals_nil, Nat.add_0_r.
    change (timeouts []) with 0%nat. rewrite Nat.sub_0_r. exact H.
  - destruct left as [|left].
    + (* expired: nothing runs any more *)
      assert (run (t :: ticks) st = st) as ->.
      { apply run_idle; [apply (live_timerRef _ _ _ H)
                        |apply (live_rotationTimerRef _ _ _ H)]. }
      change (intervals 0 (t :: ticks)) with 0%nat.
      rewrite Nat.add_0_r. exact H.
    + destruct t as [|e].
      * apply live_timeout in H. apply IH in H. exact H.
      * apply (live_interval _ _ _ e) in H. apply IH in H.
        change (intervals (S left) (RotationInterval e :: ticks))
          with (S (intervals (S left) ticks)).
        change (timeouts (RotationInterval e :: ticks))
          with (timeouts ticks).
        rewrite Nat.add_succ_r. exact H.
Qed.

Lemma generateQRCode_live env u profile f st0 :
  QRGenerator.missingFields f = [] ->
  Js.truthy (QRGenerator.uid u) = true ->
  live 30 0 (generateQRCode env (Some u) profile f st0).
Proof.
  intros Hf Hu. destruct (missingFields_nil f Hf) as (periods & Hp).
  unfold generateQRCode. rewrite Hf, Hp, Hu. simpl negb. cbv iota.
  constructor; try reflexivity. simpl. eauto.
Qed.

End CadenceFacts.

Module RotationClaims.

Import OfflineQRGenerator Rotation Cadence CadenceFacts.




End RotationClaims.

Module RotationExamples.

Import OfflineQRGenerator SampleSession.

Example started_rotation_0 :
  indices (issued started) = [Some 0%nat]
  /\ isActive started = true /\ timeLeft started = 30
  /\ timerRef started = true /\ rotationTimerRef started = true.
Proof. vm_compute. repeat split; reflexivity. Qed.

(** Four seconds in, rotation 0 is still the current payload; six seconds
    in, the engine is at rotation 1. *)
Example rotation_after_4_and_6_seconds :
  totalRotations (after 4) = 0%nat
  /\ (qrData (after 4)) ≫= Qr.rotationIndex = Some 0%nat
  /\ totalRotations (after 6) = 1%nat
  /\ (qrData (after 6)) ≫= Qr.rotationIndex = Some 1%nat
  /\ indices (issued (after 6)) = [Some 0%nat; Some 1%nat].
Proof. vm_compute. repeat split; reflexivity. Qed.

(** Thirty seconds in, the countdown is at 0 and everything has stopped;
    when the rotation callback of the last second runs before the countdown
    callback, a payload of rotation 6 is still issued. *)
Example expiry_after_30_seconds :
  timeLeft (after 30) = 0
  /\ isActive (after 30) = false
  /\ rotationTimerRef (after 30) = false
  /\ indices (issued (after 30))
     = List.map Some [0; 1; 2; 3; 4; 5]%nat
  /\ indices (issued (run (second' 30) (after 29)))
     = List.map Some [0; 1; 2; 3; 4; 5; 6]%nat
  /\ run (seconds 10) (after 30) = after 30.
Proof. vm_compute. repeat split; reflexivity. Qed.

End RotationExamples.

(** ** The life cycle of a stored session *)

Module LifecycleClaims.

Import Service Trace ServiceFacts.

(** C8, as stated, fails: the document [createAttendanceSession] writes has
    [totalStudents = 0] but no [totalPresent] at all, so the stored present
    count of a new session is not zero. *)
Lemma new_session_has_no_present_count :
  exists s,
    attendance_sessions
      (fst (createAttendanceSession "S1" 1000000 Sample.sd empty_db)) !! "S1"
    = Some s
    /\ totalPresent s = None
    /\ totalPresent s <> Some 0%nat
    /\ totalStudents s = Some 0.
Proof.
  exists (new_session Sample.sd 1000000).
  split; [reflexivity|]. split; [reflexivity|]. split; [discriminate|].
  reflexivity.
Qed.

(** C8, amended: every session is stored by [createAttendanceSession] with
    [isActive = true], an empty [studentsPresent] and [totalStudents = 0]
    (no [totalPresent] is written); its expiry is the [expiresAt] its caller
    computed -- for [generateQRCode], its clock reading plus 30000 ms -- or,
    lacking that, [createdAt] plus 30000 ms; no later call of the service
    changes [createdAt] or the expiry, and every payload of a rotating
    session carries the expiry fixed when the session started. *)
Theorem session_created_active db autoId now sd ops :
  let created := createAttendanceSession autoId now sd db in
  fresh_ids (fst created) ops ->
  snd created = Success autoId
  /\ (exists s,
        attendance_sessions (fst created) !! autoId = Some s
        /\ isActive s = Some true
        /\ studentsPresent s = Some []
        /\ totalStudents s = Some 0
        /\ totalPresent s = None
        /\ createdAt s = now
        /\ expiry s = default (now + 30000) (sd_expiresAt sd))
  /\ (forall env u profile f periods,
        sd = QRGenerator.sessionData env u profile f periods ->
        default (now + 30000) (sd_expiresAt sd)
        = QRGenerator.g_dateNow env + 30000)
  /\ (exists s',
        attendance_sessions (run ops (fst created)) !! autoId = Some s'
        /\ createdAt s' = now
        /\ expiry s' = default (now + 30000) (sd_expiresAt sd))
  /\ (forall env u profile f st0 ticks q,
        QRGenerator.missingFields f = [] ->
        Js.truthy (QRGenerator.uid u) = true ->
        q ∈ OfflineQRGenerator.issued
              (OfflineQRGenerator.run ticks
                 (OfflineQRGenerator.generateQRCode env (Some u) profile f
                    st0)) ->
        Qr.expiresAt q = Some (OfflineQRGenerator.s_dateNow env + 30000)).
Proof.
  intros created Hfresh.
  assert (attendance_sessions (fst created) !! autoId
          = Some (new_session sd now)) as Hs.
  { subst created.
    unfold createAttendanceSession, try_catch, addDoc_session; simpl.
    apply lookup_insert_eq. }
  assert (expiry (new_session sd now) = default (now + 30000) (sd_expiresAt sd))
    as Hexp.
  { unfold expiry; simpl. destruct (sd_expiresAt sd); reflexivity. }
  split; [reflexivity|].
  split; [exists (new_session sd now); repeat split; auto|].
  split; [intros env u profile f periods ->; reflexivity|].
  split.
  - destruct (run_evolves ops _ _ _ Hfresh Hs) as (s' & Hs' & E).
    exists s'. split; [exact Hs'|]. split.
    + destruct E as (_ & Hc & _). exact Hc.
    + rewrite (evolves_expiry _ _ E). exact Hexp.
  - intros env u profile f st0 ticks q Hf Hu Hq.
    eapply Rotation.issued_instants; eassumption.
Qed.

Lemma session_created_active_witness :
  let ops :=
    [MarkAttendance (Sample.env 1005000) (Sample.attendanceData "stu1" "S1");
     SaveQRCodeToStorage (Some "https://qr/S1") 1006000 "S1";
     GetActiveSessions "fac1" 1040000;
     DeactivateSession 1050000 "S1"] in
  exists s',
    attendance_sessions (run ops Sample.db1) !! "S1" = Some s'
    /\ createdAt s' = 1000000
    /\ expiry s' = 1030000.
Proof.
  intros ops.
  destruct (session_created_active empty_db "S1" 1000000 Sample.sd ops)
    as (_ & _ & _ & Hlater & _).
  - vm_compute. repeat split; reflexivity.
  - exact Hlater.
Defined.

(** C9: once a session is not active -- its [isActive] is not [true], or
    the time has reached its expiry -- no call of the service makes it
    active again at any later time; in particular a stored
    [isActive = false] stays [false]. *)
Theorem isActive_never_reactivated db ops sid s now now' :
  fresh_ids db ops ->
  attendance_sessions db !! sid = Some s ->
  active now s = false ->
  now <= now' ->
  exists s',
    attendance_sessions (run ops db) !! sid = Some s'
    /\ active now' s' = false
    /\ (isActive s = Some false -> isActive s' = Some false).
Proof.
  intros Hfresh Hs Hinactive Hle.
  destruct (run_evolves ops db sid s Hfresh Hs) as (s' & Hs' & E).
  exists s'. split; [exact Hs'|].
  pose proof (evolves_expiry _ _ E) as Hexp.
  destruct E as (_ & _ & Hnot & Hfalse).
  split; [|exact Hfalse].
  unfold active in *. rewrite Hexp.
  destruct (isActive s') as [[|]|] eqn:E'; try reflexivity.
  destruct (isActive s) as [[|]|] eqn:E0.
  - apply bool_decide_eq_false in Hinactive.
    apply bool_decide_eq_false. lia.
  - exfalso. apply Hnot; [discriminate|reflexivity].
  - exfalso. apply Hnot; [discriminate|reflexivity].
Qed.

Lemma isActive_never_reactivated_witness :
  let db := fst (deactivateSession 1010000 "S1" Sample.db1) in
  let ops :=
    [CreateAttendanceSession "S2" 1011000 Sample.sd;
     MarkAttendance (Sample.env 1012000) (Sample.attendanceData "stu1" "S1");
     SaveQRCodeToStorage (Some "https://qr/S1") 1013000 "S1";
     GetActiveSessions "fac1" 1014000] in
  exists s',
    attendance_sessions (run ops db) !! "S1" = Some s'
    /\ active 1015000 s' = false
    /\ isActive s' = Some false.
Proof.
  intros db ops.
  destruct (isActive_never_reactivated db ops "S1"
              (set_deactivated 1010000 (new_session Sample.sd 1000000))
              1010000 1015000) as (s' & Hs' & Hact & Hflag).
  - vm_compute. repeat split; reflexivity.
  - reflexivity.
  - reflexivity.
  - lia.
  - exists s'. repeat split; [exact Hs'|exact Hact|].
    apply Hflag. reflexivity.
Defined.

End LifecycleClaims.

(** ** Scanning *)

Module Scanning.

Import QRScanner.

Lemma onScanSuccess_well_formed now q st :
  well_formed q ->
  onScanSuccess now (Qr.Parsed q) st
  = if too_old now q then setError expired_message st else confirm q st.
Proof.
  intros (H1 & H2 & H3). unfold onScanSuccess. rewrite H1, H2, H3.
  reflexivity.
Qed.

Lemma onScanSuccess_young now q st ts :
  well_formed q ->
  Qr.timestamp q = Some (Qr.Instant ts) ->
  now - ts < 30000 ->
  onScanSuccess now (Qr.Parsed q) st = confirm q st.
Proof.
  intros Hwf Hts Hage. rewrite onScanSuccess_well_formed by exact Hwf.
  unfold too_old. rewrite Hts.
  destruct (30000 <? now - ts)%Z eqn:E; [|reflexivity].
  apply Z.ltb_lt in E. lia.
Qed.

Lemma onScanSuccess_old now q st ts :
  well_formed q ->
  Qr.timestamp q = Some (Qr.Instant ts) ->
  30000 < now - ts ->
  onScanSuccess now (Qr.Parsed q) st = setError expired_message st.
Proof.
  intros Hwf Hts Hage. rewrite onScanSuccess_well_formed by exact Hwf.
  unfold too_old. rewrite Hts.
  destruct (30000 <? now - ts)%Z eqn:E; [reflexivity|].
  apply Z.ltb_ge in E. lia.
Qed.

(** A timestamp that is present but is not a date never expires. *)
Lemma onScanSuccess_invalid_date now q st :
  well_formed q ->
  Qr.timestamp q = Some Qr.InvalidDate ->
  onScanSuccess now (Qr.Parsed q) st = confirm q st.
Proof.
  intros Hwf Hts. rewrite onScanSuccess_well_formed by exact Hwf.
  unfold too_old. rewrite Hts. reflexivity.
Qed.

(** The verdict is a function of the presence of [sessionId], of
    [facultyId] and of [timestamp]. *)
Lemma verdict_depends q q' now :
  Js.truthy_opt (Qr.sessionId q') = Js.truthy_opt (Qr.sessionId q) ->
  Js.truthy_opt (Qr.facultyId q') = Js.truthy_opt (Qr.facultyId q) ->
  Qr.timestamp q' = Qr.timestamp q ->
  verdict now (Qr.Parsed q') = verdict now (Qr.Parsed q).
Proof.
  intros H1 H2 H3. unfold verdict, onScanSuccess, has_timestamp, too_old.
  rewrite H1, H2, H3.
  destruct (negb (Js.truthy_opt (Qr.sessionId q))
            || negb (Js.truthy_opt (Qr.facultyId q))
            || negb match Qr.timestamp q with
                    | Some _ => true
                    | None => false
                    end); [reflexivity|].
  destruct (Qr.timestamp q) as [[ts|]|]; try reflexivity.
  destruct (30000 <? now - ts)%Z; reflexivity.
Qed.

(** Every payload of the rotating generator has what the scanner requires,
    when the session identifier and the faculty identifier are not empty. *)
Lemma generated_well_formed baseData i e :
  Js.truthy (OfflineQRGenerator.sessionId baseData) = true ->
  Js.truthy (OfflineQRGenerator.facultyId baseData) = true ->
  well_formed (OfflineQRGenerator.generateQRWithEntropy baseData i e).
Proof. intros H1 H2. repeat split; assumption. Qed.

(** *** The checksum of the rotating generator

    Twelve base64 characters encode nine bytes, and a session identifier is
    longer than that: the checksum does not depend on the rotation index or
    on the nonce. *)
Lemma substring_0_0 s : String.substring 0 0 s = "".
Proof. destruct s; reflexivity. Qed.

Lemma append_String c s t : String c s ++ t = String c (s ++ t).
Proof. reflexivity. Qed.

Lemma checksum_of_session_only sid i i' ms ms' salt salt' :
  (9 <= String.length sid)%nat ->
  OfflineQRGenerator.checksum_of sid i ms salt
  = OfflineQRGenerator.checksum_of sid i' ms' salt'.
Proof.
  intros Hlen.
  do 9 (destruct sid as [|? sid]; [simpl in Hlen; lia|]).
  unfold OfflineQRGenerator.checksum_of, Js.substr0, Js.btoa.
  rewrite !append_String.
  cbn [list_ascii_of_string List.map Js.btoa_codes
       string_of_list_ascii String.substring].
  rewrite !substring_0_0. reflexivity.
Qed.

End Scanning.

Module ScanningClaims.

Import QRScanner Scanning.

(** C2, as stated, fails: the payload of the session's last rotation,
    issued 25 s after the session was created at [t0], is accepted by a scan
    at [t0] + 31 s, after the session's expiry at [t0] + 30 s. *)
Lemma final_rotation_scans_after_expiry :
  exists q,
    OfflineQRGenerator.qrData (SampleSession.after 25) = Some q
    /\ Qr.rotationIndex q = Some 5%nat
    /\ Qr.generatedAt q = Some SampleSession.t0
    /\ Qr.expiresAt q = Some (SampleSession.t0 + 30000)
    /\ Qr.timestamp q = Some (Qr.Instant (SampleSession.t0 + 25000))
    /\ onScanSuccess (SampleSession.t0 + 31000) (Qr.Parsed q) scanning_state
       = confirm q scanning_state
    /\ verdict (SampleSession.t0 + 31000) (Qr.Parsed q) = Accepted.
Proof.
  eexists. split; [vm_compute; reflexivity|].
  vm_compute. repeat split; reflexivity.
Qed.

(** C2, amended: a payload that has its session identifier, faculty
    identifier and timestamp is rejected as expired when the current time is
    more than 30 s past the timestamp of the payload itself, and is accepted
    when it is at most 30 s past it, or when its timestamp is no date; a
    payload that lacks one of the three is rejected as invalid, whatever its
    age.  The session's creation time and expiry are not consulted. *)
Theorem scan_expiry_is_payload_age now q st :
  (well_formed q ->
   forall ts,
     Qr.timestamp q = Some (Qr.Instant ts) ->
     (30000 < now - ts ->
      onScanSuccess now (Qr.Parsed q) st = setError expired_message st)
     /\ (now - ts <= 30000 ->
         onScanSuccess now (Qr.Parsed q) st = confirm q st))
  /\ (well_formed q ->
      Qr.timestamp q = Some Qr.InvalidDate ->
      onScanSuccess now (Qr.Parsed q) st = confirm q st)
  /\ (~ well_formed q ->
      onScanSuccess now (Qr.Parsed q) st = setError invalid_message st).
Proof.
  split; [|split].
  - intros Hwf ts Hts. split; intros Hage.
    + eapply onScanSuccess_old; eassumption.
    + rewrite onScanSuccess_well_formed by exact Hwf.
      unfold too_old. rewrite Hts.
      destruct (30000 <? now - ts)%Z eqn:E; [|reflexivity].
      apply Z.ltb_lt in E. lia.
  - intros Hwf Hts. rewrite onScanSuccess_well_formed by exact Hwf.
    unfold too_old. rewrite Hts. reflexivity.
  - intros Hnot. unfold onScanSuccess, well_formed in *.
    destruct (Js.truthy_opt (Qr.sessionId q)); [|reflexivity].
    destruct (Js.truthy_opt (Qr.facultyId q)); [|reflexivity].
    destruct (has_timestamp q); [|reflexivity].
    exfalso. apply Hnot. repeat split; reflexivity.
Qed.

Lemma scan_expiry_is_payload_age_witness :
  let q :=
    OfflineQRGenerator.generateQRWithEntropy
      (OfflineQRGenerator.new_baseSessionData SampleSession.start_env
         SampleSession.user SampleSession.profile SampleSession.form 2)
      5 (SampleSession.entropy_at (SampleSession.t0 + 25000)) in
  onScanSuccess (SampleSession.t0 + 56000) (Qr.Parsed q) scanning_state
  = setError expired_message scanning_state
  /\ onScanSuccess (SampleSession.t0 + 55000) (Qr.Parsed q) scanning_state
     = confirm q scanning_state
  /\ onScanSuccess (SampleSession.t0 + 56000)
       (Qr.Parsed (QRGenerator.qrDataObj SampleOnline.gen_env ""
                     SampleSession.user SampleSession.form 2))
       scanning_state
     = setError invalid_message scanning_state.
Proof.
  intros q. split; [|split].
  - destruct (scan_expiry_is_payload_age (SampleSession.t0 + 56000) q
                scanning_state) as [H _].
    apply (H ltac:(repeat split; reflexivity) (SampleSession.t0 + 25000));
      reflexivity.
  - destruct (scan_expiry_is_payload_age (SampleSession.t0 + 55000) q
                scanning_state) as [H _].
    apply (H ltac:(repeat split; reflexivity) (SampleSession.t0 + 25000));
      [reflexivity|vm_compute; discriminate].
  - destruct (scan_expiry_is_payload_age (SampleSession.t0 + 56000)
                (QRGenerator.qrDataObj SampleOnline.gen_env ""
                   SampleSession.user SampleSession.form 2)
                scanning_state) as (_ & _ & H).
    apply H. intros (H1 & _). vm_compute in H1. discriminate.
Defined.

(** C3, as stated, fails: six seconds into the session the engine is at
    rotation 1, and a scan of the rotation 0 payload is accepted. *)
Lemma superseded_payload_accepted :
  exists q0,
    head (OfflineQRGenerator.issued (SampleSession.after 6)) = Some q0
    /\ Qr.rotationIndex q0 = Some 0%nat
    /\ OfflineQRGenerator.totalRotations (SampleSession.after 6) = 1%nat
    /\ OfflineQRGenerator.isActive (SampleSession.after 6) = true
    /\ onScanSuccess (SampleSession.t0 + 6000) (Qr.Parsed q0) scanning_state
       = confirm q0 scanning_state
    /\ verdict (SampleSession.t0 + 6000) (Qr.Parsed q0) = Accepted.
Proof.
  eexists. split; [vm_compute; reflexivity|].
  vm_compute. repeat split; reflexivity.
Qed.

(** C3, amended: the scanner does not compare rotation indices: every
    payload the engine has issued for a session, one of a superseded
    rotation included, is accepted while it is less than 30 s old. *)
Theorem issued_payload_scans_while_young
    env u profile f st0 ticks q ts now st :
  QRGenerator.missingFields f = [] ->
  Js.truthy (QRGenerator.uid u) = true ->
  q ∈ OfflineQRGenerator.issued
        (OfflineQRGenerator.run ticks
           (OfflineQRGenerator.generateQRCode env (Some u) profile f st0)) ->
  Qr.timestamp q = Some (Qr.Instant ts) ->
  now - ts < 30000 ->
  onScanSuccess now (Qr.Parsed q) st = confirm q st.
Proof.
  intros Hf Hu Hq Hts Hage.
  destruct (Rotation.generateQRCode_inv env u profile f st0 Hf Hu)
    as (periods & _ & Hstart).
  pose proof (Rotation.run_inv _ ticks _ Hstart) as [_ _ Hp _].
  rewrite Forall_forall in Hp. destruct (Hp q Hq) as (i & e & ->).
  eapply onScanSuccess_young; [|exact Hts|exact Hage].
  apply generated_well_formed; [reflexivity|exact Hu].
Qed.

Lemma issued_payload_scans_while_young_witness :
  let q0 :=
    OfflineQRGenerator.generateQRWithEntropy
      (OfflineQRGenerator.new_baseSessionData SampleSession.start_env
         SampleSession.user SampleSession.profile SampleSession.form 2)
      0 (SampleSession.entropy_at SampleSession.t0) in
  onScanSuccess (SampleSession.t0 + 29000) (Qr.Parsed q0) scanning_state
  = confirm q0 scanning_state.
Proof.
  intros q0.
  apply (issued_payload_scans_while_young SampleSession.start_env
           SampleSession.user SampleSession.profile SampleSession.form
           OfflineQRGenerator.initial (SampleSession.seconds 29) q0
           SampleSession.t0 (SampleSession.t0 + 29000) scanning_state).
  - reflexivity.
  - reflexivity.
  - vm_compute. apply list_elem_of_here.
  - reflexivity.
  - reflexivity.
Defined.

(** C4, as stated, fails: with the nonce, the rotation index, the session
    identifier or the checksum of a valid payload changed, the scan is still
    accepted. *)
Lemma mutated_payload_accepted :
  exists q,
    OfflineQRGenerator.qrData SampleSession.started = Some q
    /\ verdict (SampleSession.t0 + 2000) (Qr.Parsed q) = Accepted
    /\ verdict (SampleSession.t0 + 2000)
         (Qr.Parsed (tamper (Qr.sessionId q) (Qr.rotationIndex q)
                       (Some "forged") (Qr.rotationSalt q) (Qr.checksum q) q))
       = Accepted
    /\ verdict (SampleSession.t0 + 2000)
         (Qr.Parsed (tamper (Qr.sessionId q) (Some 7%nat)
                       (Qr.randomSalt q) (Qr.rotationSalt q) (Qr.checksum q)
                       q))
       = Accepted
    /\ verdict (SampleSession.t0 + 2000)
         (Qr.Parsed (tamper (Some "session_of_somebody_else")
                       (Qr.rotationIndex q) (Qr.randomSalt q)
                       (Qr.rotationSalt q) (Qr.checksum q) q))
       = Accepted
    /\ verdict (SampleSession.t0 + 2000)
         (Qr.Parsed (tamper (Qr.sessionId q) (Qr.rotationIndex q)
                       (Qr.randomSalt q) (Qr.rotationSalt q)
                       (Some "AAAAAAAAAAAA") q))
       = Accepted.
Proof.
  eexists. split; [vm_compute; reflexivity|].
  vm_compute. repeat split; reflexivity.
Qed.

(** C4, amended: the scanner neither recomputes nor compares the checksum:
    replacing the checksum, the nonces or the rotation index of a payload by
    anything, and its session identifier by any other non-empty one, leaves
    the outcome of the scan -- accepted, expired or invalid -- as it was. *)
Theorem scan_ignores_integrity_fields now q sid index salt rsalt sum :
  Js.truthy_opt sid = Js.truthy_opt (Qr.sessionId q) ->
  verdict now (Qr.Parsed (tamper sid index salt rsalt sum q))
  = verdict now (Qr.Parsed q).
Proof. intros H. apply verdict_depends; [exact H|reflexivity|reflexivity]. Qed.

Lemma scan_ignores_integrity_fields_witness :
  let q :=
    OfflineQRGenerator.generateQRWithEntropy
      (OfflineQRGenerator.new_baseSessionData SampleSession.start_env
         SampleSession.user SampleSession.profile SampleSession.form 2)
      0 (SampleSession.entropy_at SampleSession.t0) in
  verdict (SampleSession.t0 + 2000)
    (Qr.Parsed (tamper (Some "session_of_somebody_else") (Some 7%nat)
                  (Some "forged") (Some "forged too") (Some "AAAAAAAAAAAA")
                  q))
  = verdict (SampleSession.t0 + 2000) (Qr.Parsed q).
Proof.
  intros q.
  apply (scan_ignores_integrity_fields (SampleSession.t0 + 2000) q
           (Some "session_of_somebody_else") (Some 7%nat) (Some "forged")
           (Some "forged too") (Some "AAAAAAAAAAAA")).
  reflexivity.
Defined.

End ScanningClaims.

Module StoreScanClaims.

Import Service QRScanner Scanning.

(** C5, as stated, fails: a payload naming a session that the store does
    not hold is accepted, and so is, 12 s into a session that its creator
    deactivated at 10 s, the payload of that session; the recording that
    follows is written into the deactivated session. *)
Lemma scan_accepted_without_active_session :
  exists q,
    QRGenerator.qrData (fst SampleOnline.generated) = Some q
    /\ Qr.sessionId q = Some "Xk29fJq0LmZ1"
    (* deactivated *)
    /\ snd SampleOnline.deactivated = Success tt
    /\ (attendance_sessions (fst SampleOnline.deactivated) !! "Xk29fJq0LmZ1")
         ≫= isActive = Some false
    /\ (attendance_sessions (snd SampleOnline.closed) !! "Xk29fJq0LmZ1")
         ≫= isActive = Some false
    /\ verdict (SampleOnline.t0 + 12000) (Qr.Parsed q) = Accepted
    /\ (attendance_sessions
          (fst (markAttendance (Sample.env (SampleOnline.t0 + 15000))
                  (Sample.attendanceData "stu1" "Xk29fJq0LmZ1")
                  (fst SampleOnline.deactivated))) !! "Xk29fJq0LmZ1")
         ≫= totalPresent = Some 1%nat
    (* unknown *)
    /\ attendance_sessions (fst SampleOnline.deactivated) !! "ghost" = None
    /\ verdict (SampleOnline.t0 + 12000)
         (Qr.Parsed (tamper (Some "ghost") None None None None q))
       = Accepted.
Proof.
  eexists. split; [vm_compute; reflexivity|].
  vm_compute. repeat split; reflexivity.
Qed.

(** C5, amended: the scanner does not load the session: a payload that has
    its session identifier, faculty identifier and timestamp and is less
    than 30 s old is accepted whether or not the store holds a session of
    that identifier and whether or not that session was deactivated.
    [deactivateSession] sets the stored [isActive] to [false] and records
    the instant; for a session that does not exist it fails and changes
    nothing. *)
Theorem scan_ignores_session_store db tnow sid q ts now st :
  Qr.sessionId q = Some sid ->
  well_formed q ->
  Qr.timestamp q = Some (Qr.Instant ts) ->
  now - ts < 30000 ->
  match attendance_sessions db !! sid with
  | Some s =>
      snd (deactivateSession tnow sid db) = Success tt
      /\ attendance_sessions (fst (deactivateSession tnow sid db)) !! sid
         = Some (set_deactivated tnow s)
      /\ isActive (set_deactivated tnow s) = Some false
  | None =>
      deactivateSession tnow sid db = (db, Failure NoDocumentToUpdate)
  end
  /\ onScanSuccess now (Qr.Parsed q) st = confirm q st.
Proof.
  intros Hsid Hwf Hts Hage.
  split; [|eapply onScanSuccess_young; eassumption].
  rewrite ServiceFacts.deactivateSession_eq.
  destruct (attendance_sessions db !! sid) as [s|] eqn:Hs; [|reflexivity].
  simpl. rewrite lookup_insert_eq. repeat split; reflexivity.
Qed.

Lemma scan_ignores_session_store_witness :
  let q :=
    QRGenerator.qrDataObj SampleOnline.gen_env "Xk29fJq0LmZ1"
      SampleSession.user SampleSession.form 2 in
  let db := snd SampleOnline.generated in
  let tnow := SampleOnline.t0 + 10000 in
  match attendance_sessions db !! "Xk29fJq0LmZ1" with
  | Some s =>
      snd (deactivateSession tnow "Xk29fJq0LmZ1" db) = Success tt
      /\ attendance_sessions
           (fst (deactivateSession tnow "Xk29fJq0LmZ1" db)) !! "Xk29fJq0LmZ1"
         = Some (set_deactivated tnow s)
      /\ isActive (set_deactivated tnow s) = Some false
  | None =>
      deactivateSession tnow "Xk29fJq0LmZ1" db
      = (db, Failure NoDocumentToUpdate)
  end
  /\ onScanSuccess (SampleOnline.t0 + 12000) (Qr.Parsed q) scanning_state
     = confirm q scanning_state.
Proof.
  intros q db tnow.
  apply (scan_ignores_session_store db tnow "Xk29fJq0LmZ1" q
           (SampleOnline.t0 + 350) (SampleOnline.t0 + 12000) scanning_state).
  - reflexivity.
  - repeat split; reflexivity.
  - reflexivity.
  - reflexivity.
Defined.

End StoreScanClaims.

(** * Further properties of the code *)

(** ** The service *)

Module ServiceExtras.

Import Service Trace ServiceFacts Recording.

Global Instance newer_first_total : Total newer_first.
Proof. intros x y. unfold newer_first. lia. Qed.

Global Instance newer_first_trans : Transitive newer_first.
Proof. intros x y z. unfold newer_first. lia. Qed.

Lemma StronglySorted_filter {A} (R : relation A) (P : A -> Prop)
    `{forall x, Decision (P x)} (l : list A) :
  StronglySorted R l -> StronglySorted R (filter P l).
Proof.
  induction 1 as [|x l Hl IH Hx]; [constructor|].
  rewrite filter_cons. destruct (decide (P x)); [|exact IH].
  constructor; [exact IH|].
  rewrite Forall_forall in *. intros y Hy.
  apply list_elem_of_filter in Hy as [_ Hy]. auto.
Qed.

Lemma getActiveSessions_result fid now db :
  exists l,
    snd (getActiveSessions fid now db) = Success l
    /\ l = filter (fun x => bool_decide (now < expiry (snd x)))
             (merge_sort newer_first
                (filter (fun x => query_matches fid (snd x) = true)
                   (map_to_list (attendance_sessions db)))).
Proof. eexists. split; reflexivity. Qed.

Lemma query_matches_spec fid s :
  query_matches fid s = true
  <-> sd_facultyId (s_data s) = fid /\ isActive s = Some true.
Proof.
  unfold query_matches. rewrite andb_true_iff, String.eqb_eq.
  destruct (isActive s) as [[|]|]; split; intros [? ?];
    split; congruence.
Qed.

(** Who is in the list [getActiveSessions] returns. *)
Lemma getActiveSessions_members fid now db :
  exists l,
    snd (getActiveSessions fid now db) = Success l
    /\ forall id s,
         (id, s) ∈ l
         <-> attendance_sessions db !! id = Some s
             /\ sd_facultyId (s_data s) = fid
             /\ isActive s = Some true
             /\ now < expiry s.
Proof.
  destruct (getActiveSessions_result fid now db) as (l & Hr & Hl).
  exists l. split; [exact Hr|].
  intros id s. subst l. rewrite list_elem_of_filter.
  rewrite merge_sort_Permutation, list_elem_of_filter.
  rewrite bool_decide_spec, elem_of_map_to_list. simpl.
  rewrite query_matches_spec. tauto.
Qed.

(** X1: [getActiveSessions] returns exactly the stored sessions of the
    faculty whose [isActive] is [true] and whose expiry is still ahead, each
    of them once and as it was stored when the call began. *)
Theorem getActiveSessions_lists fid now db :
  exists l,
    snd (getActiveSessions fid now db) = Success l
    /\ NoDup (List.map fst l)
    /\ forall id s,
         (id, s) ∈ l
         <-> attendance_sessions db !! id = Some s
             /\ sd_facultyId (s_data s) = fid
             /\ isActive s = Some true
             /\ now < expiry s.
Proof.
  destruct (getActiveSessions_members fid now db) as (l & Hr & Hmem).
  exists l. split; [exact Hr|]. split; [|exact Hmem].
  destruct (getActiveSessions_result fid now db) as (k & Hk & Hdef).
  assert (k = l) as -> by congruence.
  apply NoDup_fmap_fst.
  - intros id s1 s2 H1 H2.
    apply Hmem in H1 as [H1 _]. apply Hmem in H2 as [H2 _]. congruence.
  - subst l. apply NoDup_filter. rewrite merge_sort_Permutation.
    apply NoDup_filter. apply NoDup_map_to_list.
Qed.

(** X2: the sessions [getActiveSessions] returns are in the order of their
    creation instants, newest first. *)
Theorem getActiveSessions_newest_first fid now db :
  exists l,
    snd (getActiveSessions fid now db) = Success l
    /\ StronglySorted
         (fun x y => createdAt (snd y) <= createdAt (snd x)) l.
Proof.
  destruct (getActiveSessions_result fid now db) as (l & Hr & Hl).
  exists l. split; [exact Hr|]. subst l.
  apply StronglySorted_filter.
  apply (Sorted_StronglySorted newer_first).
  apply Sorted_merge_sort. Unshelve. exact newer_first_total.
Qed.

(** What [getActiveSessions] does to one stored session. *)
Lemma getActiveSessions_lookup fid now db id :
  attendance_sessions (fst (getActiveSessions fid now db)) !! id
  = (fun s => if query_matches fid s && negb (bool_decide (now < expiry s))
              then set_inactive s else s)
      <$> attendance_sessions db !! id.
Proof. unfold getActiveSessions; simpl. apply lookup_fmap. Qed.

(** X3: after [getActiveSessions] no session of the faculty is stored as
    active with its expiry behind; a session of another faculty, an inactive
    one and one not yet expired are stored unchanged, and so are the
    attendance records; a second call at the same instant changes nothing
    more and returns the same sessions. *)
Theorem getActiveSessions_expires fid now db :
  let db' := fst (getActiveSessions fid now db) in
  attendance db' = attendance db
  /\ (forall id s',
        attendance_sessions db' !! id = Some s' ->
        sd_facultyId (s_data s') = fid ->
        isActive s' = Some true ->
        now < expiry s')
  /\ (forall id s,
        attendance_sessions db !! id = Some s ->
        sd_facultyId (s_data s) <> fid \/ isActive s <> Some true
        \/ now < expiry s ->
        attendance_sessions db' !! id = Some s)
  /\ fst (getActiveSessions fid now db') = db'
  /\ (forall l l' x,
        snd (getActiveSessions fid now db) = Success l ->
        snd (getActiveSessions fid now db') = Success l' ->
        x ∈ l <-> x ∈ l').
Proof.
  intros db'.
  assert (forall id s,
            attendance_sessions db !! id = Some s ->
            sd_facultyId (s_data s) <> fid \/ isActive s <> Some true
            \/ now < expiry s ->
            attendance_sessions db' !! id = Some s) as Hkeep.
  { intros id s Hs Hor. subst db'. rewrite getActiveSessions_lookup, Hs.
    simpl. f_equal.
    destruct (query_matches fid s) eqn:Hm; [|reflexivity].
    apply query_matches_spec in Hm as [Hf Ha].
    destruct Hor as [?|[?|Hlt]]; try contradiction.
    rewrite bool_decide_eq_true_2 by exact Hlt. reflexivity. }
  assert (forall id s',
            attendance_sessions db' !! id = Some s' ->
            sd_facultyId (s_data s') = fid ->
            isActive s' = Some true ->
            now < expiry s' /\ attendance_sessions db !! id = Some s')
    as Hfresh.
  { intros id s' Hs' Hf Ha. subst db'.
    rewrite getActiveSessions_lookup in Hs'.
    destruct (attendance_sessions db !! id) as [s|] eqn:Hs; [|discriminate].
    simpl in Hs'. injection Hs' as <-.
    destruct (query_matches fid s) eqn:Hm; simpl in *.
    - destruct (bool_decide (now < expiry s)) eqn:Hb; simpl in *.
      + apply bool_decide_eq_true in Hb. auto.
      + discriminate.
    - exfalso. apply not_true_iff_false in Hm. apply Hm.
      apply query_matches_spec. auto. }
  split; [reflexivity|].
  split; [intros id s' H1 H2 H3; apply (Hfresh id s' H1 H2 H3)|].
  split; [exact Hkeep|].
  split.
  - destruct db' as [att ses] eqn:Edb.
    unfold getActiveSessions at 1; simpl. f_equal.
    apply map_eq. intros id. rewrite lookup_fmap.
    destruct (ses !! id) as [s'|] eqn:Hs'; [|reflexivity].
    simpl. f_equal.
    destruct (query_matches fid s') eqn:Hm; [|reflexivity].
    apply query_matches_spec in Hm as [Hf Ha].
    destruct (Hfresh id s' Hs' Hf Ha) as [Hlt _].
    rewrite bool_decide_eq_true_2 by exact Hlt. reflexivity.
  - intros l l' [id s] Hl Hl'.
    destruct (getActiveSessions_members fid now db) as (k & Hk & Hmem).
    destruct (getActiveSessions_members fid now db') as (k' & Hk' & Hmem').
    assert (k = l) as -> by congruence.
    assert (k' = l') as -> by congruence.
    rewrite Hmem, Hmem'. split.
    + intros (Hs & Hf & Ha & Hlt). repeat split; auto.
    + intros (Hs & Hf & Ha & Hlt).
      destruct (Hfresh id s Hs Hf Ha) as [_ Hs0]. auto.
Qed.

(** X4: once [deactivateSession] has succeeded for a session, no later
    call of [getActiveSessions], for any faculty and at any instant, returns
    that session, whatever calls of the service came in between. *)
Theorem deactivated_never_listed db tnow sid ops fid now :
  snd (deactivateSession tnow sid db) = Success tt ->
  fresh_ids (fst (deactivateSession tnow sid db)) ops ->
  exists l,
    snd (getActiveSessions fid now
           (run ops (fst (deactivateSession tnow sid db)))) = Success l
    /\ sid ∉ List.map fst l.
Proof.
  intros Hok Hfresh. revert Hok Hfresh.
  rewrite deactivateSession_eq.
  destruct (attendance_sessions db !! sid) as [s|] eqn:Hs; [|discriminate].
  simpl. intros _ Hfresh.
  match type of Hfresh with fresh_ids ?d _ => set (db1 := d) in * end.
  assert (attendance_sessions db1 !! sid = Some (set_deactivated tnow s))
    as Hs1 by (subst db1; simpl; apply lookup_insert_eq).
  destruct (run_evolves ops db1 sid _ Hfresh Hs1) as (s' & Hs' & E).
  destruct E as (_ & _ & _ & Hfalse). specialize (Hfalse eq_refl).
  destruct (getActiveSessions_members fid now (run ops db1))
    as (l & Hl & Hmem).
  exists l. split; [exact Hl|].
  intros Hin. apply list_elem_of_fmap in Hin as ([id t] & Hid & Hin).
  simpl in Hid. subst id. apply Hmem in Hin as (Ht & _ & Ha & _).
  congruence.
Qed.

Lemma deactivated_never_listed_witness :
  exists l,
    snd (getActiveSessions "fac1" 1020000
           (run [MarkAttendance (Sample.env 1012000)
                   (Sample.attendanceData "stu1" "S1");
                 SaveQRCodeToStorage (Some "https://qr/S1") 1013000 "S1"]
              (fst (deactivateSession 1010000 "S1" Sample.db1))))
    = Success l
    /\ "S1" ∉ List.map fst l.
Proof.
  apply (deactivated_never_listed Sample.db1 1010000 "S1"
           [MarkAttendance (Sample.env 1012000)
              (Sample.attendanceData "stu1" "S1");
            SaveQRCodeToStorage (Some "https://qr/S1") 1013000 "S1"]
           "fac1" 1020000).
  - reflexivity.
  - vm_compute. repeat split; reflexivity.
Defined.

(** X5: [getSessionDetails] reads without writing.  For a session made by
    [createAttendanceSession] it succeeds after any later calls, with the
    session data and creation instant the session was made with.  For any
    identifier it answers as [doc] reads it: with the failure that [doc]
    throws when the identifier is no document path; with the document of
    the name that the path comes to, under that name, when the store holds
    it; and with "Session not found" when the identifier is the name of a
    document that the store does not hold. *)
Theorem getSessionDetails_round_trip db autoId now sd ops sid :
  Paths.plain autoId ->
  let db1 := fst (createAttendanceSession autoId now sd db) in
  fresh_ids db1 ops ->
  (exists s,
     Details.getSessionDetails autoId (run ops db1)
     = (run ops db1, Success (autoId, s))
     /\ s_data s = sd /\ createdAt s = now)
  /\ fst (Details.getSessionDetails sid db) = db
  /\ (Paths.plain sid ->
      attendance_sessions db !! sid = None ->
      snd (Details.getSessionDetails sid db)
      = Failure (ErrorMessage "Session not found"))
  /\ (forall e,
        Paths.doc sid = Paths.Invalid e ->
        snd (Details.getSessionDetails sid db) = Failure e)
  /\ (forall name s,
        Paths.doc sid = Paths.Document name ->
        attendance_sessions db !! name = Some s ->
        snd (Details.getSessionDetails sid db) = Success (name, s)).
Proof.
  intros Hplain db1 Hfresh.
  assert (forall k d, Details.getSessionDetails k d
            = match Paths.doc k with
              | Paths.Document name =>
                  match attendance_sessions d !! name with
                  | Some s => (d, Success (name, s))
                  | None => (d, Failure (ErrorMessage "Session not found"))
                  end
              | Paths.Nested _ =>
                  (d, Failure (ErrorMessage "Session not found"))
              | Paths.Invalid e => (d, Failure e)
              end) as Heq.
  { intros k d. unfold Details.getSessionDetails, try_catch.
    destruct (Paths.doc k) as [name|path|e]; try reflexivity.
    unfold bind, getDoc.
    destruct (attendance_sessions d !! name); reflexivity. }
  split; [|split; [|split; [|split]]].
  - assert (attendance_sessions db1 !! autoId = Some (new_session sd now))
      as Hs.
    { subst db1.
      unfold createAttendanceSession, try_catch, addDoc_session; simpl.
      apply lookup_insert_eq. }
    destruct (run_evolves ops db1 autoId _ Hfresh Hs) as (s & Hs' & E).
    exists s. rewrite Heq. unfold Paths.plain in Hplain.
    rewrite Hplain, Hs'. destruct E as (Hd & Hc & _).
    repeat split; assumption.
  - rewrite Heq. destruct (Paths.doc sid) as [name|path|e]; try reflexivity.
    destruct (attendance_sessions db !! name); reflexivity.
  - intros Hp Hnone. unfold Paths.plain in Hp.
    rewrite Heq, Hp, Hnone. reflexivity.
  - intros e He. rewrite Heq, He. reflexivity.
  - intros name s Hdoc Hs. rewrite Heq, Hdoc, Hs. reflexivity.
Qed.

Lemma getSessionDetails_round_trip_witness :
  exists s,
    Details.getSessionDetails "S1"
      (run [DeactivateSession 1010000 "S1"] Sample.db1)
    = (run [DeactivateSession 1010000 "S1"] Sample.db1, Success ("S1", s))
    /\ s_data s = Sample.sd /\ createdAt s = 1000000.
Proof.
  destruct (getSessionDetails_round_trip empty_db "S1" 1000000 Sample.sd
              [DeactivateSession 1010000 "S1"] "S1") as [H _].
  - vm_compute. reflexivity.
  - vm_compute. repeat split; reflexivity.
  - exact H.
Defined.

End ServiceExtras.

(** ** Recording, further *)

Module RecordingExtras.

Import Service Trace ServiceFacts Recording History.

Lemma step_attendance db op :
  attendance (step db op)
  = (attendance db ++ written [op])%list.
Proof.
  destruct op as [autoId now sd|env a|upload dateNow k|fid now|now k];
    simpl; rewrite ?app_nil_r.
  - reflexivity.
  - apply markAttendance_attendance.
  - rewrite saveQRCodeToStorage_eq. repeat case_match; reflexivity.
  - reflexivity.
  - rewrite deactivateSession_eq. case_match; reflexivity.
Qed.

Lemma written_cons op ops : written (op :: ops) = (written [op] ++ written ops)%list.
Proof. destruct op; reflexivity. Qed.

Lemma run_attendance ops : forall db,
  attendance (run ops db) = (attendance db ++ written ops)%list.
Proof.
  induction ops as [|op ops IH]; intros db; simpl run.
  - simpl. rewrite app_nil_r. reflexivity.
  - rewrite IH, step_attendance, (written_cons op ops), app_assoc.
    reflexivity.
Qed.







Lemma written_marked sid stu ops :
  (exists r, r ∈ written ops
             /\ sessionId (r_data r) = sid /\ studentId (r_data r) = stu)
  <-> stu ∈ marked sid ops.
Proof.
  induction ops as [|op ops IH]; simpl.
  - split; [intros (r & Hr & _); inversion Hr|intros H; inversion H].
  - destruct op as [autoId now sd|env a|upload dateNow k|fid now|now k];
      try exact IH.
    destruct (String.eqb (sessionId a) sid) eqn:E.
    + apply String.eqb_eq in E. rewrite elem_of_cons, <- IH. split.
      * intros (r & Hr & H1 & H2). apply elem_of_cons in Hr as [->|Hr].
        -- left. simpl in H2. congruence.
        -- right. eauto.
      * intros [->|(r & Hr & H1 & H2)].
        -- exists (new_record env a). split; [apply list_elem_of_here|].
           simpl. auto.
        -- exists r. split; [apply list_elem_of_further, Hr|auto].
    + apply String.eqb_neq in E. rewrite <- IH. split.
      * intros (r & Hr & H1 & H2). apply elem_of_cons in Hr as [->|Hr].
        -- simpl in H1. contradiction.
        -- eauto.
      * intros (r & Hr & H1 & H2).
        exists r. split; [apply list_elem_of_further, Hr|auto].
Qed.

(** X8: when the calls are made one after the other and the session
    identifiers given to [markAttendance] are names of documents, the two
    collections agree on who was present: if no record names the session
    before it is created, then after any calls a student is in the
    session's [studentsPresent] exactly when the [attendance] collection
    holds a record of that student for the session. *)
Theorem records_and_entries_agree db autoId now sd ops stu :
  autoId <> "" ->
  (forall r, r ∈ attendance db -> sessionId (r_data r) <> autoId) ->
  let sys1 :=
    {| Awaits.store := fst (createAttendanceSession autoId now sd db);
       Awaits.calls := [] |} in
  Forall Awaits.named ops ->
  fresh_ids (Awaits.store sys1) ops ->
  let db' := Awaits.store (Awaits.exec (Awaits.serial ops) sys1) in
  exists s l,
    attendance_sessions db' !! autoId = Some s
    /\ studentsPresent s = Some l
    /\ (stu ∈ List.map se_studentId l
        <-> records_of autoId stu db' <> []).
Proof.
  intros Hsid Hclean sys1 Hnamed Hfresh db'. subst db'.
  rewrite (AwaitsFacts.exec_serial ops sys1 Hnamed).
  cbn [Awaits.store]. set (db1 := Awaits.store sys1) in *.
  assert (tallied autoId [] db1) as H0.
  { exists (new_session sd now), []. subst db1 sys1. cbn [Awaits.store].
    unfold createAttendanceSession, try_catch, addDoc_session; simpl.
    rewrite lookup_insert_eq. repeat split; auto.
    - apply NoDup_nil_2.
    - intros []. reflexivity. }
  destruct (run_tallied autoId ops [] db1 Hsid Hfresh H0)
    as (s & l & Hs & Hl & _ & Hmem & _).
  exists s, l. split; [exact Hs|]. split; [exact Hl|].
  simpl in Hmem. rewrite Hmem, <- written_marked.
  unfold records_of. rewrite run_attendance.
  assert (attendance db1 = attendance db) as -> by reflexivity.
  split.
  - intros (r & Hr & H1 & H2) Hnil.
    assert (r ∈ filter (fun r => sessionId (r_data r) = autoId
                                 /\ studentId (r_data r) = stu)
                  (attendance db ++ written ops)%list) as Hin.
    { apply list_elem_of_filter. split; [auto|].
      apply elem_of_app. right. exact Hr. }
    rewrite Hnil in Hin. inversion Hin.
  - intros Hne.
    destruct (filter (fun r => sessionId (r_data r) = autoId
                               /\ studentId (r_data r) = stu)
                (attendance db ++ written ops)%list) as [|r k] eqn:E;
      [contradiction|].
    assert (r ∈ r :: k) as Hin by apply list_elem_of_here.
    rewrite <- E in Hin. apply list_elem_of_filter in Hin as [[H1 H2] Hin].
    apply elem_of_app in Hin as [Hin|Hin].
    + exfalso. apply (Hclean r Hin H1).
    + eauto.
Qed.

Lemma records_and_entries_agree_witness :
  let db' :=
    Awaits.store
      (Awaits.exec
         (Awaits.serial
            [MarkAttendance (Sample.env 1005000)
               (Sample.attendanceData "stu1" "S1");
             MarkAttendance (Sample.env 1006000)
               (Sample.attendanceData "stu1" "S1")])
         {| Awaits.store := Sample.db1; Awaits.calls := [] |}) in
  exists s l,
    attendance_sessions db' !! "S1" = Some s
    /\ studentsPresent s = Some l
    /\ ("stu1" ∈ List.map se_studentId l
        <-> records_of "S1" "stu1" db' <> []).
Proof.
  apply (records_and_entries_agree empty_db "S1" 1000000 Sample.sd
           [MarkAttendance (Sample.env 1005000)
              (Sample.attendanceData "stu1" "S1");
            MarkAttendance (Sample.env 1006000)
              (Sample.attendanceData "stu1" "S1")] "stu1").
  - discriminate.
  - intros r Hr. inversion Hr.
  - repeat (apply Forall_cons; split; [right; vm_compute; reflexivity|]).
    apply Forall_nil_2.
  - vm_compute. repeat split; reflexivity.
Defined.



End RecordingExtras.

(** ** Roles, devices and user documents *)

Module DeviceExtras.

Import Device.

Lemma validateEmailRole_roles email role :
  validateEmailRole email role = true ->
  role = "student" \/ role = "faculty".
Proof.
  unfold validateEmailRole.
  destruct (String.eqb role "student") eqn:E1;
    [apply String.eqb_eq in E1; auto|].
  destruct (String.eqb role "faculty") eqn:E2;
    [apply String.eqb_eq in E2; auto|discriminate].
Qed.

Lemma prefix_i_cons a literal b s :
  prefix_i (String a literal) (String b s)
  = Ascii.eqb (lower a) (lower b) && prefix_i literal s.
Proof. reflexivity. Qed.

Lemma validateEmailRole_student email :
  validateEmailRole email "student"
  = prefix_i "moc.ioiwp@" (String.rev email).
Proof. reflexivity. Qed.

Lemma validateEmailRole_faculty email :
  validateEmailRole email "faculty"
  = prefix_i "moc.liamg@" (String.rev email).
Proof. reflexivity. Qed.

(** X10: no address is valid for both roles, no role other than "student"
    and "faculty" accepts any address, and the role the profile page
    detects for an address is a role the address is valid for exactly when
    it is valid for some role: an address of neither domain is detected as
    faculty although [validateEmailRole] rejects it as faculty. *)
Theorem roles_exclusive email :
  ~ (validateEmailRole email "student" = true
     /\ validateEmailRole email "faculty" = true)
  /\ (forall role,
        validateEmailRole email role = true ->
        role = "student" \/ role = "faculty")
  /\ (validateEmailRole email (detectedRole email) = true
      <-> validateEmailRole email "student" = true
          \/ validateEmailRole email "faculty" = true).
Proof.
  split; [|split].
  - rewrite validateEmailRole_student, validateEmailRole_faculty.
    generalize (String.rev email) as r. intros r [H1 H2].
    do 4 (destruct r as [|? r]; [discriminate|];
          rewrite prefix_i_cons in H1, H2;
          apply andb_true_iff in H1 as [_ H1];
          apply andb_true_iff in H2 as [_ H2]).
    destruct r as [|c r]; [discriminate|].
    rewrite prefix_i_cons in H1, H2.
    apply andb_true_iff in H1 as [A1 _].
    apply andb_true_iff in H2 as [A2 _].
    apply Ascii.eqb_eq in A1. apply Ascii.eqb_eq in A2.
    rewrite <- A1 in A2. vm_compute in A2. discriminate.
  - intros role. apply validateEmailRole_roles.
  - unfold detectedRole.
    destruct (validateEmailRole email "student") eqn:E.
    + rewrite E. tauto.
    + split; [auto|]. intros [?|?]; [discriminate|assumption].
Qed.

(** [ToInt32] moves a number by a multiple of 2^32 into the 32-bit range. *)
Lemma to_int32_shift z : exists k, to_int32 z = z + k * 2 ^ 32.
Proof.
  unfold to_int32. exists (- ((z + 2 ^ 31) / 2 ^ 32)).
  rewrite Z.mod_eq by lia. lia.
Qed.

Lemma to_int32_range z : - 2 ^ 31 <= to_int32 z < 2 ^ 31.
Proof.
  unfold to_int32.
  pose proof (Z.mod_pos_bound (z + 2 ^ 31) (2 ^ 32) ltac:(lia)). lia.
Qed.

Lemma to_int32_add_multiple z k : to_int32 (z + k * 2 ^ 32) = to_int32 z.
Proof.
  unfold to_int32.
  replace (z + k * 2 ^ 32 + 2 ^ 31) with (z + 2 ^ 31 + k * 2 ^ 32) by lia.
  rewrite Z_mod_plus_full. reflexivity.
Qed.

Lemma hash_step_poly hash char p :
  hash = to_int32 p -> hash_step hash char = to_int32 (31 * p + char).
Proof.
  intros ->. unfold hash_step.
  destruct (to_int32_shift p) as (k1 & H1).
  destruct (to_int32_shift (to_int32 p)) as (k0 & H0).
  destruct (to_int32_shift (to_int32 (to_int32 p) * 2 ^ 5)) as (k2 & H2).
  rewrite H2, H0, H1.
  replace ((p + k1 * 2 ^ 32 + k0 * 2 ^ 32) * 2 ^ 5 + k2 * 2 ^ 32
           - (p + k1 * 2 ^ 32) + char)
    with (31 * p + char + (32 * (k1 + k0) + k2 - k1) * 2 ^ 32) by lia.
  apply to_int32_add_multiple.
Qed.

Lemma fold_hash_poly codes : forall hash p,
  hash = to_int32 p ->
  fold_left hash_step codes hash
  = to_int32 (fold_left (fun acc c => 31 * acc + c) codes p).
Proof.
  induction codes as [|c codes IH]; intros hash p H; simpl; [exact H|].
  apply IH. apply hash_step_poly. exact H.
Qed.

(** X11: the loop of [generateDeviceId] computes the polynomial
    c1 * 31^(n-1) + ... + cn of the character codes, wrapped to 32 bits, so
    the device identifier is the decimal rendering of a number between 0 and
    2^31. *)
Theorem generateDeviceId_polynomial dataURL userAgent width height :
  let codes := charCodes (fingerprint dataURL userAgent width height) in
  hash_of codes = to_int32 (poly31 codes)
  /\ generateDeviceId dataURL userAgent width height
     = Js.dec (Z.abs (to_int32 (poly31 codes)))
  /\ 0 <= Z.abs (to_int32 (poly31 codes)) <= 2 ^ 31.
Proof.
  intros codes.
  assert (hash_of codes = to_int32 (poly31 codes)) as H.
  { unfold hash_of, poly31. apply fold_hash_poly. reflexivity. }
  split; [exact H|]. split.
  - unfold generateDeviceId. fold codes. rewrite H. reflexivity.
  - pose proof (to_int32_range (poly31 codes)). lia.
Qed.

Lemma charCodes_app s t : charCodes (s ++ t) = (charCodes s ++ charCodes t)%list.
Proof.
  unfold charCodes. induction s as [|c s IH]; [reflexivity|].
  change (String c s ++ t) with (String c (s ++ t)). simpl.
  f_equal. exact IH.
Qed.

(** X12: the device identifier does not tell devices apart in general: two
    canvas renderings with the same hash give the same identifier on any
    user agent and screen. *)
Theorem generateDeviceId_collides dataURL1 dataURL2 userAgent width height :
  hash_of (charCodes dataURL1) = hash_of (charCodes dataURL2) ->
  generateDeviceId dataURL1 userAgent width height
  = generateDeviceId dataURL2 userAgent width height.
Proof.
  intros H. unfold generateDeviceId, fingerprint, hash_of in *.
  rewrite !charCodes_app, !fold_left_app, H. reflexivity.
Qed.

Lemma generateDeviceId_collides_witness :
  "Aa" <> "BB"
  /\ generateDeviceId "Aa" "Mozilla/5.0" 390 844
     = generateDeviceId "BB" "Mozilla/5.0" 390 844.
Proof.
  split; [discriminate|].
  apply (generateDeviceId_collides "Aa" "BB" "Mozilla/5.0" 390 844).
  reflexivity.
Defined.

End DeviceExtras.

Module AccountsExtras.

Import Service Accounts.

(** X13: [loadUserData] writes at most the user's own user document, and
    never a profile.  It writes nothing when its read of the user document
    went through and found one.  When the read failed, or found none, it
    takes the basic document of a new user as the profile and, unless the
    write fails, sets it in place of whatever the store holds for the user
    by then -- also a document that exists but could not be read, and one
    that another call wrote after the read.  The profile it ends with is
    marked complete exactly when both reads went through and found their
    document. *)
Theorem loadUserData_creates_when_read_finds_none u now out st later :
  let r := loadUserData u now out st later in
  profiles (fst r) = profiles later
  /\ (forall k, k <> uid u -> users (fst r) !! k = users later !! k)
  /\ (userRead out = None -> is_Some (users st !! uid u) ->
      fst r = later)
  /\ (userRead out <> None \/ users st !! uid u = None ->
      snd r = basic_userData u
      /\ (userWrite out = None ->
          users (fst r) !! uid u = Some (stamped (basic_userData u) now))
      /\ (userWrite out <> None -> fst r = later))
  /\ (snd r !! "profileComplete" = Some (VBool true)
      <-> userRead out = None /\ is_Some (users st !! uid u)
          /\ profileRead out = None
          /\ is_Some (profiles later !! uid u)).
Proof.
  intros r. subst r.
  unfold loadUserData, getUserDocument, getProfileDocument.
  assert (basic_userData u !! "profileComplete" <> Some (VBool true))
    as Hbasic by (vm_compute; discriminate).
  assert (forall w : option string,
            let db := match w with
                      | None => fst (createUserDocument (uid u)
                                       (basic_userData u) now later)
                      | Some _ => later
                      end in
            profiles db = profiles later
            /\ (forall k, k <> uid u -> users db !! k = users later !! k)
            /\ (w = None ->
                users db !! uid u = Some (stamped (basic_userData u) now))
            /\ (w <> None -> db = later)) as Hwrite.
  { intros [msg|]; cbn [createUserDocument fst snd users profiles].
    - repeat split; auto. discriminate.
    - split; [reflexivity|].
      split; [intros k Hk; rewrite lookup_insert_ne by congruence;
              reflexivity|].
      split; [intros _; apply lookup_insert_eq|intros H; contradiction]. }
  destruct (Hwrite (userWrite out)) as (W1 & W2 & W3 & W4). clear Hwrite.
  destruct (userRead out) as [msg|] eqn:Hur.
  - (* the read failed *)
    cbn [fst snd].
    split; [exact W1|]. split; [exact W2|].
    split; [discriminate|].
    split; [intros _; split; [reflexivity|split; assumption]|].
    split; [intros H; contradiction|intros (H & _); discriminate].
  - destruct (users st !! uid u) as [ud|] eqn:Hu.
    + destruct (profileRead out) as [msg|] eqn:Hpr;
        [|destruct (profiles later !! uid u) as [pd|] eqn:Hp];
        cbn [fst snd];
        (split; [reflexivity|]); (split; [reflexivity|]);
        (split; [reflexivity|]);
        (split; [intros [H|H]; [contradiction|discriminate]|]).
      * rewrite lookup_insert_eq.
        split; [discriminate|intros (_ & _ & H & _); discriminate].
      * rewrite lookup_insert_eq. split; [eauto 6|reflexivity].
      * rewrite lookup_insert_eq.
        split; [discriminate|intros (_ & _ & _ & [? ?]); discriminate].
    + cbn [fst snd].
      split; [exact W1|]. split; [exact W2|].
      split; [intros _ [? ?]; discriminate|].
      split; [intros _; split; [reflexivity|split; assumption]|].
      split; [intros H; contradiction
             |intros (_ & [? ?] & _); discriminate].
Qed.

Lemma loadUserData_creates_when_read_finds_none_witness :
  let u := {| uid := "u1"; email := "asha@gmail.com";
              displayName := Some "Asha"; photoURL := None |} in
  let st := fst (createUserDocument "u1"
                   (signup_userData "asha@gmail.com" "faculty") 1000 empty)
  in
  let fine := {| userRead := None; profileRead := None;
                 userWrite := None |} in
  let unread := {| userRead := Some "unavailable"; profileRead := None;
                   userWrite := None |} in
  (* the read goes through: nothing is written *)
  fst (loadUserData u 2000 fine st st) = st
  (* the read fails: the document that is there is replaced *)
  /\ users st !! "u1"
     = Some (stamped (signup_userData "asha@gmail.com" "faculty") 1000)
  /\ users (fst (loadUserData u 2000 unread st st)) !! "u1"
     = Some (stamped (basic_userData u) 2000).
Proof.
  intros u st fine unread. split; [|split; [reflexivity|]].
  - destruct (loadUserData_creates_when_read_finds_none u 2000 fine st st)
      as (_ & _ & H & _).
    apply H; [reflexivity|eexists; reflexivity].
  - destruct (loadUserData_creates_when_read_finds_none u 2000 unread st st)
      as (_ & _ & _ & H & _).
    destruct H as (_ & H & _); [left; discriminate|].
    apply H. reflexivity.
Defined.



End AccountsExtras.

(** ** The scanner's steps *)

Module ScannerExtras.

Import Service ScannerFlow.

Lemma onScanSuccess_scanned now d st q :
  QRScanner.scannedData (QRScanner.onScanSuccess now d st) = Some q ->
  QRScanner.scannedData st = Some q \/ QRScanner.well_formed q.
Proof.
  unfold QRScanner.onScanSuccess, QRScanner.well_formed.
  destruct d as [|qrData]; [simpl; auto|].
  destruct (Js.truthy_opt (Qr.sessionId qrData)) eqn:H1;
    [|simpl; auto].
  destruct (Js.truthy_opt (Qr.facultyId qrData)) eqn:H2;
    [|simpl; auto].
  destruct (QRScanner.has_timestamp qrData) eqn:H3;
    [|simpl; auto].
  destruct (QRScanner.too_old now qrData); simpl; [auto|].
  intros [= <-]. right. rewrite H1, H2, H3. auto.
Qed.

Lemma attendanceData_own user prof q url ts a :
  QRScanner.well_formed q ->
  attendanceData user prof q url ts = Some a ->
  forall env, own_record user (new_record env a).
Proof.
  intros (H1 & H2 & _) Ha env. unfold attendanceData in Ha.
  destruct (Qr.sessionId q) as [sid|]; [|discriminate].
  destruct (Qr.facultyId q) as [fid|]; [|discriminate].
  repeat case_match; try discriminate.
  injection Ha as <-. repeat split; assumption.
Qed.

(** What one run of [submitAttendance] comes to. *)
Lemma submitAttendance_cases env user prof st db :
  (snd (submitAttendance env user prof st db) = db
   /\ QRScanner.scannedData (core (fst (submitAttendance env user prof st db)))
      = QRScanner.scannedData (core st)
   /\ success (fst (submitAttendance env user prof st db)) = success st
   /\ closeTimers (fst (submitAttendance env user prof st db))
      = closeTimers st)
  \/ exists photo q url a,
       capturedPhoto st = Some photo
       /\ QRScanner.scannedData (core st) = Some q
       /\ sub_upload env = Some url
       /\ attendanceData user prof q url (sub_timestamp env) = Some a
       /\ submitAttendance env user prof st db
          = ({| core := QRScanner.setError "" (core st);
                isOpen := isOpen st;
                showPhotoCapture := showPhotoCapture st;
                success := "Attendance marked successfully!";
                loading := false; photoStream := photoStream st;
                capturedPhoto := capturedPhoto st;
                closeTimers := (closeTimers st ++ [photoStream st])%list |},
             fst (markAttendance (sub_mark env) a db)).
Proof.
  unfold submitAttendance.
  destruct (capturedPhoto st) as [photo|] eqn:Hp; [|left; auto].
  destruct (QRScanner.scannedData (core st)) as [q|] eqn:Hq; [|left; auto].
  destruct (sub_upload env) as [url|] eqn:Hu; [|left; simpl; auto].
  destruct (attendanceData user prof q url (sub_timestamp env)) as [a|] eqn:Ha;
    [|left; simpl; auto].
  right. exists photo, q, url, a.
  repeat (split; [first [reflexivity|assumption]|]).
  pose proof (ServiceFacts.markAttendance_success (sub_mark env) a db) as Hs.
  destruct (markAttendance (sub_mark env) a db) as [db' [[]|e]];
    simpl in Hs; [reflexivity|discriminate].
Qed.

Lemma step_own user prof st db ev :
  scanned_checked st ->
  scanned_checked (fst (step user prof (st, db) ev))
  /\ exists new,
       attendance (snd (step user prof (st, db) ev))
       = (attendance db ++ new)%list
       /\ Forall (own_record user) new
       /\ (length new <= 1)%nat.
Proof.
  intros Hinv.
  assert (forall st' : Flow,
            QRScanner.scannedData (core st') = QRScanner.scannedData (core st)
            \/ QRScanner.scannedData (core st') = None ->
            scanned_checked st') as Hkeep.
  { intros st' [E|E] q Hq; rewrite E in Hq; [auto|discriminate]. }
  assert (exists new : list AttendanceRecord,
            attendance db = (attendance db ++ new)%list
            /\ Forall (own_record user) new /\ (length new <= 1)%nat)
    as Hnone.
  { exists []. rewrite app_nil_r. simpl. auto with lia. }
  destruct ev; cbn [step fst snd]; (split; [|try exact Hnone]).
  - apply Hkeep; left; reflexivity.
  - apply Hkeep; right; reflexivity.
  - apply Hkeep; left; reflexivity.
  - intros q Hq. apply onScanSuccess_scanned in Hq as [Hq|Hq]; auto.
  - apply Hkeep; left. unfold confirmAttendance, startPhotoCapture.
    destruct stream; reflexivity.
  - apply Hkeep; left. unfold capturePhoto. destruct mounted; reflexivity.
  - apply Hkeep; left. unfold retakePhoto, startPhotoCapture.
    destruct stream; reflexivity.
  - destruct (submitAttendance_cases env user prof st db)
      as [(_ & E & _)|(photo & q & url & a & _ & _ & _ & _ & E)].
    + apply Hkeep; left; exact E.
    + rewrite E. apply Hkeep; left; reflexivity.
  - destruct (submitAttendance_cases env user prof st db)
      as [(E & _)|(photo & q & url & a & _ & Hq & _ & Ha & E)].
    + rewrite E. exact Hnone.
    + rewrite E. cbn [snd].
      rewrite ServiceFacts.markAttendance_attendance.
      exists [new_record (sub_mark env) a]. split; [reflexivity|].
      split; [|simpl; lia].
      constructor; [|constructor].
      eapply attendanceData_own; [apply Hinv; exact Hq|exact Ha].
  - apply Hkeep. unfold closeTimer.
    destruct (closeTimers st); [left|right]; reflexivity.
Qed.

(** X15: whatever the order in
    which the scanner's handlers and callbacks run, starting from the
    closed scanner, the attendance collection only grows, and every record
    the scanner adds carries the signed-in student's uid and e-mail, the
    status ["present"], and a non-empty session and faculty identifier:
    [submitAttendance] writes only from a payload that [onScanSuccess]
    accepted. *)
Theorem scanner_writes_own_records user prof events db :
  exists new,
    attendance (snd (run user prof events (initial, db)))
    = (attendance db ++ new)%list
    /\ Forall (own_record user) new
    /\ (length new <= length events)%nat.
Proof.
  unfold run.
  assert (scanned_checked initial) as Hinv by (intros q; discriminate).
  revert Hinv. generalize initial as st. revert db.
  induction events as [|ev events IH]; intros db st Hinv.
  - exists []. rewrite app_nil_r. simpl. auto.
  - cbn [fold_left].
    destruct (step_own user prof st db ev Hinv)
      as (Hinv' & new1 & E1 & F1 & L1).
    destruct (step user prof (st, db) ev) as [st' db'].
    destruct (IH db' st' Hinv') as (new2 & E2 & F2 & L2).
    exists (new1 ++ new2)%list. cbn [snd] in E1. rewrite E2, E1, app_assoc.
    split; [reflexivity|]. split; [apply Forall_app; auto|].
    rewrite length_app. simpl. lia.
Qed.





End ScannerExtras.

(** ** From the generated code to the recorded attendance *)

Module EndToEnd.

Import Service Trace ServiceFacts ScannerFlow.

(** The store after a successful [generateQRCode] is the store after its
    three service calls. *)
Lemma generateQRCode_success env u profile f periods st db :
  QRGenerator.missingFields f = [] ->
  QRGenerator.f_periods f = Some periods ->
  Js.truthy (QRGenerator.uid u) = true ->
  QRGenerator.generateQRCode env (Some u) profile f st db
  = ({| QRGenerator.qrData :=
          Some (QRGenerator.qrDataObj env (QRGenerator.g_autoId env) u f
                  periods);
        QRGenerator.timeLeft := 30; QRGenerator.isActive := true;
        QRGenerator.error := "";
        QRGenerator.currentSessionId := Some (QRGenerator.g_autoId env) |},
     Trace.run
       [CreateAttendanceSession (QRGenerator.g_autoId env)
          (QRGenerator.g_createdAt env)
          (QRGenerator.sessionData env u profile f periods);
        SaveQRCodeToStorage (QRGenerator.g_upload env)
          (QRGenerator.g_saveDateNow env) (QRGenerator.g_autoId env);
        GetActiveSessions (QRGenerator.uid u) (QRGenerator.g_loadNow env)]
       db).
Proof.
  intros Hf Hp Hu. unfold QRGenerator.generateQRCode.
  rewrite Hf, Hp, Hu. reflexivity.
Qed.

Lemma run_presence ops : forall db sid s,
  sid <> "" ->
  fresh_ids db ops ->
  marked sid ops = [] ->
  attendance_sessions db !! sid = Some s ->
  exists s', attendance_sessions (Trace.run ops db) !! sid = Some s'
             /\ studentsPresent s' = studentsPresent s
             /\ totalPresent s' = totalPresent s.
Proof.
  induction ops as [|op ops IH]; intros db sid s Hsid Hfresh Hm Hs.
  - exists s. auto.
  - destruct Hfresh as [Hf Hfresh].
    destruct (Recording.step_presence db op sid s Hsid Hf Hs)
      as (s1 & Hs1 & Hp).
    rewrite Recording.marked_cons_step in Hm.
    apply app_eq_nil in Hm as [Hm1 Hm].
    destruct (IH (Trace.step db op) sid s1 Hsid Hfresh Hm Hs1)
      as (s' & Hs' & E1 & E2).
    exists s'. split; [exact Hs'|].
    assert (presence_after op sid s = (studentsPresent s, totalPresent s))
      as Hkeep.
    { destruct op; try reflexivity. simpl in *.
      destruct (String.eqb (sessionId a) sid); [discriminate|reflexivity]. }
    rewrite Hkeep in Hp. injection Hp as Hp1 Hp2. split; congruence.
Qed.

(** X17: the code of [QRGenerator.jsx], scanned within 30 s of its
    timestamp by a signed-in student whose profile has a name and a
    registration number, confirmed, photographed and submitted with a photo
    that uploads: the scanner reports success, the store gains exactly one
    attendance record, for that student and the generated session, and the
    session's document lists exactly that student, with a count of 1. *)
Theorem generated_code_marks_present env fac profile f gst db stu prof name
    reg now stream photo senv url :
  QRGenerator.missingFields f = [] ->
  Js.truthy (QRGenerator.uid fac) = true ->
  QRGenerator.g_autoId env <> "" ->
  attendance_sessions db !! QRGenerator.g_autoId env = None ->
  now - QRGenerator.g_qrTimestamp env <= 30000 ->
  p_fullName prof = Some name ->
  p_regNumber prof = Some reg ->
  sub_upload senv = Some url ->
  let g := QRGenerator.generateQRCode env (Some fac) profile f gst db in
  exists q,
    QRGenerator.qrData (fst g) = Some q
    /\ let x := ScannerFlow.run stu prof
                  [OpenScanner; StartScanning true;
                   ScanSuccess now (Qr.Parsed q);
                   ConfirmAttendance stream;
                   CapturePhoto true (Some photo);
                   SubmitAttendance senv]
                  (initial, snd g) in
       success (fst x) = "Attendance marked successfully!"
       /\ (exists r,
             attendance (snd x) = (attendance db ++ [r])%list
             /\ studentId (r_data r) = QRGenerator.uid stu
             /\ sessionId (r_data r) = QRGenerator.g_autoId env
             /\ studentName (r_data r) = name
             /\ photoUrl (r_data r) = url)
       /\ exists s e,
            attendance_sessions (snd x) !! QRGenerator.g_autoId env = Some s
            /\ studentsPresent s = Some [e]
            /\ se_studentId e = QRGenerator.uid stu
            /\ totalPresent s = Some 1%nat.
Proof.
  intros Hf Hu Hid Hfresh Hage Hname Hreg Hup g.
  destruct (Rotation.missingFields_nil f Hf) as (periods & Hp).
  subst g. rewrite (generateQRCode_success env fac profile f periods) by auto.
  cbn [fst snd QRGenerator.qrData].
  set (sid := QRGenerator.g_autoId env) in *.
  set (q := QRGenerator.qrDataObj env sid fac f periods).
  set (ops := [CreateAttendanceSession _ _ _; _; _]).
  exists q. split; [reflexivity|].
  (* the scanner's steps before the submission *)
  assert (QRScanner.well_formed q) as Hwf.
  { repeat split; try reflexivity.
    - simpl. apply Recording.truthy_nonempty. exact Hid.
    - exact Hu. }
  set (st := capturePhoto true (Some photo)
               (confirmAttendance stream
                  (onScanSuccess now (Qr.Parsed q)
                     (startScanning true (openScanner initial))))).
  assert (ScannerFlow.run stu prof
            [OpenScanner; StartScanning true; ScanSuccess now (Qr.Parsed q);
             ConfirmAttendance stream; CapturePhoto true (Some photo);
             SubmitAttendance senv] (initial, Trace.run ops db)
          = submitAttendance senv stu prof st (Trace.run ops db)) as ->
    by reflexivity.
  assert (capturedPhoto st = Some photo) as Hphoto by reflexivity.
  assert (QRScanner.scannedData (core st) = Some q) as Hq.
  { subst st. unfold capturePhoto, confirmAttendance, startPhotoCapture,
      onScanSuccess.
    rewrite (Scanning.onScanSuccess_well_formed now q _ Hwf).
    assert (QRScanner.too_old now q = false) as ->
      by (apply Z.ltb_ge; exact Hage).
    destruct stream; reflexivity. }
  set (a := {| studentId := QRGenerator.uid stu; sessionId := sid;
               a_facultyId := QRGenerator.uid fac;
               a_school := QRGenerator.f_school f;
               a_batch := QRGenerator.f_batch f;
               a_subject := QRGenerator.f_subject f;
               a_periods := periods; photoUrl := url;
               studentName := name;
               studentEmail := QRGenerator.email stu;
               regNumber := reg; a_timestamp := sub_timestamp senv;
               a_status := "present" |}).
  assert (attendanceData stu prof q url (sub_timestamp senv) = Some a) as Ha.
  { unfold attendanceData. rewrite Hname, Hreg. reflexivity. }
  destruct (ScannerExtras.submitAttendance_cases senv stu prof st
              (Trace.run ops db))
    as [(E & _ & Hsucc & Ht)|(photo' & q' & url' & a' & _ & Hq' & Hu' & Ha' & E)].
  { exfalso. revert Ht. unfold submitAttendance.
    rewrite Hphoto, Hq, Hup, Ha.
    pose proof (markAttendance_success (sub_mark senv) a (Trace.run ops db))
      as Hs.
    destruct (markAttendance (sub_mark senv) a (Trace.run ops db))
      as [db' [[]|err]]; simpl in Hs; [|discriminate].
    cbn [fst closeTimers]. intros Ht. apply (f_equal length) in Ht.
    rewrite length_app in Ht. simpl in Ht. lia. }
  assert (a' = a) as -> by congruence.
  rewrite E. cbn [fst snd success].
  split; [reflexivity|]. split.
  - exists (new_record (sub_mark senv) a).
    rewrite markAttendance_attendance.
    unfold ops, Trace.run. cbn [fold_left].
    rewrite !RecordingExtras.step_attendance. simpl History.written.
    rewrite !app_nil_r. repeat split; reflexivity.
  - (* the session document *)
    assert (fresh_ids db ops) as Hfr by (simpl; auto).
    assert (marked sid ops = []) as Hm by reflexivity.
    assert (exists s0, attendance_sessions (Trace.run ops db) !! sid = Some s0
                       /\ studentsPresent s0 = Some []) as (s0 & Hs0 & Hl0).
    { change (Trace.run ops db)
        with (Trace.run (tail ops)
                (fst (createAttendanceSession sid (QRGenerator.g_createdAt env)
                        (QRGenerator.sessionData env fac profile f periods)
                        db))).
      destruct (run_presence (tail ops)
                  (fst (createAttendanceSession sid
                          (QRGenerator.g_createdAt env)
                          (QRGenerator.sessionData env fac profile f periods)
                          db))
                  sid
                  (new_session
                     (QRGenerator.sessionData env fac profile f periods)
                     (QRGenerator.g_createdAt env)) Hid)
        as (s' & Hs' & E1 & _).
      - simpl. auto.
      - reflexivity.
      - unfold createAttendanceSession, try_catch, addDoc_session; simpl.
        apply lookup_insert_eq.
      - exists s'. split; [exact Hs'|exact E1]. }
    destruct (Recording.step_presence (Trace.run ops db)
                (MarkAttendance (sub_mark senv) a) sid s0 Hid I Hs0)
      as (s1 & Hs1 & Hpr).
    cbn [Trace.step] in Hs1.
    simpl presence_after in Hpr. rewrite Hl0 in Hpr.
    subst a; cbn [sessionId studentId] in Hpr.
    rewrite String.eqb_refl in Hpr. simpl in Hpr.
    injection Hpr as Hp1 Hp2.
    eexists s1, _. split; [exact Hs1|]. split; [exact Hp1|].
    split; [reflexivity|exact Hp2].
Qed.

Lemma generated_code_marks_present_witness :
  let stu := {| QRGenerator.uid := "stu1";
                QRGenerator.displayName := Some "Ravi";
                QRGenerator.email := "ravi@pwioi.com" |} in
  let prof := {| p_fullName := Some "Ravi Kumar";
                 p_regNumber := Some "R-17" |} in
  let t := SampleOnline.t0 in
  let senv := {| sub_dateNow := t + 15000;
                 sub_upload := Some "https://p/1";
                 sub_timestamp := t + 15100;
                 sub_mark := Sample.env (t + 15200) |} in
  exists q,
    QRGenerator.qrData (fst SampleOnline.generated) = Some q
    /\ exists s e,
         attendance_sessions
           (snd (ScannerFlow.run stu prof
                   [OpenScanner; StartScanning true;
                    ScanSuccess (t + 9000) (Qr.Parsed q);
                    ConfirmAttendance true;
                    CapturePhoto true (Some "jpeg");
                    SubmitAttendance senv]
                   (initial, snd SampleOnline.generated)))
         !! "Xk29fJq0LmZ1" = Some s
         /\ studentsPresent s = Some [e]
         /\ se_studentId e = "stu1"
         /\ totalPresent s = Some 1%nat.
Proof.
  intros stu prof t senv.
  destruct (generated_code_marks_present SampleOnline.gen_env
              SampleSession.user SampleSession.profile SampleSession.form
              QRGenerator.initial empty_db stu prof "Ravi Kumar" "R-17"
              (t + 9000) true "jpeg" senv "https://p/1")
    as (q & Hq & _ & _ & H);
    [reflexivity|reflexivity|discriminate|reflexivity|vm_compute; discriminate
    |reflexivity|reflexivity|reflexivity|].
  exists q. split; [exact Hq|exact H].
Defined.

End EndToEnd.

(** ** The rotating generator over time *)

Module CadenceExtras.

Import OfflineQRGenerator Rotation Cadence CadenceFacts.

(** X18: a session of the rotating generator lasts for exactly 30
    callbacks of its one-second timeout, however these are interleaved
    with the callbacks of the rotation interval: after any callbacks the
    countdown shows 30 less the timeouts so far, never less than 0, and the
    session is active, with both timers set, exactly while it is above
    0. *)
Theorem countdown_counts_timeouts env u profile f st0 ticks :
  QRGenerator.missingFields f = [] ->
  Js.truthy (QRGenerator.uid u) = true ->
  let st := run ticks (generateQRCode env (Some u) profile f st0) in
  timeLeft st = Z.max 0 (30 - Z.of_nat (timeouts ticks))
  /\ isActive st = bool_decide (timeouts ticks < 30)%nat
  /\ timerRef st = isActive st
  /\ rotationTimerRef st = isActive st.
Proof.
  intros Hf Hu st.
  pose proof (live_run ticks _ _ _ (generateQRCode_live env u profile f st0
                                      Hf Hu)) as [H1 H2 H3 H4 _ _ _].
  fold st in H1, H2, H3, H4. rewrite H1, H2, H3, H4.
  split; [lia|]. split; [|auto].
  destruct (bool_decide_reflect (timeouts ticks < 30)%nat) as [E|E].
  - apply Z.ltb_lt. lia.
  - apply Z.ltb_ge. lia.
Qed.

Lemma countdown_counts_timeouts_witness :
  let st := SampleSession.after 12 in
  timeLeft st = 18 /\ isActive st = true.
Proof.
  intros st.
  destruct (countdown_counts_timeouts SampleSession.start_env
              SampleSession.user SampleSession.profile SampleSession.form
              initial (SampleSession.seconds 12))
    as (H1 & H2 & _); [reflexivity..|].
  split; [exact H1|exact H2].
Defined.







(** X20: closing the rotating generator's dialog ends the session for
    good: the code is dropped, both timers are cleared, and no timer
    callback that still arrives changes the state or issues a code. *)
Theorem closeModal_stops_rotation st ticks :
  run ticks (closeModal st) = closeModal st
  /\ qrData (closeModal st) = None
  /\ isActive (closeModal st) = false
  /\ baseSessionData (closeModal st) = None
  /\ issued (run ticks (closeModal st)) = issued st.
Proof.
  assert (run ticks (closeModal st) = closeModal st) as E
    by (apply run_idle; reflexivity).
  rewrite E. repeat split; reflexivity.
Qed.

Lemma debugger_intervals d0 n :
  let d := Nat.iter n QRRotationDebugger.interval
             (QRRotationDebugger.startRotation d0) in
  QRRotationDebugger.isActive d = true
  /\ QRRotationDebugger.totalRotations d = (n / 5)%nat
  /\ QRRotationDebugger.rotationTimer d = 5 - Z.of_nat (n mod 5).
Proof.
  induction n as [|n IH]; cbn zeta; [repeat split; reflexivity|].
  rewrite Nat.iter_succ. cbn zeta in IH. destruct IH as (I1 & I2 & I3).
  set (d := Nat.iter n _ _) in *.
  unfold QRRotationDebugger.interval. rewrite I1, I3.
  pose proof (succ_div5 n) as Hs.
  pose proof (Nat.mod_upper_bound n 5 ltac:(lia)) as Hb.
  destruct (Nat.eqb_spec (n mod 5) 4) as [E|E]; destruct Hs as [Hd Hm].
  - assert ((5 - Z.of_nat (n mod 5) <=? 1)%Z = true) as ->
      by (apply Z.leb_le; lia).
    cbn [QRRotationDebugger.isActive QRRotationDebugger.totalRotations
         QRRotationDebugger.rotationTimer].
    rewrite Hd, Hm, I2. repeat split; reflexivity.
  - assert ((5 - Z.of_nat (n mod 5) <=? 1)%Z = false) as ->
      by (apply Z.leb_gt; lia).
    cbn [QRRotationDebugger.isActive QRRotationDebugger.totalRotations
         QRRotationDebugger.rotationTimer].
    rewrite Hd, Hm, I2. repeat split; try reflexivity. lia.
Qed.

(** X21: the rotation debugger counts as the rotating generator does: after
    as many callbacks of its interval as the generator's rotation interval
    had while its session ran, both show the same rotation count and the
    same countdown to the next rotation. *)
Theorem debugger_counts_like_generator env u profile f st0 ticks d0 :
  QRGenerator.missingFields f = [] ->
  Js.truthy (QRGenerator.uid u) = true ->
  let st := run ticks (generateQRCode env (Some u) profile f st0) in
  let d := Nat.iter (intervals 30 ticks) QRRotationDebugger.interval
             (QRRotationDebugger.startRotation d0) in
  QRRotationDebugger.totalRotations d = totalRotations st
  /\ QRRotationDebugger.rotationTimer d = qrRotationTimer st.
Proof.
  intros Hf Hu st d.
  pose proof (live_run ticks _ _ _ (generateQRCode_live env u profile f st0
                                      Hf Hu)) as [_ _ _ _ _ H6 H7].
  fold st in H6, H7. simpl in H6, H7.
  destruct (debugger_intervals d0 (intervals 30 ticks)) as (_ & D2 & D3).
  fold d in D2, D3. rewrite D2, D3, H6, H7. split; reflexivity.
Qed.

Lemma debugger_counts_like_generator_witness :
  let d := Nat.iter 12 QRRotationDebugger.interval
             (QRRotationDebugger.startRotation QRRotationDebugger.initial) in
  QRRotationDebugger.totalRotations d = totalRotations (SampleSession.after 12)
  /\ QRRotationDebugger.rotationTimer d
     = qrRotationTimer (SampleSession.after 12).
Proof.
  apply (debugger_counts_like_generator SampleSession.start_env
           SampleSession.user SampleSession.profile SampleSession.form
           initial (SampleSession.seconds 12) QRRotationDebugger.initial);
    reflexivity.
Defined.

End CadenceExtras.

(** ** The checksum of the rotating codes *)

Module ChecksumExtras.

Import OfflineQRGenerator Rotation.

Lemma dec_cons z : exists c s, Js.dec z = String c s.
Proof.
  unfold Js.dec. destruct z as [|p|p]; simpl.
  - eauto.
  - pose proof (DecimalPos.Unsigned.to_uint_nonnil p) as H.
    destruct (Pos.to_uint p); [contradiction|simpl; eauto..].
  - eauto.
Qed.

(** The first twelve characters of the base64 rendering are those of the
    first nine characters rendered. *)
Lemma checksum_of_prefix c1 c2 c3 c4 c5 c6 c7 c8 c9 rest i ms salt :
  let nine :=
    String c1 (String c2 (String c3 (String c4 (String c5 (String c6
      (String c7 (String c8 (String c9 ""))))))))
  in
  checksum_of (nine ++ rest) i ms salt = Js.btoa nine.
Proof.
  intros nine. subst nine.
  unfold checksum_of, Js.substr0, Js.btoa.
  rewrite !Scanning.append_String.
  cbn [list_ascii_of_string List.map Js.btoa_codes
       string_of_list_ascii String.substring].
  rewrite !Scanning.substring_0_0. reflexivity.
Qed.

(** X22: the checksum in the codes of the rotating generator is the base64
    rendering of ["session_"] followed by the first digit of the session's
    starting time: every code of a session carries the same checksum,
    whatever its rotation index and its random parts. *)
Theorem checksum_is_constant env u profile f st0 ticks q :
  QRGenerator.missingFields f = [] ->
  Js.truthy (QRGenerator.uid u) = true ->
  q ∈ issued (run ticks (generateQRCode env (Some u) profile f st0)) ->
  Qr.checksum q
  = Some (Js.btoa ("session_" ++ Js.substr0 1 (Js.dec (s_timestamp env)))).
Proof.
  intros Hf Hu Hq.
  destruct (generateQRCode_inv env u profile f st0 Hf Hu)
    as (periods & _ & Hstart).
  pose proof (run_inv _ ticks _ Hstart) as [_ _ Hp _].
  rewrite Forall_forall in Hp. destruct (Hp q Hq) as (i & e & ->).
  cbn [generateQRWithEntropy Qr.checksum new_baseSessionData sessionId].
  unfold new_sessionId.
  destruct (dec_cons (s_timestamp env)) as (c & s & ->).
  f_equal.
  change ("session_" ++ String c s ++ "_" ++ s_randomPart env ++ "_"
          ++ s_uniqueId env)
    with (("session_" ++ String c "")
          ++ (s ++ "_" ++ s_randomPart env ++ "_" ++ s_uniqueId env)).
  rewrite (checksum_of_prefix "s" "e" "s" "s" "i" "o" "n" "_" c).
  unfold Js.substr0. cbn [String.substring].
  rewrite Scanning.substring_0_0. reflexivity.
Qed.

Lemma checksum_is_constant_witness :
  Qr.checksum
    (generateQRWithEntropy
       (new_baseSessionData SampleSession.start_env SampleSession.user
          SampleSession.profile SampleSession.form 2)
       0 (s_entropy SampleSession.start_env))
  = Some "c2Vzc2lvbl8x".
Proof.
  etransitivity.
  - apply (checksum_is_constant SampleSession.start_env SampleSession.user
             SampleSession.profile SampleSession.form initial []);
      [reflexivity|reflexivity|].
    apply (list_elem_of_lookup_2 _ 0%nat). reflexivity.
  - vm_compute. reflexivity.
Defined.

End ChecksumExtras.

(** ** The store-backed generator over time *)

Module GeneratorExtras.

Import Service Trace ServiceFacts.

Lemma timer_ticks k st :
  QRGenerator.isActive st = true ->
  QRGenerator.timeLeft st = 30 ->
  let st' := Nat.iter k QRGenerator.timer_tick st in
  QRGenerator.currentSessionId st' = QRGenerator.currentSessionId st
  /\ QRGenerator.timeLeft st' = Z.max 0 (30 - Z.of_nat k)
  /\ QRGenerator.isActive st' = bool_decide (k < 30)%nat
  /\ (QRGenerator.isActive st' = true ->
      QRGenerator.qrData st' = QRGenerator.qrData st).
Proof.
  intros Ha Ht. induction k as [|k IH]; cbn zeta.
  - simpl. rewrite Ha, Ht. auto.
  - rewrite Nat.iter_succ. cbn zeta in IH.
    destruct IH as (I1 & I2 & I3 & I4).
    set (s := Nat.iter k QRGenerator.timer_tick st) in *.
    unfold QRGenerator.timer_tick. rewrite I2, I3.
    destruct (bool_decide_reflect (k < 30)%nat) as [Hk|Hk].
    + assert ((0 <? Z.max 0 (30 - Z.of_nat k))%Z = true) as ->
        by (apply Z.ltb_lt; lia).
      cbn [andb QRGenerator.timeLeft].
      destruct (Z.eqb_spec (Z.max 0 (30 - Z.of_nat k) - 1) 0) as [E|E];
        cbn [QRGenerator.currentSessionId QRGenerator.timeLeft
             QRGenerator.isActive QRGenerator.qrData].
      * split; [exact I1|]. split; [lia|].
        split; [|discriminate].
        symmetry. apply bool_decide_eq_false. lia.
      * split; [exact I1|]. split; [lia|].
        split; [|intros _; apply I4; exact I3].
        rewrite ?I3. symmetry. apply bool_decide_eq_true. lia.
    + cbn [andb]. split; [exact I1|]. split; [lia|].
      split; [|rewrite I3; discriminate].
      rewrite I3. symmetry. apply bool_decide_eq_false. lia.
Qed.

(** X23: the code of [QRGenerator.jsx] is shown for 30 ticks of its
    one-second timer.  Closing the dialog while the code is shown
    deactivates the stored session and records the instant; closing it
    after the countdown ran out writes no deactivation, and the stored
    session is then inactive only because the reload of the active sessions
    finds it expired.  Either way the component forgets the session. *)
Theorem closeModal_ends_session env fac profile f gst db k now loadNow :
  QRGenerator.missingFields f = [] ->
  Js.truthy (QRGenerator.uid fac) = true ->
  let g := QRGenerator.generateQRCode env (Some fac) profile f gst db in
  let st := Nat.iter k QRGenerator.timer_tick (fst g) in
  let c := QRGenerator.closeModal now loadNow fac st (snd g) in
  QRGenerator.isActive st = bool_decide (k < 30)%nat
  /\ QRGenerator.currentSessionId (fst c) = None
  /\ QRGenerator.qrData (fst c) = None
  /\ exists s,
       attendance_sessions (snd c) !! QRGenerator.g_autoId env = Some s
       /\ expiry s = QRGenerator.g_dateNow env + 30000
       /\ ((k < 30)%nat ->
           isActive s = Some false /\ deactivatedAt s = Some now)
       /\ ((30 <= k)%nat ->
           deactivatedAt s = None
           /\ (isActive s = Some false
               <-> QRGenerator.g_dateNow env + 30000
                   <= Z.max (QRGenerator.g_loadNow env) loadNow)).
Proof.
  intros Hf Hu g st c.
  destruct (Rotation.missingFields_nil f Hf) as (periods & Hp).
  pose proof (EndToEnd.generateQRCode_success env fac profile f periods gst db
                Hf Hp Hu) as Hg.
  fold g in Hg.
  destruct (timer_ticks k (fst g)) as (T1 & _ & T3 & _);
    [rewrite Hg; reflexivity..|].
  fold st in T1, T3.
  split; [exact T3|]. split; [reflexivity|]. split; [reflexivity|].
  (* the stored session after [generateQRCode] *)
  set (sid := QRGenerator.g_autoId env) in *.
  set (sd := QRGenerator.sessionData env fac profile f periods) in *.
  assert (exists s3,
            attendance_sessions (snd g) !! sid = Some s3
            /\ s_data s3 = sd
            /\ deactivatedAt s3 = None
            /\ (isActive s3 = Some true
                /\ QRGenerator.g_loadNow env < expiry s3
                \/ isActive s3 = Some false
                   /\ expiry s3 <= QRGenerator.g_loadNow env))
    as (s3 & Hs3 & Hd3 & Hx3 & Ha3).
  { rewrite Hg. cbn [snd Trace.run fold_left Trace.step].
    rewrite ServiceExtras.getActiveSessions_lookup.
    rewrite saveQRCodeToStorage_eq.
    unfold createAttendanceSession, try_catch, addDoc_session.
    cbn [fst attendance_sessions attendance].
    rewrite lookup_insert_eq.
    set (s1 := new_session sd (QRGenerator.g_createdAt env)).
    assert (exists s2,
              attendance_sessions
                (fst (match QRGenerator.g_upload env with
                      | Some url =>
                          ({| attendance := attendance db;
                              attendance_sessions :=
                                <[sid := set_qrCode url
                                           (qr_path sid
                                              (QRGenerator.g_saveDateNow env))
                                           s1]>
                                  (<[sid := s1]> (attendance_sessions db)) |},
                           Success url)
                      | None =>
                          ({| attendance := attendance db;
                              attendance_sessions :=
                                <[sid := s1]> (attendance_sessions db) |},
                           Failure (ErrorMessage "Failed to upload QR code"))
                      end)) !! sid = Some s2
              /\ s_data s2 = sd /\ createdAt s2 = createdAt s1
              /\ isActive s2 = Some true /\ deactivatedAt s2 = None)
      as (s2 & -> & E1 & E2 & E3 & E4).
    { destruct (QRGenerator.g_upload env); cbn [fst attendance_sessions];
        rewrite lookup_insert_eq; eexists; split; try reflexivity;
        repeat split; reflexivity. }
    cbn [fmap option_fmap option_map].
    unfold query_matches. rewrite E1, E3.
    assert (String.eqb (sd_facultyId sd) (QRGenerator.uid fac) = true) as ->
      by apply String.eqb_refl.
    cbn [andb].
    destruct (bool_decide_reflect (QRGenerator.g_loadNow env < expiry s2))
      as [Hlt|Hge]; cbn [negb]; eexists; (split; [reflexivity|]).
    - repeat split; auto.
    - cbn [set_inactive s_data deactivatedAt isActive].
      repeat split; auto. right. split; [reflexivity|].
      change (expiry (set_inactive s2)) with (expiry s2). lia. }
  assert (expiry s3 = QRGenerator.g_dateNow env + 30000) as Hexp
    by (unfold expiry; rewrite Hd3; reflexivity).
  assert (sd_facultyId (s_data s3) = QRGenerator.uid fac) as Hfac
    by (rewrite Hd3; reflexivity).
  subst c. unfold QRGenerator.closeModal. cbn [snd].
  unfold QRGenerator.loadActiveSessions.
  rewrite ServiceExtras.getActiveSessions_lookup.
  rewrite T1, T3, Hg. cbn [fst QRGenerator.currentSessionId].
  rewrite <- Hg.
  destruct (bool_decide_reflect (k < 30)%nat) as [Hk|Hk].
  - rewrite deactivateSession_eq, Hs3. cbn [fst attendance_sessions].
    rewrite lookup_insert_eq. cbn [fmap option_fmap option_map].
    unfold query_matches at 1. cbn [set_deactivated isActive].
    rewrite andb_false_r. cbn [andb].
    eexists. split; [reflexivity|].
    split; [exact Hexp|]. split; [auto|lia].
  - rewrite Hs3. cbn [fmap option_fmap option_map].
    unfold query_matches. rewrite Hfac, String.eqb_refl. cbn [andb].
    destruct Ha3 as [[Ha Hl]|[Ha Hl]]; rewrite Ha.
    + destruct (bool_decide_reflect (loadNow < expiry s3)) as [Hlt|Hge];
        cbn [negb]; eexists; (split; [reflexivity|]);
        cbn [set_inactive s_data createdAt isActive deactivatedAt];
        (split; [exact Hexp|]); (split; [lia|]); intros _;
        (split; [exact Hx3|]).
      * cbn [andb]. rewrite Ha. split; [discriminate|lia].
      * cbn [andb isActive set_inactive]. split; [lia|reflexivity].
    + cbn [andb]. eexists. split; [reflexivity|].
      split; [exact Hexp|]. split; [lia|]. intros _.
      split; [exact Hx3|]. rewrite Ha. split; [lia|reflexivity].
Qed.

Lemma closeModal_ends_session_witness :
  exists s,
    attendance_sessions (snd SampleOnline.closed) !! "Xk29fJq0LmZ1" = Some s
    /\ isActive s = Some false
    /\ deactivatedAt s = Some (SampleOnline.t0 + 10000).
Proof.
  destruct (closeModal_ends_session SampleOnline.gen_env SampleSession.user
              SampleSession.profile SampleSession.form QRGenerator.initial
              empty_db 10 (SampleOnline.t0 + 10000) (SampleOnline.t0 + 10200))
    as (_ & _ & _ & s & Hs & _ & H & _); [reflexivity..|].
  exists s. split; [exact Hs|]. apply H. lia.
Defined.

End GeneratorExtras.

(** ** Attendance marked by hand *)

Module ManualExtras.

Import ManualAttendance.

Lemma initialAttendance_lookup data : forall (m : gmap string string) k,
  fold_left (fun (m : gmap string string) student =>
               <[id student := "present"]> m) data m !! k
  = if bool_decide (k ∈ id <$> data) then Some "present" else m !! k.
Proof.
  induction data as [|s data IH]; intros m k; simpl; [reflexivity|].
  rewrite IH.
  destruct (bool_decide_reflect (k ∈ id <$> data)) as [Hin|Hout].
  - rewrite bool_decide_eq_true_2 by (right; exact Hin). reflexivity.
  - destruct (decide (k = id s)) as [->|Hne].
    + rewrite lookup_insert_eq.
      rewrite bool_decide_eq_true_2 by left. reflexivity.
    + rewrite lookup_insert_ne by congruence.
      rewrite bool_decide_eq_false_2; [reflexivity|].
      intros Hin. apply elem_of_cons in Hin as [?|?]; contradiction.
Qed.

Lemma fetchStudents_filled data st0 :
  table_filled (id <$> data) (attendance (fetchStudents (Some data) st0)).
Proof.
  intros k. simpl. unfold initialAttendance.
  rewrite initialAttendance_lookup, lookup_empty.
  destruct (bool_decide_reflect (k ∈ id <$> data)) as [Hin|Hout].
  - split; [split; eauto|]. intros v [= <-]. left. reflexivity.
  - split; [|discriminate]. split; [intros [v Hv]; discriminate|].
    intros Hin. contradiction.
Qed.

Lemma choose_filled ids choices : forall st,
  Forall (fun c => fst c ∈ ids /\ offered (snd c)) choices ->
  table_filled ids (attendance st) ->
  table_filled ids (attendance (choose st choices))
  /\ students (choose st choices) = students st
  /\ school (choose st choices) = school st
  /\ batch (choose st choices) = batch st
  /\ subject (choose st choices) = subject st
  /\ date (choose st choices) = date st.
Proof.
  induction choices as [|[k v] choices IH]; intros st Hc Hf.
  - simpl. auto 10.
  - apply Forall_cons in Hc as [[Hk Hv] Hc]. simpl in Hk, Hv.
    change (choose st ((k, v) :: choices))
      with (choose (handleAttendanceChange k v st) choices).
    destruct (IH (handleAttendanceChange k v st) Hc) as (G & G0 & G1);
      [|split; [exact G|]; split; [exact G0|exact G1]].
    intros k'. simpl. destruct (decide (k' = k)) as [->|Hne].
    + rewrite lookup_insert_eq. split; [split; eauto|].
      intros v' [= <-]. exact Hv.
    + rewrite lookup_insert_ne by congruence. apply Hf.
Qed.

Lemma offered_truthy v : offered v -> Js.truthy v = true.
Proof. intros [E|[E|E]]; rewrite E; reflexivity. Qed.

Lemma status_of_filled ids m student :
  table_filled ids m ->
  id student ∈ ids ->
  m !! id student = Some (status_of m student)
  /\ offered (status_of m student).
Proof.
  intros Hf Hin. destruct (Hf (id student)) as [Hd Hv].
  apply Hd in Hin as [v Hm]. unfold status_of. rewrite Hm.
  rewrite (offered_truthy v (Hv v Hm)). split; [reflexivity|exact (Hv v Hm)].
Qed.

(** The statuses of the table are the statuses of the listed students. *)
Lemma values_of_filled (data : list Student) m :
  NoDup (id <$> data) ->
  table_filled (id <$> data) m ->
  snd <$> map_to_list m ≡ₚ status_of m <$> data.
Proof.
  intros Hnd Hf.
  assert (map_to_list m
          ≡ₚ (fun student => (id student, status_of m student)) <$> data)
    as ->.
  { apply NoDup_Permutation.
    - apply NoDup_map_to_list.
    - apply (NoDup_fmap_1 fst). rewrite <- list_fmap_compose.
      exact Hnd.
    - intros [k v]. rewrite elem_of_map_to_list, list_elem_of_fmap. split.
      + intros Hm. destruct (Hf k) as [Hd _].
        assert (k ∈ id <$> data) as Hin by (apply Hd; eauto).
        apply list_elem_of_fmap in Hin as (student & -> & Hin).
        exists student. split; [|exact Hin].
        destruct (status_of_filled _ m student Hf) as [E _].
        { apply list_elem_of_fmap. eauto. }
        f_equal. congruence.
      + intros (student & [= -> ->] & Hin).
        apply (status_of_filled (id <$> data)); [exact Hf|].
        apply list_elem_of_fmap. eauto. }
  rewrite <- list_fmap_compose. reflexivity.
Qed.

Lemma send_complete env uid st (l : list Student) : forall i,
  Forall (fun s => is_Some (fullName s) /\ is_Some (regNumber s)) l ->
  exists recs,
    send env uid st i l = (recs, true)
    /\ studentId <$> recs = id <$> l
    /\ status <$> recs = status_of (attendance st) <$> l
    /\ Forall (fun r => sessionId r = e_autoId env) recs.
Proof.
  induction l as [|s l IH]; intros i Hc.
  - exists []. repeat split; constructor.
  - apply Forall_cons in Hc as [[[name Hn] [reg Hr]] Hc].
    destruct (IH (S i) Hc) as (recs & E & H1 & H2 & H3).
    cbn [send]. unfold record_of. rewrite Hn, Hr, E.
    eexists. split; [reflexivity|].
    rewrite !fmap_cons, H1, H2. cbn [studentId status].
    repeat split. constructor; [reflexivity|exact H3].
Qed.

Lemma offered_partition (l : list string) :
  Forall offered l ->
  (length (filter (fun v => v = "present") l)
   + length (filter (fun v => v = "absent") l)
   + length (filter (fun v => v = "late") l) = length l)%nat.
Proof.
  induction 1 as [|v l Hv _ IH]; [reflexivity|].
  rewrite !filter_cons.
  destruct Hv as [E|[E|E]]; rewrite E;
    repeat (destruct (decide _) as [?|?]; try discriminate;
            try contradiction);
    simpl; lia.
Qed.

(** X24: a submission for a listed batch writes one session document and
    one attendance document per listed student, and the counts in the
    session document are the numbers of the attendance documents with the
    status present, absent and late; they add up to the number of students.
    This needs the listed students to have distinct identifiers and each a
    name and a registration number. *)
Theorem manual_counts_match_records env uid name data choices st0 db :
  NoDup (id <$> data) ->
  Forall (fun s => is_Some (fullName s) /\ is_Some (regNumber s)) data ->
  Forall (fun c => fst c ∈ id <$> data /\ offered (snd c)) choices ->
  data <> [] ->
  Js.truthy (school st0) = true -> Js.truthy (batch st0) = true ->
  Js.truthy (subject st0) = true -> Js.truthy (date st0) = true ->
  let st := choose (fetchStudents (Some data) st0) choices in
  let r := handleSubmit env uid (Some name) st db in
  exists sdoc recs,
    attendance_sessions (snd (fst r))
    = (attendance_sessions db ++ [(e_autoId env, sdoc)])%list
    /\ attendance_docs (snd (fst r)) = (attendance_docs db ++ recs)%list
    /\ studentId <$> recs = id <$> data
    /\ Forall (fun r => sessionId r = e_autoId env) recs
    /\ presentCount sdoc
       = length (filter (fun r => status r = "present") recs)
    /\ absentCount sdoc
       = length (filter (fun r => status r = "absent") recs)
    /\ lateCount sdoc = length (filter (fun r => status r = "late") recs)
    /\ (presentCount sdoc + absentCount sdoc + lateCount sdoc)%nat
       = totalStudents sdoc
    /\ totalStudents sdoc = length data
    /\ students (fst (fst r)) = []
    /\ attendance (fst (fst r)) = ∅.
Proof.
  intros Hnd Hcomplete Hchoices Hne H1 H2 H3 H4 st r.
  destruct (choose_filled (id <$> data) choices
              (fetchStudents (Some data) st0) Hchoices
              (fetchStudents_filled data st0))
    as (Hf & Es & E1 & E2 & E3 & E4).
  fold st in Hf, Es, E1, E2, E3, E4. simpl in Es, E1, E2, E3, E4.
  destruct (send_complete env uid st data 0 Hcomplete)
    as (recs & Esend & Hids & Hst & Hsid).
  pose proof (values_of_filled data (attendance st) Hnd Hf) as Hperm.
  assert (forall v,
            count v (attendance st)
            = length (filter (fun r => status r = v) recs)) as Hcount.
  { intros v. unfold count. rewrite Hperm, <- Hst.
    clear. induction recs as [|r recs IH]; [reflexivity|].
    rewrite fmap_cons, !filter_cons.
    destruct (decide (status r = v)); simpl; rewrite IH; reflexivity. }
  subst r. unfold handleSubmit.
  rewrite E1, E2, E3, E4, H1, H2, H3, H4, Es. cbn [negb orb].
  destruct data as [|s0 data']; [contradiction|].
  rewrite Esend. cbn [fst snd attendance_sessions attendance_docs students
                      attendance].
  exists (sessionData env uid name st), recs.
  split; [reflexivity|]. split; [reflexivity|].
  split; [exact Hids|]. split; [exact Hsid|].
  cbn [sessionData presentCount absentCount lateCount totalStudents].
  rewrite !Hcount, Es.
  split; [reflexivity|]. split; [reflexivity|]. split; [reflexivity|].
  split; [|auto].
  rewrite <- !Hcount. unfold count. rewrite Hperm.
  rewrite offered_partition; [apply length_fmap|].
  apply Forall_fmap, Forall_forall. intros student Hin.
  apply (status_of_filled (id <$> (s0 :: data'))); [exact Hf|].
  apply list_elem_of_fmap. eauto.
Qed.

Lemma manual_counts_match_records_witness :
  let data :=
    [{| id := "s1"; fullName := Some "Ravi"; regNumber := Some "R-1" |};
     {| id := "s2"; fullName := Some "Mina"; regNumber := Some "R-2" |};
     {| id := "s3"; fullName := Some "Arun"; regNumber := Some "R-3" |}] in
  let st0 := {| school := "sot"; batch := "sot24b1"; subject := "java";
                periods := Some 1; date := "2025-03-01"; attendance := ∅;
                students := [] |} in
  let env := {| e_createdAt := 1000; e_autoId := "M1";
                e_timestamp := fun i => 1000 + Z.of_nat i |} in
  let st := choose (fetchStudents (Some data) st0)
              [("s2", "absent"); ("s3", "late"); ("s2", "late")] in
  let r := handleSubmit env "fac1" (Some "Asha Rao") st
             {| attendance_sessions := []; attendance_docs := [] |} in
  exists sdoc recs,
    attendance_sessions (snd (fst r)) = [("M1", sdoc)]
    /\ attendance_docs (snd (fst r)) = recs
    /\ presentCount sdoc = 1%nat /\ absentCount sdoc = 0%nat
    /\ lateCount sdoc = 2%nat
    /\ status <$> recs = ["present"; "late"; "late"].
Proof.
  intros data st0 env st r.
  destruct (manual_counts_match_records env "fac1" "Asha Rao" data
              [("s2", "absent"); ("s3", "late"); ("s2", "late")] st0
              {| attendance_sessions := []; attendance_docs := [] |})
    as (sdoc & recs & E1 & E2 & _).
  - apply NoDup_ListNoDup. repeat constructor; simpl; intuition congruence.
  - repeat constructor; simpl; eauto.
  - repeat (apply Forall_cons; split;
              [split; [apply list_elem_of_In; simpl; tauto
                      |unfold offered; simpl; auto]|]).
    apply Forall_nil_2.
  - discriminate.
  - reflexivity.
  - reflexivity.
  - reflexivity.
  - reflexivity.
  - fold st r in E1, E2. exists sdoc, recs.
    split; [exact E1|]. split; [exact E2|].
    assert (sdoc = sessionData env "fac1" "Asha Rao" st) as ->.
    { revert E1. vm_compute. intros [= <-]. reflexivity. }
    assert (recs = attendance_docs (snd (fst r))) as -> by (symmetry; exact E2).
    vm_compute. repeat split; reflexivity.
Defined.

End ManualExtras.
